(** * Custom cfn-lint rules of the e-commerce platform (shared/lint/rules/custom_rules.py)

    A shallow embedding of the eight rule classes E9000 .. E9007 and of the
    Python operations they use on the parsed template (dict.get, the `in`
    operator, subscripting, iteration, truthiness, ==, re.search), followed by
    the properties of the rules.

    Python values are dynamically typed; an operation applied to a value of
    the wrong type raises.  Every fallible operation therefore returns a
    [result], and the rules are written in the error monad in the order in
    which the source evaluates them. *)

From Stdlib Require Import List String Ascii ZArith Bool Lia Arith.
From Stdlib Require Import Permutation.
Import ListNotations.
Local Open Scope string_scope.
Local Open Scope list_scope.
Set Warnings "-register-all".

(* ================================================================== *)
(** * Python values *)
(* ================================================================== *)

Module Py.

(** A parsed template is a tree of dicts, lists and scalars.  A dict is kept
    as an association list in insertion order; its keys are strings (template
    keys always are) and are pairwise distinct in a well-formed dict.
    Characters are the 8-bit [ascii]; numbers are integers. *)
Inductive value : Type :=
| VNone
| VBool (b : bool)
| VInt (z : Z)
| VStr (s : string)
| VList (l : list value)
| VDict (d : list (string * value)).

Definition dict := list (string * value).

(** The exceptions the rules can raise. *)
Inductive exn : Type := AttributeError | TypeError | KeyError | IndexError.

Inductive result (A : Type) : Type :=
| Ok (a : A)
| Raise (e : exn).
Arguments Ok {A} a.
Arguments Raise {A} e.

Definition bind {A B} (m : result A) (k : A -> result B) : result B :=
  match m with
  | Ok a => k a
  | Raise e => Raise e
  end.

Notation "x <- m ;; k" := (bind m (fun x => k))
  (at level 61, m at next level, right associativity).


(** ** Dicts *)

Fixpoint dict_get (k : string) (d : dict) : option value :=
  match d with
  | [] => None
  | (k', v) :: d' => if String.eqb k k' then Some v else dict_get k d'
  end.

Definition dict_keys (d : dict) : list string := map fst d.
Definition dict_values (d : dict) : list value := map snd d.

Definition dict_mem (k : string) (d : dict) : bool :=
  match dict_get k d with Some _ => true | None => false end.

Fixpoint mem_string (x : string) (l : list string) : bool :=
  match l with
  | [] => false
  | y :: l' => String.eqb x y || mem_string x l'
  end.

Fixpoint nodup_keys (l : list string) : bool :=
  match l with
  | [] => true
  | x :: l' => negb (mem_string x l') && nodup_keys l'
  end.

(** The representation invariant of a Python dict: no key occurs twice. *)
Definition dict_wf (d : dict) : Prop := NoDup (dict_keys d).

(** ** Strings *)

Fixpoint prefix_of (p s : string) : bool :=
  match p, s with
  | EmptyString, _ => true
  | String a p', String b s' => Ascii.eqb a b && prefix_of p' s'
  | String _ _, EmptyString => false
  end.

(** [p in s] for two strings: [p] occurs in [s] as a contiguous substring. *)
Fixpoint str_contains (p s : string) : bool :=
  prefix_of p s ||
  match s with
  | EmptyString => false
  | String _ s' => str_contains p s'
  end.

(** The characters of a string, each as a one-character string (iteration
    over a str). *)
Fixpoint str_chars (s : string) : list value :=
  match s with
  | EmptyString => []
  | String c s' => VStr (String c EmptyString) :: str_chars s'
  end.

(** ** Equality, truthiness, identity with None *)

(** [a == b].  bool is a subclass of int, so [True == 1]; dicts compare
    without regard to order. *)
Fixpoint py_eq (a b : value) {struct a} : bool :=
  match a, b with
  | VNone, VNone => true
  | VBool x, VBool y => Bool.eqb x y
  | VBool x, VInt y => Z.eqb (if x then 1 else 0) y
  | VInt x, VBool y => Z.eqb x (if y then 1 else 0)
  | VInt x, VInt y => Z.eqb x y
  | VStr x, VStr y => String.eqb x y
  | VList xs, VList ys =>
      (fix eq_list (xs ys : list value) {struct xs} : bool :=
         match xs, ys with
         | [], [] => true
         | x :: xs', y :: ys' => py_eq x y && eq_list xs' ys'
         | _, _ => false
         end) xs ys
  | VDict d1, VDict d2 =>
      Nat.eqb (List.length d1) (List.length d2) &&
      (fix eq_items (d : dict) {struct d} : bool :=
         match d with
         | [] => true
         | (k, v) :: d' =>
             match dict_get k d2 with
             | Some v' => py_eq v v'
             | None => false
             end && eq_items d'
         end) d1
  | _, _ => false
  end.

(** [bool(v)], the test made by [not v] and [if v]. *)
Definition py_truthy (v : value) : bool :=
  match v with
  | VNone => false
  | VBool b => b
  | VInt z => negb (Z.eqb z 0)
  | VStr s => negb (String.eqb s "")
  | VList l => match l with [] => false | _ => true end
  | VDict d => match d with [] => false | _ => true end
  end.

(** [v is None] *)
Definition is_None (v : value) : bool :=
  match v with VNone => true | _ => false end.

(** [isinstance(v, dict)] *)
Definition isinstance_dict (v : value) : bool :=
  match v with VDict _ => true | _ => false end.

(** ** Fallible operations *)

(** [v.get(k, default)]: only dicts have a [get] method. *)
Definition py_get (v : value) (k : string) (default : value) : result value :=
  match v with
  | VDict d => Ok (match dict_get k d with Some x => x | None => default end)
  | _ => Raise AttributeError
  end.

(** [x in v].  A dict is searched by key (an unhashable [x] raises), a list
    by [==] on its elements, a str for a substring (a non-str [x] raises);
    the scalars are not iterable. *)
Definition py_contains (x v : value) : result bool :=
  match v with
  | VDict d =>
      match x with
      | VStr k => Ok (dict_mem k d)
      | VList _ | VDict _ => Raise TypeError
      | _ => Ok false
      end
  | VList l => Ok (existsb (py_eq x) l)
  | VStr s =>
      match x with
      | VStr p => Ok (str_contains p s)
      | _ => Raise TypeError
      end
  | VNone | VBool _ | VInt _ => Raise TypeError
  end.

(** [x in d.keys()] for a keys view. *)
Definition keys_contains (x : value) (d : dict) : result bool :=
  py_contains x (VDict d).

(** [v[k]] with a string key. *)
Definition py_getitem (v : value) (k : string) : result value :=
  match v with
  | VDict d =>
      match dict_get k d with
      | Some x => Ok x
      | None => Raise KeyError
      end
  | _ => Raise TypeError
  end.

(** [v[0]] *)
Definition py_getitem0 (v : value) : result value :=
  match v with
  | VList l => match l with x :: _ => Ok x | [] => Raise IndexError end
  | VStr s =>
      match s with
      | String c _ => Ok (VStr (String c EmptyString))
      | EmptyString => Raise IndexError
      end
  | VDict _ => Raise KeyError
  | VNone | VBool _ | VInt _ => Raise TypeError
  end.

(** The items a [for] loop over [v] visits. *)
Definition py_iter (v : value) : result (list value) :=
  match v with
  | VList l => Ok l
  | VDict d => Ok (map VStr (dict_keys d))
  | VStr s => Ok (str_chars s)
  | VNone | VBool _ | VInt _ => Raise TypeError
  end.

(** A loop whose body appends to an accumulator: the body returns what it
    appends, the loop stops at the first iteration that raises. *)
Fixpoint for_each {A B} (body : A -> result (list B)) (l : list A)
  : result (list B) :=
  match l with
  | [] => Ok []
  | x :: l' =>
      ys <- body x ;;
      rest <- for_each body l' ;;
      Ok (ys ++ rest)
  end.

End Py.
Import Py.

(* ================================================================== *)
(** * The regular expression of the log-group rule *)
(* ================================================================== *)

Module Re.

(** [re.search(r"\${(?P<func>[^}]+)}", s)]: the leftmost position at which
    the text reads dollar, open brace, one or more characters other than a
    closing brace, closing brace.  The class [[^}]] has no other exception
    (it accepts a newline, a dollar and an open brace), and the greedy
    repetition can only end before a closing brace or at the end of the text,
    so a position matches exactly when the longest brace-free run after the
    opening is not empty and is followed by a closing brace. *)

(** The longest prefix without a closing brace, and what follows it. *)
Fixpoint span_ident (s : string) : string * string :=
  match s with
  | EmptyString => (EmptyString, EmptyString)
  | String c s' =>
      if Ascii.eqb c "}" then (EmptyString, s)
      else let (f, r) := span_ident s' in (String c f, r)
  end.

(** A match that starts at the first character; the result is the group
    [func]. *)
Definition match_here (s : string) : option string :=
  match s with
  | String "$" (String "{" body) =>
      match span_ident body with
      | (String c f, String "}" _) => Some (String c f)
      | _ => None
      end
  | _ => None
  end.

(** The group [func] of the leftmost match, if there is a match. *)
Fixpoint search (s : string) : option string :=
  match match_here s with
  | Some f => Some f
  | None =>
      match s with
      | EmptyString => None
      | String _ s' => search s'
      end
  end.

(** [re.search] on a Python value: anything but a str raises TypeError. *)
Definition re_search (v : value) : result (option string) :=
  match v with
  | VStr s => Ok (search s)
  | _ => Raise TypeError
  end.

End Re.

(* ================================================================== *)
(** * The template interface and the rule matches *)
(* ================================================================== *)

(** Modelled from the spec: the template object [cfn] is cfn-lint's, not part
    of this repository.  Section 3 and section 6: a template owns the sections
    Parameters and Resources, each a mapping; an absent section is an empty
    mapping; both are read only. *)
Record Template : Type := mkTemplate {
  Parameters : dict;
  Resources : dict
}.

(** Modelled from the spec: section 4.1, the Parameters section as a
    mapping. *)
Definition get_parameters (cfn : Template) : dict := Parameters cfn.

(** The type tag of a resource body: the string under its key [Type]. *)
Definition type_tag (v : value) : option string :=
  match v with
  | VDict d =>
      match dict_get "Type" d with
      | Some (VStr t) => Some t
      | _ => None
      end
  | _ => None
  end.

Definition has_type (resource_type : list string) (kv : string * value) : bool :=
  match type_tag (snd kv) with
  | Some t => mem_string t resource_type
  | None => false
  end.

(** Modelled from the spec: section 4.1, [get_resources(type_filter)] returns
    the resources whose type tag is one of the given filters, in document
    order.  A call with one type name is a call with the one-element list. *)
Definition get_resources (cfn : Template) (resource_type : list string) : dict :=
  filter (has_type resource_type) (Resources cfn).

(** [fmt.format(args)], kept as the format string and its arguments (the
    rendering of the arguments is not needed by any property below). *)
Inductive message : Type :=
| Format (fmt : string) (args : list value).

(** cfn-lint's [RuleMatch(path, message)]. *)
Record RuleMatch : Type := mkRuleMatch {
  path : list string;
  msg : message
}.

Fixpoint path_eqb (p q : list string) : bool :=
  match p, q with
  | [], [] => true
  | a :: p', b :: q' => String.eqb a b && path_eqb p' q'
  | _, _ => false
  end.

(** The number of matches reported at a path. *)
Definition count_at (p : list string) (ms : list RuleMatch) : nat :=
  List.length (filter (fun m => path_eqb (path m) p) ms).

(** The matches reported for the resource [key]. *)
Definition violations_for (key : string) (ms : list RuleMatch) : nat :=
  count_at ["Resources"; key] ms.

(* ================================================================== *)
(** * The store of list objects *)
(* ================================================================== *)

(** The class attribute [MandatoryParametersRule._mandatory_parameters] is one
    list object shared by every call of [match]; [copy.deepcopy] makes a second
    object.  List objects live in a store addressed by location, so that a
    mutation through one name is seen through every alias of it. *)
Module Store.

Definition loc := nat.
Definition store := list (list string).

Definition read (h : store) (l : loc) : list string := nth l h [].

Fixpoint write (l : loc) (v : list string) (h : store) : store :=
  match h, l with
  | [], _ => []
  | _ :: h', O => v :: h'
  | x :: h', S l' => x :: write l' v h'
  end.

(** A new object is placed after the existing ones. *)
Definition alloc (v : list string) (h : store) : loc * store :=
  (List.length h, h ++ [v]).

(** [copy.deepcopy] of a list of strings: a new object with equal content. *)
Definition deepcopy (l : loc) (h : store) : loc * store :=
  alloc (read h l) h.

(** [l.remove(x)]: the first occurrence of [x] is removed (the source calls
    it only after testing [x in l]). *)
Fixpoint list_remove (x : string) (l : list string) : list string :=
  match l with
  | [] => []
  | y :: l' => if String.eqb x y then l' else y :: list_remove x l'
  end.

Definition remove (l : loc) (x : string) (h : store) : store :=
  write l (list_remove x (read h l)) h.

End Store.

(* ================================================================== *)
(** * The rules *)
(* ================================================================== *)

(** ** E9000, mandatory parameters *)
Module MandatoryParametersRule.

Definition id := "E9000".
Definition _message := "Missing parameter '{}'".

(** The store at class definition: the attribute [_mandatory_parameters] is
    the list object at location 0. *)
Definition _mandatory_parameters : Store.loc := 0%nat.
Definition initial_store : Store.store := [["Environment"]].

(** The loop over the parameter names: a name found in the local list is
    removed from it. *)
Definition remove_present (mandatory_parameters : Store.loc)
    (keys : list string) (h : Store.store) : Store.store :=
  fold_left
    (fun h key =>
       if mem_string key (Store.read h mandatory_parameters)
       then Store.remove mandatory_parameters key h
       else h)
    keys h.

(** [match(self, cfn)], from the store before the call to the matches and
    the store after it. *)
Definition match_ (self_mandatory_parameters : Store.loc) (cfn : Template)
    (h : Store.store) : list RuleMatch * Store.store :=
  let (mandatory_parameters, h1) := Store.deepcopy self_mandatory_parameters h in
  let h2 := remove_present mandatory_parameters (dict_keys (get_parameters cfn)) h1 in
  (map (fun param => mkRuleMatch ["Parameters"] (Format _message [VStr param]))
       (Store.read h2 mandatory_parameters),
   h2).

End MandatoryParametersRule.

(** ** E9001, Python 3.9 runtime *)
Module Python39Rule.

Definition id := "E9001".
Definition _runtime := "python3.9".
Definition _message := "Function is using {} runtime instead of {}".

(** The body of the loop over the functions. *)
Definition check (kv : string * value) : result (list RuleMatch) :=
  let (key, value) := kv in
  props <- py_get value "Properties" VNone ;;
  runtime <- py_get props "Runtime" VNone ;;
  if negb (py_eq runtime (VStr _runtime)) then
    props' <- py_get value "Properties" VNone ;;
    runtime' <- py_get props' "Runtime" VNone ;;
    Ok [mkRuleMatch ["Resources"; key]
          (Format _message [runtime'; VStr _runtime])]
  else Ok [].

Definition match_ (cfn : Template) : result (list RuleMatch) :=
  for_each check (get_resources cfn ["AWS::Lambda::Function"]).

End Python39Rule.

(** ** E9002, log group of a function *)
Module LambdaLogGroupRule.

Definition id := "E9002".
Definition _message := "Function {} does not have a corresponding log group".

(** The body of the scan of the log groups: what one log group appends to
    [known]. *)
Definition scan_log_group (resource : value) : result (list string) :=
  props <- py_get resource "Properties" VNone ;;
  named <- py_contains (VStr "LogGroupName") props ;;
  if negb named then Ok []
  else
    props' <- py_get resource "Properties" VNone ;;
    log_group_name <- py_get props' "LogGroupName" VNone ;;
    if negb (isinstance_dict log_group_name) then Ok []
    else
      is_sub <- py_contains (VStr "Fn::Sub") log_group_name ;;
      if negb is_sub then Ok []
      else
        sub <- py_getitem log_group_name "Fn::Sub" ;;
        m <- Re.re_search sub ;;
        match m with
        | Some func => Ok [func]
        | None => Ok []
        end.

(** The body of the scan of the functions. *)
Definition check_function (known : list string) (function : string)
  : list RuleMatch :=
  if negb (mem_string function known)
  then [mkRuleMatch ["Resources"; function] (Format _message [VStr function])]
  else [].

Definition match_ (cfn : Template) : result (list RuleMatch) :=
  let functions := get_resources cfn ["AWS::Lambda::Function"] in
  let log_groups := get_resources cfn ["AWS::Logs::LogGroup"] in
  known <- for_each scan_log_group (dict_values log_groups) ;;
  Ok (flat_map (check_function known) (dict_keys functions)).

End LambdaLogGroupRule.

(** [v.get("Properties", {}).get("DestinationConfig", {}).get("OnFailure", None)],
    the chain shared by E9003 and E9004. *)
Definition on_failure (resource : value) : result value :=
  props <- py_get resource "Properties" (VDict []) ;;
  dest <- py_get props "DestinationConfig" (VDict []) ;;
  py_get dest "OnFailure" VNone.

(** ** E9003, failure destination of an event source mapping *)
Module LambdaESMDestinationConfig.

Definition id := "E9003".
Definition _message :=
  "Event Source Mapping {} does not have a DestinationConfig with OnFailure destination".

Definition check (kv : string * value) : result (list RuleMatch) :=
  let (key, resource) := kv in
  dest <- on_failure resource ;;
  if is_None dest
  then Ok [mkRuleMatch ["Resources"; key] (Format _message [VStr key])]
  else Ok [].

Definition match_ (cfn : Template) : result (list RuleMatch) :=
  let sources := get_resources cfn ["AWS::Lambda::EventSourceMapping"] in
  for_each check sources.

End LambdaESMDestinationConfig.

(** ** E9004, event invoke config of a function invoked by an events rule *)
Module LambdaRuleInvokeConfig.

Definition id := "E9004".
Definition _message :=
  "Rule {} does not have a corresponding Event Invoke Config with OnFailure destination".

(** What one EventInvokeConfig appends to [invoke_config_functions]. *)
Definition scan_invoke_config (resource : value) : result (list value) :=
  dest <- on_failure resource ;;
  if is_None dest then Ok []
  else
    props <- py_getitem resource "Properties" ;;
    function_name <- py_getitem props "FunctionName" ;;
    ref <- py_getitem function_name "Ref" ;;
    Ok [ref].

(** [target["Arn"]["Fn::GetAtt"][0]] *)
Definition getatt_head (target : value) : result value :=
  arn <- py_getitem target "Arn" ;;
  getatt <- py_getitem arn "Fn::GetAtt" ;;
  py_getitem0 getatt.

(** The body of the loop over the targets of one rule: does the target
    append a match? *)
Definition target_unconfigured (function_names : dict)
    (invoke_config_functions : list value) (target : value) : result bool :=
  arn <- py_get target "Arn" (VDict []) ;;
  getatt <- py_get arn "Fn::GetAtt" VNone ;;
  if is_None getatt then Ok false
  else
    head <- getatt_head target ;;
    is_function <- keys_contains head function_names ;;
    if negb is_function then Ok false
    else
      function_name <- getatt_head target ;;
      Ok (negb (existsb (py_eq function_name) invoke_config_functions)).

Definition check_target (function_names : dict)
    (invoke_config_functions : list value) (key : string) (target : value)
  : result (list RuleMatch) :=
  flagged <- target_unconfigured function_names invoke_config_functions target ;;
  if (flagged : bool)
  then Ok [mkRuleMatch ["Resources"; key] (Format _message [VStr key])]
  else Ok [].

(** [resource.get("Properties", {}).get("Targets", [])], as the loop visits
    it. *)
Definition targets_of (resource : value) : result (list value) :=
  props <- py_get resource "Properties" (VDict []) ;;
  targets <- py_get props "Targets" (VList []) ;;
  py_iter targets.

Definition check_rule (function_names : dict)
    (invoke_config_functions : list value) (kv : string * value)
  : result (list RuleMatch) :=
  let (key, resource) := kv in
  targets <- targets_of resource ;;
  for_each (check_target function_names invoke_config_functions key) targets.

Definition match_ (cfn : Template) : result (list RuleMatch) :=
  let function_names := get_resources cfn ["AWS::Lambda::Function"] in
  let rules := get_resources cfn ["AWS::Events::Rule"] in
  let invoke_configs := get_resources cfn ["AWS::Lambda::EventInvokeConfig"] in
  invoke_config_functions <-
    for_each scan_invoke_config (dict_values invoke_configs) ;;
  for_each (check_rule function_names invoke_config_functions) rules.

End LambdaRuleInvokeConfig.

(** ** E9005, Lambda Insights layer *)
Module LambdaInsightsLayer.

Definition id := "E9005".
Definition _message :=
  "Function {} does not use the CloudWatch Lambda Insights layer".
Definition _layer_pattern : value :=
  VDict [("Fn::Sub",
          VStr "arn:aws:lambda:${AWS::Region}:580247275435:layer:LambdaInsightsExtension:2")].

(** [resource.get("Properties", {}).get("Layers", [])] *)
Definition layers_of (resource : value) : result value :=
  props <- py_get resource "Properties" (VDict []) ;;
  py_get props "Layers" (VList []).

Definition check (kv : string * value) : result (list RuleMatch) :=
  let (key, resource) := kv in
  layers <- layers_of resource ;;
  present <- py_contains _layer_pattern layers ;;
  if negb present
  then Ok [mkRuleMatch ["Resources"; key] (Format _message [VStr key])]
  else Ok [].

Definition match_ (cfn : Template) : result (list RuleMatch) :=
  let functions := get_resources cfn ["AWS::Lambda::Function"] in
  for_each check functions.

End LambdaInsightsLayer.

(** ** E9006, Lambda Insights managed policy *)
Module LambdaInsightsPermission.

Definition id := "E9006".
Definition _message :=
  "Function {} does not have the CloudWatch Lambda Insights managed policy".
Definition _policy_arn :=
  "arn:aws:iam::aws:policy/CloudWatchLambdaInsightsExecutionRolePolicy".

(** The name of the role of a function, [f"{function_name}Role"]. *)
Definition role_name (function_name : string) : string :=
  String.append function_name "Role".

(** [role.get("Properties", {}).get("ManagedPolicyArns", [])] *)
Definition managed_policy_arns (role : value) : result value :=
  props <- py_get role "Properties" (VDict []) ;;
  py_get props "ManagedPolicyArns" (VList []).

Definition check (roles : dict) (function_name : string)
  : result (list RuleMatch) :=
  role <- py_getitem (VDict roles) (role_name function_name) ;;
  arns <- managed_policy_arns role ;;
  present <- py_contains (VStr _policy_arn) arns ;;
  if negb present
  then Ok [mkRuleMatch ["Resources"; function_name]
             (Format _message [VStr function_name])]
  else Ok [].

Definition match_ (cfn : Template) : result (list RuleMatch) :=
  let function_names := dict_keys (get_resources cfn ["AWS::Lambda::Function"]) in
  let roles := get_resources cfn ["AWS::IAM::Role"] in
  for_each (check roles) function_names.

End LambdaInsightsPermission.

(** ** E9007, source condition on events:PutEvents *)
Module IAMPutEventsConditions.

Definition id := "E9007".
Definition _message :=
  "IAM role {} does not have an events:source condition for the events:PutEvents action".

(** [statement.get("Condition", {}).get("StringEquals", {}).get("events:source", None)] *)
Definition source_condition (statement : value) : result value :=
  condition <- py_get statement "Condition" (VDict []) ;;
  string_equals <- py_get condition "StringEquals" (VDict []) ;;
  py_get string_equals "events:source" VNone.

(** The test made on one statement: the action is there and the condition
    value is missing or falsy. *)
Definition statement_unrestricted (statement : value) : result bool :=
  action <- py_get statement "Action" (VDict []) ;;
  has_action <- py_contains (VStr "events:PutEvents") action ;;
  if (has_action : bool) then
    source <- source_condition statement ;;
    Ok (negb (py_truthy source))
  else Ok false.

(** The loop of [_match_policy]: it returns at the first statement that
    passes the test and does not look at the ones after it. *)
Fixpoint first_unrestricted (statements : list value) : result bool :=
  match statements with
  | [] => Ok false
  | statement :: rest =>
      hit <- statement_unrestricted statement ;;
      if (hit : bool) then Ok true else first_unrestricted rest
  end.

(** [policy.get("PolicyDocument", {}).get("Statement", [])], as the loop
    visits it. *)
Definition statements_of (policy : value) : result (list value) :=
  document <- py_get policy "PolicyDocument" (VDict []) ;;
  statement <- py_get document "Statement" (VList []) ;;
  py_iter statement.

Definition _match_policy (policy : value) : result bool :=
  statements <- statements_of policy ;;
  first_unrestricted statements.

(** The loop over the policies of a role: every policy is examined, also
    after [found] has been set. *)
Fixpoint any_policy (found : bool) (policies : list value) : result bool :=
  match policies with
  | [] => Ok found
  | policy :: rest =>
      hit <- _match_policy policy ;;
      any_policy (if (hit : bool) then true else found) rest
  end.

(** [role.get("Properties", {}).get("Policies", [])], as the loop visits
    it. *)
Definition policies_of (role : value) : result (list value) :=
  props <- py_get role "Properties" (VDict []) ;;
  policies <- py_get props "Policies" (VList []) ;;
  py_iter policies.

Definition check (kv : string * value) : result (list RuleMatch) :=
  let (role_name, role) := kv in
  policies <- policies_of role ;;
  found <- any_policy false policies ;;
  if (found : bool)
  then Ok [mkRuleMatch ["Resources"; role_name] (Format _message [VStr role_name])]
  else Ok [].

Definition match_ (cfn : Template) : result (list RuleMatch) :=
  let roles := get_resources cfn ["AWS::IAM::Role"] in
  for_each check roles.

End IAMPutEventsConditions.

(** ** The rules as the engine sees them *)

(** A rule takes the template and the store and gives its outcome and the
    store it leaves. *)
Definition rule := Template -> Store.store -> result (list RuleMatch) * Store.store.

(** A rule whose [match] touches no shared object. *)
Definition stateless (m : Template -> result (list RuleMatch)) : rule :=
  fun cfn h => (m cfn, h).

Definition mandatory_parameters_rule : rule :=
  fun cfn h =>
    let (ms, h') :=
      MandatoryParametersRule.match_
        MandatoryParametersRule._mandatory_parameters cfn h in
    (Ok ms, h').

Definition all_rules : list (string * rule) :=
  [ (MandatoryParametersRule.id, mandatory_parameters_rule);
    (Python39Rule.id, stateless Python39Rule.match_);
    (LambdaLogGroupRule.id, stateless LambdaLogGroupRule.match_);
    (LambdaESMDestinationConfig.id, stateless LambdaESMDestinationConfig.match_);
    (LambdaRuleInvokeConfig.id, stateless LambdaRuleInvokeConfig.match_);
    (LambdaInsightsLayer.id, stateless LambdaInsightsLayer.match_);
    (LambdaInsightsPermission.id, stateless LambdaInsightsPermission.match_);
    (IAMPutEventsConditions.id, stateless IAMPutEventsConditions.match_) ].

(* ================================================================== *)
(** * Vocabulary of the properties *)
(* ================================================================== *)

(** What a loop body appends when it does not raise. *)
Definition appended {A B} (body : A -> result (list B)) (x : A) : list B :=
  match body x with
  | Ok ys => ys
  | Raise _ => []
  end.

Definition is_Ok_true (r : result bool) : bool :=
  match r with
  | Ok true => true
  | _ => false
  end.

(** A match of E9000 that names the parameter [name]. *)
Definition names_parameter (name : string) (m : RuleMatch) : bool :=
  path_eqb (path m) ["Parameters"] &&
  match msg m with
  | Format _ [VStr s] => String.eqb s name
  | _ => false
  end.

Definition missing_parameter (name : string) : RuleMatch :=
  mkRuleMatch ["Parameters"]
    (Format MandatoryParametersRule._message [VStr name]).

(** The matches that the rules report for a resource. *)
Definition log_group_match (function : string) : RuleMatch :=
  mkRuleMatch ["Resources"; function]
    (Format LambdaLogGroupRule._message [VStr function]).

Definition invoke_config_match (key : string) : RuleMatch :=
  mkRuleMatch ["Resources"; key]
    (Format LambdaRuleInvokeConfig._message [VStr key]).

Definition layer_match (key : string) : RuleMatch :=
  mkRuleMatch ["Resources"; key]
    (Format LambdaInsightsLayer._message [VStr key]).


Definition put_events_match (role_name : string) : RuleMatch :=
  mkRuleMatch ["Resources"; role_name]
    (Format IAMPutEventsConditions._message [VStr role_name]).

Definition destination_match (key : string) : RuleMatch :=
  mkRuleMatch ["Resources"; key]
    (Format LambdaESMDestinationConfig._message [VStr key]).

(** The template string of a log group whose LogGroupName is an
    interpolation [{"Fn::Sub": s}]. *)
Definition interpolation_string (resource : value) : option string :=
  match resource with
  | VDict d =>
      match dict_get "Properties" d with
      | Some (VDict props) =>
          match dict_get "LogGroupName" props with
          | Some (VDict name) =>
              match dict_get "Fn::Sub" name with
              | Some (VStr s) => Some s
              | _ => None
              end
          | _ => None
          end
      | _ => None
      end
  | _ => None
  end.

(** Modelled from the spec: section 4.2, [extract_interpolation_refs], which
    the source does not contain: the string is scanned from left to right and
    the identifier of every well-formed span is collected, in order; a span
    is not looked into again ([skip] counts the characters of the span still
    to pass). *)
Fixpoint refs_from (skip : nat) (s : string) : list string :=
  match s with
  | EmptyString => []
  | String _ s' =>
      match skip with
      | S n => refs_from n s'
      | O =>
          match Re.match_here s with
          | Some f => f :: refs_from (String.length f + 2) s'
          | None => refs_from 0 s'
          end
      end
  end.

Definition extract_interpolation_refs (s : string) : list string :=
  refs_from 0 s.

(** Modelled from the spec: the covered set of the log-group rule as section
    4.5 words it, the reference of every log group whose name is an
    interpolation with exactly one embedded reference. *)
Definition covered_by_spec (cfn : Template) : list string :=
  flat_map
    (fun resource =>
       match interpolation_string resource with
       | Some s =>
           match extract_interpolation_refs s with
           | [func] => [func]
           | _ => []
           end
       | None => []
       end)
    (dict_values (get_resources cfn ["AWS::Logs::LogGroup"])).

(** The function that an EventInvokeConfig with a failure destination
    refers to: the value under Properties, FunctionName, Ref, when the value
    under Properties, DestinationConfig, OnFailure is there and is not
    None. *)
Definition configured_function (resource : value) : option value :=
  match resource with
  | VDict d =>
      match dict_get "Properties" d with
      | Some (VDict props) =>
          match dict_get "DestinationConfig" props with
          | Some (VDict dest) =>
              match dict_get "OnFailure" dest with
              | Some destination =>
                  if is_None destination then None
                  else
                    match dict_get "FunctionName" props with
                    | Some (VDict function_name) =>
                        dict_get "Ref" function_name
                    | _ => None
                    end
              | None => None
              end
          | _ => None
          end
      | _ => None
      end
  | _ => None
  end.

(** The targets of an events rule that E9004 reports. *)
Definition unconfigured_targets (function_names : dict)
    (invoke_config_functions targets : list value) : list value :=
  filter
    (fun target =>
       is_Ok_true
         (LambdaRuleInvokeConfig.target_unconfigured
            function_names invoke_config_functions target))
    targets.

(** A resource without a Properties key, given an empty one. *)
Definition with_empty_properties (resource : value) : value :=
  match resource with
  | VDict d =>
      if dict_mem "Properties" d then resource
      else VDict (d ++ [("Properties", VDict [])])
  | _ => resource
  end.

Definition fill_entry (kv : string * value) : string * value :=
  (fst kv, with_empty_properties (snd kv)).

(** The template in which every resource without Properties has an empty
    Properties object. *)
Definition fill_properties (cfn : Template) : Template :=
  mkTemplate (Parameters cfn) (map fill_entry (Resources cfn)).





(** The content of the local list of E9000 after the loop over the
    parameter names [keys], from its content [current] before it. *)
Definition surviving (keys current : list string) : list string :=
  fold_left
    (fun current key =>
       if mem_string key current then Store.list_remove key current
       else current)
    keys current.

(** ** Expected shapes

    The shapes of the resources on which the rules return: the values the
    rules look into are objects or lists where the rules expect them. *)

(** The Properties of a resource, the empty object when the key is absent. *)
Definition properties_of (resource : value) : option dict :=
  match resource with
  | VDict d =>
      match dict_get "Properties" d with
      | None => Some []
      | Some (VDict props) => Some props
      | Some _ => None
      end
  | _ => None
  end.

(** E9005: Layers absent or a list. *)
Definition layers_shaped (resource : value) : bool :=
  match properties_of resource with
  | Some props =>
      match dict_get "Layers" props with
      | None | Some (VList _) => true
      | Some _ => false
      end
  | None => false
  end.

(** E9002: Properties an object; a LogGroupName that is an object with the
    key Fn::Sub has a string under it. *)
Definition log_group_shaped (resource : value) : bool :=
  match resource with
  | VDict d =>
      match dict_get "Properties" d with
      | Some (VDict props) =>
          match dict_get "LogGroupName" props with
          | Some (VDict name) =>
              match dict_get "Fn::Sub" name with
              | None | Some (VStr _) => true
              | Some _ => false
              end
          | _ => true
          end
      | _ => false
      end
  | _ => false
  end.

(** E9007: a statement is an object; its Action is absent, a string, a list
    or an object; Condition and StringEquals are absent or objects. *)
Definition statement_shaped (statement : value) : bool :=
  match statement with
  | VDict d =>
      match dict_get "Action" d with
      | None | Some (VStr _) | Some (VList _) | Some (VDict _) => true
      | Some _ => false
      end &&
      match dict_get "Condition" d with
      | None => true
      | Some (VDict condition) =>
          match dict_get "StringEquals" condition with
          | None | Some (VDict _) => true
          | Some _ => false
          end
      | Some _ => false
      end
  | _ => false
  end.

Definition policy_shaped (policy : value) : bool :=
  match policy with
  | VDict d =>
      match dict_get "PolicyDocument" d with
      | None => true
      | Some (VDict document) =>
          match dict_get "Statement" document with
          | None => true
          | Some (VList statements) => forallb statement_shaped statements
          | Some _ => false
          end
      | Some _ => false
      end
  | _ => false
  end.

Definition policies_shaped (role : value) : bool :=
  match properties_of role with
  | Some props =>
      match dict_get "Policies" props with
      | None => true
      | Some (VList policies) => forallb policy_shaped policies
      | Some _ => false
      end
  | None => false
  end.

(** E9004: a target is an object whose Arn is absent or an object; an
    attribute reference under it is a list or a string that begins with a
    string. *)
Definition target_shaped (target : value) : bool :=
  match target with
  | VDict d =>
      match dict_get "Arn" d with
      | None => true
      | Some (VDict arn) =>
          match dict_get "Fn::GetAtt" arn with
          | None | Some VNone => true
          | Some (VList (VStr _ :: _)) => true
          | Some (VStr (String _ _)) => true
          | Some _ => false
          end
      | Some _ => false
      end
  | _ => false
  end.

Definition events_rule_shaped (resource : value) : bool :=
  match properties_of resource with
  | Some props =>
      match dict_get "Targets" props with
      | None => true
      | Some (VList targets) => forallb target_shaped targets
      | Some _ => false
      end
  | None => false
  end.

(** E9004: DestinationConfig absent or an object; an EventInvokeConfig with
    a failure destination refers to its function by Ref. *)
Definition invoke_config_shaped (resource : value) : bool :=
  match properties_of resource with
  | Some props =>
      match dict_get "DestinationConfig" props with
      | None => true
      | Some (VDict dest) =>
          match dict_get "OnFailure" dest with
          | None | Some VNone => true
          | Some _ =>
              match dict_get "FunctionName" props with
              | Some (VDict function_name) => dict_mem "Ref" function_name
              | _ => false
              end
          end
      | Some _ => false
      end
  | None => false
  end.

(** ** Vocabulary of the further properties *)

(** The value that E9001 compares with the pinned runtime: the Runtime of
    the Properties object, None when the key is missing. *)
Definition runtime_of (props : dict) : value :=
  match dict_get "Runtime" props with
  | Some runtime => runtime
  | None => VNone
  end.

Definition runtime_match (key : string) (runtime : value) : RuleMatch :=
  mkRuleMatch ["Resources"; key]
    (Format Python39Rule._message [runtime; VStr Python39Rule._runtime]).

(** The resource has a Properties key with an object under it. *)
Definition has_properties_object (resource : value) : bool :=
  match resource with
  | VDict d =>
      match dict_get "Properties" d with
      | Some (VDict _) => true
      | _ => false
      end
  | _ => false
  end.

(** E9003: there is a value other than None under Properties,
    DestinationConfig, OnFailure. *)
Definition has_failure_destination (resource : value) : bool :=
  match resource with
  | VDict d =>
      match dict_get "Properties" d with
      | Some (VDict props) =>
          match dict_get "DestinationConfig" props with
          | Some (VDict dest) =>
              match dict_get "OnFailure" dest with
              | Some destination => negb (is_None destination)
              | None => false
              end
          | _ => false
          end
      | _ => false
      end
  | _ => false
  end.

(** E9003: Properties and DestinationConfig are absent or objects. *)
Definition destination_config_shaped (resource : value) : bool :=
  match properties_of resource with
  | Some props =>
      match dict_get "DestinationConfig" props with
      | None | Some (VDict _) => true
      | Some _ => false
      end
  | None => false
  end.

(** A match that points at a resource of the template with the given type
    tag. *)
Definition located_at (cfn : Template) (type : string) (m : RuleMatch) : Prop :=
  exists key resource,
    In (key, resource) (Resources cfn) /\
    type_tag resource = Some type /\
    path m = ["Resources"; key].

(** ** The document as E9006 and E9007 describe it

    The inline policies, statements and conditions of a role, read off the
    document tree without the rule's own readers. *)

(** The inline policies of a role: the list under Properties, Policies. *)
Definition inline_policies (role : value) : list value :=
  match role with
  | VDict d =>
      match dict_get "Properties" d with
      | Some (VDict props) =>
          match dict_get "Policies" props with
          | Some (VList policies) => policies
          | _ => []
          end
      | _ => []
      end
  | _ => []
  end.

(** The statements of a policy: the list under PolicyDocument, Statement. *)
Definition policy_statements (policy : value) : list value :=
  match policy with
  | VDict d =>
      match dict_get "PolicyDocument" d with
      | Some (VDict document) =>
          match dict_get "Statement" document with
          | Some (VList statements) => statements
          | _ => []
          end
      | _ => []
      end
  | _ => []
  end.

(** The action "events:PutEvents" is in an Action value: as a substring of
    a string, as an element of a list, as a key of an object. *)
Definition names_put_events (action : value) : bool :=
  match action with
  | VStr a => str_contains "events:PutEvents" a
  | VList l => existsb (py_eq (VStr "events:PutEvents")) l
  | VDict d => dict_mem "events:PutEvents" d
  | _ => false
  end.

(** The value under Condition, StringEquals, events:source of a statement. *)
Definition source_restriction (statement : dict) : option value :=
  match dict_get "Condition" statement with
  | Some (VDict condition) =>
      match dict_get "StringEquals" condition with
      | Some (VDict string_equals) => dict_get "events:source" string_equals
      | _ => None
      end
  | _ => None
  end.

(** A statement that has the action and no source restriction, or an empty
    one. *)
Definition statement_qualifies (statement : value) : bool :=
  match statement with
  | VDict d =>
      match dict_get "Action" d with
      | Some action => names_put_events action
      | None => false
      end &&
      match source_restriction d with
      | Some source => negb (py_truthy source)
      | None => true
      end
  | _ => false
  end.


(** A call of a rule followed by a second call on the store the first one
    left. *)
Definition run_twice (r : rule) (cfn : Template) (h : Store.store)
  : result (list RuleMatch) * result (list RuleMatch) * Store.store :=
  let (first, h1) := r cfn h in
  let (second, h2) := r cfn h1 in
  (first, second, h2).

(* ================================================================== *)
(** * Example templates *)
(* ================================================================== *)

Module Examples.

Definition resource (type : string) (props : dict) : value :=
  VDict [("Type", VStr type); ("Properties", VDict props)].

(** A resource with a Type and no Properties key. *)
Definition bare (type : string) : value := VDict [("Type", VStr type)].

Definition function (props : dict) : value := resource "AWS::Lambda::Function" props.

Definition log_group (sub : string) : value :=
  resource "AWS::Logs::LogGroup"
    [("LogGroupName", VDict [("Fn::Sub", VStr sub)])].

Definition getatt_target (function_name : string) : value :=
  VDict [("Id", VStr "target");
         ("Arn", VDict [("Fn::GetAtt", VList [VStr function_name; VStr "Arn"])])].

Definition events_rule (targets : list value) : value :=
  resource "AWS::Events::Rule" [("Targets", VList targets)].

Definition invoke_config (function_name : string) : value :=
  resource "AWS::Lambda::EventInvokeConfig"
    [("FunctionName", VDict [("Ref", VStr function_name)]);
     ("DestinationConfig",
      VDict [("OnFailure", VDict [("Destination", VStr "arn:aws:sqs:queue")])])].

Definition role (props : dict) : value := resource "AWS::IAM::Role" props.

Definition put_events_statement (condition : dict) : value :=
  VDict ([("Effect", VStr "Allow");
          ("Action", VStr "events:PutEvents");
          ("Resource", VStr "*")] ++ condition).

Definition source_condition : dict :=
  [("Condition",
    VDict [("StringEquals", VDict [("events:source", VStr "ecommerce.orders")])])].

Definition inline_policy (statements : list value) : value :=
  VDict [("PolicyName", VStr "inline");
         ("PolicyDocument", VDict [("Statement", VList statements)])].

(** Function Foo with its log group, function Bar without one. *)
Definition foo_bar : Template :=
  mkTemplate []
    [("Foo", function [("Runtime", VStr "python3.9")]);
     ("Bar", function [("Runtime", VStr "python3.9")]);
     ("FooLogGroup", log_group "/aws/lambda/${Foo}")].

(** The log group of Foo is named with two embedded references. *)
Definition foo_two_refs : Template :=
  mkTemplate []
    [("Foo", function [("Runtime", VStr "python3.9")]);
     ("FooLogGroup", log_group "/aws/lambda/${Foo}-${AWS::Region}")].


(** Two rules and two functions, one of them with an EventInvokeConfig. *)
Definition rules_and_configs : Template :=
  mkTemplate []
    [("Fn", function []);
     ("Gn", function []);
     ("GnConfig", invoke_config "Gn");
     ("RuleF", events_rule [getatt_target "Fn"; getatt_target "Gn"; getatt_target "Fn"]);
     ("RuleG", events_rule [getatt_target "Gn"])].

(** Bare resources, and resources whose values have another type than the
    rules expect. *)
Definition bare_function : Template :=
  mkTemplate [] [("Fn", bare "AWS::Lambda::Function")].

Definition bare_log_group : Template :=
  mkTemplate [] [("Logs", bare "AWS::Logs::LogGroup")].

Definition string_destination : Template :=
  mkTemplate []
    [("Mapping",
      resource "AWS::Lambda::EventSourceMapping"
        [("DestinationConfig", VStr "arn:aws:sqs:queue")])].

Definition null_layers : Template :=
  mkTemplate [] [("Fn", function [("Layers", VNone)])].

Definition bare_everything : Template :=
  mkTemplate []
    [("Fn", bare "AWS::Lambda::Function");
     ("FnRole", bare "AWS::IAM::Role");
     ("Mapping", bare "AWS::Lambda::EventSourceMapping");
     ("Rule", bare "AWS::Events::Rule");
     ("Config", bare "AWS::Lambda::EventInvokeConfig")].



(** A role with two unrestricted statements, a role with a restricted one. *)
Definition put_events_roles : Template :=
  mkTemplate []
    [("Open",
      role [("Policies",
             VList [inline_policy [put_events_statement []; put_events_statement []];
                    inline_policy [put_events_statement []]])]);
     ("Closed",
      role [("Policies",
             VList [inline_policy [put_events_statement source_condition]])])].

Definition no_parameters : Template := mkTemplate [] [].

Definition with_environment : Template :=
  mkTemplate [("Environment", VDict [("Type", VStr "String")])] [].

End Examples.

(** Templates for the further properties. *)
Module MoreExamples.

Import Examples.

(** A function on the pinned runtime and one on another runtime. *)
Definition runtimes : Template :=
  mkTemplate []
    [("New", function [("Runtime", VStr "python3.9")]);
     ("Old", function [("Runtime", VStr "python3.8")])].

(** Event source mappings with a failure destination, with a null one and
    without Properties. *)
Definition mappings : Template :=
  mkTemplate []
    [("Queue", resource "AWS::Lambda::EventSourceMapping"
                 [("DestinationConfig",
                   VDict [("OnFailure",
                           VDict [("Destination", VStr "arn:aws:sqs:dlq")])])]);
     ("Stream", resource "AWS::Lambda::EventSourceMapping"
                  [("DestinationConfig", VDict [("OnFailure", VNone)])]);
     ("Bare", bare "AWS::Lambda::EventSourceMapping")].

(** A function with the Insights layer, one with another version of it, one
    with the layer written as a plain string. *)
Definition layers : Template :=
  mkTemplate []
    [("With", function [("Layers", VList [VStr "arn:aws:lambda:other";
                                          LambdaInsightsLayer._layer_pattern])]);
     ("Version", function
        [("Layers",
          VList [VDict [("Fn::Sub",
                         VStr "arn:aws:lambda:${AWS::Region}:580247275435:layer:LambdaInsightsExtension:14")]])]);
     ("Plain", function
        [("Layers",
          VList [VStr "arn:aws:lambda:eu-west-1:580247275435:layer:LambdaInsightsExtension:2"])])].

(** The Layers of a function given by a condition function. *)
Definition condition_layers : value :=
  VDict [("Fn::If",
          VList [VStr "UseInsights";
                 VList [LambdaInsightsLayer._layer_pattern];
                 VList []])].

Definition conditional_layers : Template :=
  mkTemplate [] [("Fn", function [("Layers", condition_layers)])].

(** A log group named with the two-argument form of Fn::Sub. *)
Definition sub_variables : value :=
  VList [VStr "/aws/lambda/${Name}";
         VDict [("Name", VDict [("Ref", VStr "Fn")])]].

Definition sub_with_variables : Template :=
  mkTemplate []
    [("Fn", function []);
     ("FnLogs", resource "AWS::Logs::LogGroup"
        [("LogGroupName", VDict [("Fn::Sub", sub_variables)])])].

(** An EventInvokeConfig that names its function by a plain string, and
    one that names it by an attribute reference. *)
Definition invoke_config_named (function_name : value) : value :=
  resource "AWS::Lambda::EventInvokeConfig"
    [("FunctionName", function_name);
     ("DestinationConfig",
      VDict [("OnFailure", VDict [("Destination", VStr "arn:aws:sqs:dlq")])])].

Definition config_by_name : Template :=
  mkTemplate []
    [("Fn", function []);
     ("FnConfig", invoke_config_named (VStr "my-function"))].

(** An events rule with a target given by a literal ARN. *)
Definition literal_arn_target : value :=
  VDict [("Id", VStr "queue"); ("Arn", VStr "arn:aws:sqs:eu-west-1:1:queue")].

Definition literal_arn : Template :=
  mkTemplate []
    [("Fn", function []);
     ("Rule", events_rule [getatt_target "Fn"; literal_arn_target])].

(** A malformed statement after an unrestricted one, and a malformed policy
    after a policy that matches. *)
Definition statement_then_text : value :=
  inline_policy [put_events_statement []; VStr "not a statement"].

Definition policy_then_text : Template :=
  mkTemplate []
    [("Role", role [("Policies",
                     VList [inline_policy [put_events_statement []];
                            VStr "not a policy"])])].

(** The required name listed twice, in the store and in a template that
    has the parameter. *)
Definition repeated_store : Store.store := [["Environment"; "Environment"]].

(** The companion of Fn has the conventional name and another type. *)
Definition role_of_other_type : Template :=
  mkTemplate []
    [("Fn", function []);
     ("FnRole", resource "AWS::IAM::ManagedPolicy" [])].

(** A role with an unrestricted statement beside a role whose Policies is a
    condition function. *)
Definition conditional_policies : Template :=
  mkTemplate []
    [("Open", role [("Policies",
                     VList [inline_policy [put_events_statement []]])]);
     ("Other", role [("Policies",
                      VDict [("Fn::If",
                              VList [VStr "Publishes"; VList []; VList []])])])].

(** A function without Layers beside a function whose Layers is a condition
    function. *)
Definition absent_and_conditional_layers : Template :=
  mkTemplate []
    [("A", function []);
     ("B", function [("Layers", condition_layers)])].


End MoreExamples.

(* ================================================================== *)
(** * Basic facts *)
(* ================================================================== *)

Section Basics.

Lemma mem_string_In (x : string) (l : list string) :
  mem_string x l = true <-> In x l.
Proof.
  induction l as [|y l IH]; simpl.
  - split; [discriminate | tauto].
  - rewrite orb_true_iff, IH, String.eqb_eq. intuition congruence.
Qed.

Lemma mem_string_not_In (x : string) (l : list string) :
  mem_string x l = false <-> ~ In x l.
Proof.
  rewrite <- mem_string_In. destruct (mem_string x l); intuition congruence.
Qed.

Lemma nodup_keys_NoDup (l : list string) :
  nodup_keys l = true -> NoDup l.
Proof.
  induction l as [|x l IH]; simpl; intros H.
  - constructor.
  - apply andb_true_iff in H as [Hx Hl]. constructor; auto.
    apply negb_true_iff in Hx. now apply mem_string_not_In.
Qed.

Lemma path_eqb_eq (p q : list string) : path_eqb p q = true <-> p = q.
Proof.
  revert q. induction p as [|a p IH]; intros [|b q]; simpl;
    try (split; [discriminate | congruence]); try tauto.
  rewrite andb_true_iff, String.eqb_eq, IH. split.
  - intros [-> ->]. reflexivity.
  - intros E. inversion E. auto.
Qed.

Lemma path_eqb_refl (p : list string) : path_eqb p p = true.
Proof. now apply path_eqb_eq. Qed.

Lemma path_eqb_neq (p q : list string) : p <> q -> path_eqb p q = false.
Proof.
  intros H. destruct (path_eqb p q) eqn:E; auto.
  apply path_eqb_eq in E. contradiction.
Qed.

(** *** Dicts *)

Lemma dict_get_In (k : string) (d : dict) (v : value) :
  dict_get k d = Some v -> In (k, v) d.
Proof.
  induction d as [|[k' v'] d IH]; simpl; [discriminate|].
  destruct (String.eqb k k') eqn:E.
  - apply String.eqb_eq in E. intros [= ->]. subst. now left.
  - intros H. right. auto.
Qed.

Lemma dict_get_None (k : string) (d : dict) :
  dict_get k d = None <-> ~ In k (dict_keys d).
Proof.
  induction d as [|[k' v'] d IH]; simpl.
  - tauto.
  - destruct (String.eqb k k') eqn:E.
    + apply String.eqb_eq in E. subst. split; [discriminate | tauto].
    + apply String.eqb_neq in E. rewrite IH. intuition congruence.
Qed.

Lemma In_dict_get (k : string) (v : value) (d : dict) :
  dict_wf d -> In (k, v) d -> dict_get k d = Some v.
Proof.
  unfold dict_wf, dict_keys.
  induction d as [|[k' v'] d IH]; simpl; intros Hwf Hin; [contradiction|].
  inversion Hwf as [|? ? Hnotin Hwf']; subst.
  destruct Hin as [[= -> ->]|Hin].
  - now rewrite String.eqb_refl.
  - destruct (String.eqb k k') eqn:E; auto.
    apply String.eqb_eq in E. subst. exfalso. apply Hnotin.
    change k' with (fst (k', v)). now apply in_map.
Qed.

Lemma dict_mem_In (k : string) (d : dict) :
  dict_mem k d = true <-> In k (dict_keys d).
Proof.
  unfold dict_mem. destruct (dict_get k d) eqn:E.
  - split; auto. intros _. apply dict_get_In in E.
    change k with (fst (k, v)). now apply in_map.
  - split; [discriminate|]. intros H. now apply dict_get_None in E.
Qed.

Lemma In_keys_value (k : string) (d : dict) :
  In k (dict_keys d) -> exists v, In (k, v) d.
Proof.
  unfold dict_keys. rewrite in_map_iff. intros [[k' v] [E H]].
  simpl in E. subst. eauto.
Qed.

Lemma filter_keys_NoDup (f : string * value -> bool) (d : dict) :
  dict_wf d -> dict_wf (filter f d).
Proof.
  unfold dict_wf, dict_keys.
  induction d as [|kv d IH]; simpl; intros H; auto.
  inversion H as [|? ? Hnotin H']; subst.
  destruct (f kv); simpl; auto.
  constructor; auto. intros Hin. apply Hnotin.
  apply in_map_iff in Hin as [x [E Hx]]. apply filter_In in Hx as [Hx _].
  rewrite <- E. now apply in_map.
Qed.

Lemma get_resources_wf (cfn : Template) (types : list string) :
  dict_wf (Resources cfn) -> dict_wf (get_resources cfn types).
Proof. apply filter_keys_NoDup. Qed.

Lemma get_resources_In (cfn : Template) (types : list string) kv :
  In kv (get_resources cfn types) <->
  In kv (Resources cfn) /\ has_type types kv = true.
Proof. apply filter_In. Qed.

(** Every resource that [get_resources] returns is a dict. *)
Lemma get_resources_dict (cfn : Template) (types : list string) k v :
  In (k, v) (get_resources cfn types) -> exists d, v = VDict d.
Proof.
  intros H. apply get_resources_In in H as [_ H].
  unfold has_type, type_tag in H. simpl in H.
  destruct v; try discriminate. eauto.
Qed.

(** *** The error monad and the loops *)

Lemma bind_Ok {A B} (m : result A) (k : A -> result B) (b : B) :
  bind m k = Ok b -> exists a, m = Ok a /\ k a = Ok b.
Proof. destruct m; simpl; [eauto | discriminate]. Qed.

Lemma bind_Raise {A B} (m : result A) (k : A -> result B) (e : exn) :
  bind m k = Raise e ->
  m = Raise e \/ exists a, m = Ok a /\ k a = Raise e.
Proof. destruct m; simpl; [eauto | intros [= ->]; auto]. Qed.

Lemma for_each_Ok {A B} (body : A -> result (list B)) (l : list A) ys :
  for_each body l = Ok ys ->
  ys = flat_map (appended body) l /\
  forall x, In x l -> body x = Ok (appended body x).
Proof.
  revert ys. induction l as [|x l IH]; simpl; intros ys H.
  - inversion H. split; [reflexivity | contradiction].
  - apply bind_Ok in H as [y [Hy H]].
    apply bind_Ok in H as [rest [Hrest H]]. inversion H; subst.
    destruct (IH _ Hrest) as [-> Hall].
    assert (Hx : appended body x = y) by (unfold appended; now rewrite Hy).
    rewrite Hx. split; auto.
    intros x' [<-|Hin]; auto. now rewrite Hx.
Qed.

Lemma for_each_total {A B} (body : A -> result (list B)) (l : list A) :
  (forall x, In x l -> exists ys, body x = Ok ys) ->
  for_each body l = Ok (flat_map (appended body) l).
Proof.
  induction l as [|x l IH]; simpl; intros H; auto.
  destruct (H x (or_introl eq_refl)) as [ys Hys].
  assert (Hx : appended body x = ys) by (unfold appended; now rewrite Hys).
  rewrite Hx, Hys. simpl.
  rewrite IH by (intros; apply H; now right). reflexivity.
Qed.

Lemma for_each_Raise {A B} (body : A -> result (list B)) (l : list A) e :
  for_each body l = Raise e -> exists x, In x l /\ body x = Raise e.
Proof.
  induction l as [|x l IH]; simpl; [discriminate|].
  destruct (body x) as [ys|e'] eqn:Hx; simpl.
  - destruct (for_each body l) as [rest|e''] eqn:Hl; simpl; [discriminate|].
    intros [= ->]. destruct (IH eq_refl) as [x' [Hin Hx']]. eauto.
  - intros [= ->]. eauto.
Qed.

(** A loop in which an iteration raises does not return. *)
Lemma for_each_raises {A B} (body : A -> result (list B)) (l : list A) x e :
  In x l -> body x = Raise e -> exists e', for_each body l = Raise e'.
Proof.
  intros Hin Hx. destruct (for_each body l) as [ys|e'] eqn:E; eauto.
  apply for_each_Ok in E as [_ Hall]. specialize (Hall x Hin). congruence.
Qed.

Lemma for_each_ext {A B} (f g : A -> result (list B)) (l : list A) :
  (forall x, In x l -> f x = g x) -> for_each f l = for_each g l.
Proof.
  induction l as [|x l IH]; simpl; intros H; auto.
  rewrite H by now left. rewrite IH; [reflexivity|].
  intros; apply H; now right.
Qed.

Lemma for_each_map {A B C} (f : B -> result (list C)) (g : A -> B) (l : list A) :
  for_each f (map g l) = for_each (fun x => f (g x)) l.
Proof. induction l as [|x l IH]; simpl; auto. now rewrite IH. Qed.

(** *** Counting the matches at a path *)

Lemma count_at_app (p : list string) (a b : list RuleMatch) :
  count_at p (a ++ b) = (count_at p a + count_at p b)%nat.
Proof. unfold count_at. now rewrite filter_app, length_app. Qed.

Lemma count_at_other (p : list string) (ms : list RuleMatch) :
  (forall m, In m ms -> path m <> p) -> count_at p ms = 0%nat.
Proof.
  unfold count_at. induction ms as [|m ms IH]; simpl; intros H; auto.
  rewrite path_eqb_neq by (apply H; now left). apply IH.
  intros; apply H; now right.
Qed.

Lemma count_at_same (p : list string) (ms : list RuleMatch) :
  (forall m, In m ms -> path m = p) -> count_at p ms = List.length ms.
Proof.
  unfold count_at. induction ms as [|m ms IH]; simpl; intros H; auto.
  rewrite (H m) by now left. rewrite path_eqb_refl. simpl. f_equal.
  apply IH. intros; apply H; now right.
Qed.

(** In a loop over the entries of a dict whose body reports only at the
    entry's own key, the matches for a key are those its entry appended. *)
Lemma violations_for_keyed (out : string * value -> list RuleMatch)
    (d : dict) (key : string) (v : value) :
  dict_wf d ->
  In (key, v) d ->
  (forall kv m, In kv d -> In m (out kv) -> path m = ["Resources"; fst kv]) ->
  violations_for key (flat_map out d) = List.length (out (key, v)).
Proof.
  unfold violations_for, dict_wf, dict_keys.
  induction d as [|[k' v'] d IH]; simpl; intros Hwf Hin Hpath; [contradiction|].
  inversion Hwf as [|? ? Hnotin Hwf']; subst.
  rewrite count_at_app. destruct Hin as [[= -> ->]|Hin].
  - rewrite count_at_same.
    2:{ intros m Hm. apply (Hpath (key, v)); auto. }
    rewrite count_at_other; [lia|].
    intros m Hm. apply in_flat_map in Hm as [[k2 v2] [Hin2 Hm]].
    rewrite (Hpath (k2, v2) m) by auto. simpl.
    intros [= ->]. apply Hnotin. change key with (fst (key, v2)).
    now apply in_map.
  - rewrite count_at_other.
    2:{ intros m Hm. rewrite (Hpath (k', v') m) by auto. simpl.
        intros [= ->]. apply Hnotin. change key with (fst (key, v)).
        now apply in_map. }
    simpl. apply IH; auto.
Qed.

(** The same for a loop over the keys. *)
Lemma violations_for_keys (out : string -> list RuleMatch)
    (keys : list string) (key : string) :
  NoDup keys ->
  In key keys ->
  (forall k m, In k keys -> In m (out k) -> path m = ["Resources"; k]) ->
  violations_for key (flat_map out keys) = List.length (out key).
Proof.
  unfold violations_for.
  induction keys as [|k keys IH]; simpl; intros Hnd Hin Hpath; [contradiction|].
  inversion Hnd as [|? ? Hnotin Hnd']; subst.
  rewrite count_at_app. destruct Hin as [->|Hin].
  - rewrite count_at_same by (intros m Hm; apply Hpath; auto).
    rewrite count_at_other; [lia|].
    intros m Hm. apply in_flat_map in Hm as [k2 [Hin2 Hm]].
    rewrite (Hpath k2 m) by auto. intros [= ->]. contradiction.
  - rewrite count_at_other.
    2:{ intros m Hm. rewrite (Hpath k m) by auto. intros [= ->]. contradiction. }
    simpl. apply IH; auto.
Qed.

Lemma py_eq_VStr (s : string) (v : value) :
  py_eq (VStr s) v = true <-> v = VStr s.
Proof.
  destruct v; simpl; try (split; [discriminate | congruence]).
  rewrite String.eqb_eq. split; congruence.
Qed.

Lemma existsb_py_eq_VStr (s : string) (l : list value) :
  existsb (py_eq (VStr s)) l = true <-> In (VStr s) l.
Proof.
  rewrite existsb_exists. split.
  - intros [v [Hin E]]. apply py_eq_VStr in E. now subst.
  - intros H. exists (VStr s). split; auto. now apply py_eq_VStr.
Qed.

End Basics.

(* ================================================================== *)
(** * The store *)
(* ================================================================== *)

Section StoreFacts.

Import Store.

Lemma length_write (l : loc) (v : list string) (h : store) :
  List.length (write l v h) = List.length h.
Proof.
  revert l. induction h as [|x h IH]; intros [|l]; simpl; auto.
Qed.

Lemma read_write_same (l : loc) (v : list string) (h : store) :
  (l < List.length h)%nat -> read (write l v h) l = v.
Proof.
  unfold read. revert l. induction h as [|x h IH]; intros [|l]; simpl;
    intros H; try lia; auto.
  apply IH. lia.
Qed.

Lemma read_write_other (l l' : loc) (v : list string) (h : store) :
  l <> l' -> read (write l v h) l' = read h l'.
Proof.
  unfold read. revert l l'.
  induction h as [|x h IH]; intros [|l] [|l']; simpl; intros H;
    try congruence; auto.
Qed.

Lemma read_alloc_new (v : list string) (h : store) :
  read (snd (alloc v h)) (fst (alloc v h)) = v.
Proof.
  unfold read, alloc. simpl. rewrite app_nth2 by lia.
  now rewrite Nat.sub_diag.
Qed.

Lemma read_alloc_old (v : list string) (h : store) (l : loc) :
  (l < List.length h)%nat -> read (snd (alloc v h)) l = read h l.
Proof. unfold read, alloc. simpl. intros H. now rewrite app_nth1. Qed.

Lemma length_alloc (v : list string) (h : store) :
  List.length (snd (alloc v h)) = S (List.length h).
Proof. unfold alloc. simpl. rewrite length_app. simpl. lia. Qed.

End StoreFacts.

(* ================================================================== *)
(** * E9000: the mandatory parameters *)
(* ================================================================== *)

Section MandatoryParameters.

Import Store MandatoryParametersRule.

(** The loop touches the local list only. *)
Lemma remove_present_spec (l : loc) (keys : list string) (h : store) :
  (l < List.length h)%nat ->
  List.length (remove_present l keys h) = List.length h /\
  read (remove_present l keys h) l = surviving keys (read h l) /\
  forall l', l' <> l -> read (remove_present l keys h) l' = read h l'.
Proof.
  unfold remove_present, surviving. revert h.
  induction keys as [|key keys IH]; simpl; intros h Hl; auto.
  destruct (mem_string key (read h l)) eqn:E.
  - assert (Hlen : List.length (remove l key h) = List.length h)
      by (unfold remove; apply length_write).
    destruct (IH (remove l key h)) as [H1 [H2 H3]]; [lia|].
    rewrite H1, H2, Hlen. unfold remove at 1.
    rewrite read_write_same by auto. repeat split; auto.
    intros l' Hne. rewrite H3 by auto. unfold remove.
    apply read_write_other. congruence.
  - now apply IH.
Qed.

Lemma match_matches (self : loc) (cfn : Template) (h : store) :
  fst (match_ self cfn h) =
  map missing_parameter
      (surviving (dict_keys (get_parameters cfn)) (read h self)).
Proof.
  unfold match_, deepcopy.
  destruct (alloc (read h self) h) as [l h1] eqn:Ea. simpl.
  pose proof (read_alloc_new (read h self) h) as Hnew.
  pose proof (length_alloc (read h self) h) as Hlen.
  rewrite Ea in Hnew, Hlen. simpl in Hnew, Hlen.
  assert (Hl : (l < List.length h1)%nat).
  { unfold alloc in Ea. inversion Ea; subst. rewrite length_app. simpl. lia. }
  destruct (remove_present_spec l (dict_keys (get_parameters cfn)) h1 Hl)
    as [_ [-> _]].
  now rewrite Hnew.
Qed.

(** The call leaves every object that existed before it as it was. *)
Lemma match_store (self : loc) (cfn : Template) (h : store) :
  (List.length h < List.length (snd (match_ self cfn h)))%nat /\
  forall l, (l < List.length h)%nat ->
            read (snd (match_ self cfn h)) l = read h l.
Proof.
  unfold match_, deepcopy.
  destruct (alloc (read h self) h) as [l h1] eqn:Ea. simpl.
  pose proof (length_alloc (read h self) h) as Hlen.
  rewrite Ea in Hlen. simpl in Hlen.
  assert (Hloc : l = List.length h) by (unfold alloc in Ea; now inversion Ea).
  assert (Hl : (l < List.length h1)%nat) by lia.
  destruct (remove_present_spec l (dict_keys (get_parameters cfn)) h1 Hl)
    as [H1 [_ H3]].
  split; [lia|]. intros l' Hl'. rewrite H3 by lia.
  pose proof (read_alloc_old (read h self) h l' Hl') as Hold.
  now rewrite Ea in Hold.
Qed.

Lemma list_remove_filter (x : string) (l : list string) :
  NoDup l ->
  (if mem_string x l then list_remove x l else l) =
  filter (fun n => negb (String.eqb n x)) l.
Proof.
  induction l as [|y l IH]; simpl; intros H; auto.
  inversion H as [|? ? Hnotin H']; subst.
  rewrite (String.eqb_sym y x).
  destruct (String.eqb x y) eqn:E; simpl.
  - apply String.eqb_eq in E. subst.
    apply mem_string_not_In in Hnotin. specialize (IH H').
    rewrite Hnotin in IH. now rewrite <- IH.
  - specialize (IH H'). destruct (mem_string x l); rewrite <- IH; auto.
Qed.

Lemma NoDup_filter_string (f : string -> bool) (l : list string) :
  NoDup l -> NoDup (filter f l).
Proof.
  induction l as [|y l IH]; simpl; intros H; auto.
  inversion H; subst. destruct (f y); auto.
  constructor; auto. rewrite filter_In. tauto.
Qed.

(** On a list without repetition, the names that survive the loop are the
    names that are not parameter names. *)
Lemma surviving_filter (keys current : list string) :
  NoDup current ->
  surviving keys current = filter (fun n => negb (mem_string n keys)) current.
Proof.
  unfold surviving. revert current.
  induction keys as [|key keys IH]; simpl; intros current H.
  - induction current as [|y l IHl]; simpl; auto.
    inversion H; subst. now rewrite <- IHl.
  - rewrite list_remove_filter by auto.
    rewrite IH by now apply NoDup_filter_string.
    clear. induction current as [|y l IHl]; simpl; auto.
    destruct (String.eqb y key) eqn:E; simpl; auto.
    now rewrite IHl.
Qed.

Lemma mem_string_keys (k : string) (d : dict) :
  mem_string k (dict_keys d) = dict_mem k d.
Proof.
  destruct (dict_mem k d) eqn:E.
  - apply mem_string_In. now apply dict_mem_In.
  - apply mem_string_not_In. intros H. apply dict_mem_In in H. congruence.
Qed.

Lemma count_names_parameter (name : string) (l : list string) :
  NoDup l ->
  List.length (filter (names_parameter name) (map missing_parameter l)) =
  if mem_string name l then 1%nat else 0%nat.
Proof.
  induction l as [|y l IH]; simpl; intros H; auto.
  inversion H as [|? ? Hnotin H']; subst. specialize (IH H').
  unfold names_parameter at 1. simpl. rewrite (String.eqb_sym y name).
  destruct (String.eqb name y) eqn:E; simpl.
  - apply String.eqb_eq in E. subst. apply mem_string_not_In in Hnotin.
    rewrite Hnotin in IH. now rewrite IH.
  - exact IH.
Qed.

End MandatoryParameters.

Section MandatoryParametersClaims.

Import Store MandatoryParametersRule.

(** C7 -- Mandatory-parameters rule (E9000).  Let [required] be the content
    of the rule's required-name list, a list without repetition.  For every
    template, each required name that is not a key of the Parameters section
    yields exactly one match naming it, a required name that is a key yields
    none, and every match names a missing required name.  With the list as
    the class defines it, ["Environment"], a template with empty Parameters
    yields exactly the one match for "Environment", and a template whose
    Parameters contain "Environment" yields no match. *)
Theorem mandatory_parameters_one_violation_per_missing_name
    (cfn : Template) (h : store) :
  NoDup (read h _mandatory_parameters) ->
  let required := read h _mandatory_parameters in
  let ms := fst (match_ _mandatory_parameters cfn h) in
  (forall name, In name required ->
     List.length (filter (names_parameter name) ms) =
     if dict_mem name (get_parameters cfn) then 0%nat else 1%nat) /\
  (forall m, In m ms ->
     exists name, In name required /\
                  dict_mem name (get_parameters cfn) = false /\
                  m = missing_parameter name) /\
  (forall rs,
     fst (match_ _mandatory_parameters (mkTemplate [] rs) initial_store) =
     [missing_parameter "Environment"]) /\
  (forall ps rs, dict_mem "Environment" ps = true ->
     fst (match_ _mandatory_parameters (mkTemplate ps rs) initial_store) = []).
Proof.
  intros Hnd required ms. subst ms.
  assert (Hgen : forall cfn' h', NoDup (read h' _mandatory_parameters) ->
            fst (match_ _mandatory_parameters cfn' h') =
            map missing_parameter
              (filter (fun n => negb (dict_mem n (get_parameters cfn')))
                      (read h' _mandatory_parameters))).
  { intros cfn' h' Hnd'. rewrite match_matches, surviving_filter by auto.
    f_equal. apply filter_ext. intros n. now rewrite mem_string_keys. }
  assert (Hinit : NoDup (read initial_store _mandatory_parameters)).
  { apply nodup_keys_NoDup. reflexivity. }
  split; [|split; [|split]].
  - intros name Hin. rewrite (Hgen cfn h Hnd).
    rewrite count_names_parameter by now apply NoDup_filter_string.
    fold required.
    destruct (dict_mem name (get_parameters cfn)) eqn:E.
    + destruct (mem_string name _) eqn:Em; auto.
      apply mem_string_In, filter_In in Em as [_ Em].
      rewrite E in Em. discriminate.
    + destruct (mem_string name _) eqn:Em; auto.
      apply mem_string_not_In in Em. exfalso. apply Em.
      apply filter_In. split; auto. now rewrite E.
  - intros m Hm. rewrite (Hgen cfn h Hnd) in Hm.
    apply in_map_iff in Hm as [name [<- Hin]].
    apply filter_In in Hin as [Hin Hf]. exists name.
    repeat split; auto. now apply negb_true_iff in Hf.
  - intros rs. now rewrite (Hgen _ _ Hinit).
  - intros ps rs Hmem. rewrite (Hgen _ _ Hinit). simpl.
    unfold get_parameters. simpl. now rewrite Hmem.
Qed.

Lemma mandatory_parameters_witness :
  let ms := fst (match_ _mandatory_parameters Examples.no_parameters initial_store) in
  List.length (filter (names_parameter "Environment") ms) = 1%nat.
Proof.
  assert (Hnd : NoDup (read initial_store _mandatory_parameters)).
  { apply nodup_keys_NoDup. reflexivity. }
  destruct (mandatory_parameters_one_violation_per_missing_name
              Examples.no_parameters initial_store Hnd) as [H _].
  apply (H "Environment"). simpl. now left.
Defined.

(** C8 -- Idempotence.  A rule called twice on the same template, the second
    call on the store the first call left, gives the same outcome twice (the
    same ordered matches, or the same error), whenever the required-name list
    of E9000 is an object of the store; and that list is the same after the
    calls as before them: E9000 removes names from a copy only. *)
Theorem rules_idempotent
    (id : string) (r : rule) (cfn : Template) (h : store) :
  In (id, r) all_rules ->
  (_mandatory_parameters < List.length h)%nat ->
  fst (fst (run_twice r cfn h)) = snd (fst (run_twice r cfn h)) /\
  read (snd (r cfn h)) _mandatory_parameters = read h _mandatory_parameters /\
  read (snd (run_twice r cfn h)) _mandatory_parameters =
    read h _mandatory_parameters.
Proof.
  intros Hin Hloc. unfold all_rules in Hin. simpl in Hin.
  destruct Hin as [E|Hin].
  - inversion E; subst. clear E.
    unfold run_twice, mandatory_parameters_rule.
    destruct (match_ _mandatory_parameters cfn h) as [ms1 h1] eqn:E1.
    destruct (match_ _mandatory_parameters cfn h1) as [ms2 h2] eqn:E2.
    simpl.
    pose proof (match_matches _mandatory_parameters cfn h) as M1.
    pose proof (match_matches _mandatory_parameters cfn h1) as M2.
    pose proof (match_store _mandatory_parameters cfn h) as [L1 S1].
    pose proof (match_store _mandatory_parameters cfn h1) as [L2 S2].
    rewrite E1 in M1, L1, S1. rewrite E2 in M2, L2, S2. simpl in *.
    assert (R1 : read h1 _mandatory_parameters = read h _mandatory_parameters)
      by (apply S1; lia).
    assert (R2 : read h2 _mandatory_parameters = read h1 _mandatory_parameters)
      by (apply S2; lia).
    repeat split; congruence.
  - repeat (destruct Hin as [E|Hin];
            [inversion E; subst; unfold run_twice, stateless; simpl; auto|]).
    contradiction.
Qed.

Lemma rules_idempotent_witness :
  fst (fst (run_twice mandatory_parameters_rule Examples.with_environment
              initial_store)) =
  snd (fst (run_twice mandatory_parameters_rule Examples.with_environment
              initial_store)).
Proof.
  refine (proj1 (rules_idempotent MandatoryParametersRule.id
                   mandatory_parameters_rule Examples.with_environment
                   initial_store _ _)).
  - left. reflexivity.
  - unfold _mandatory_parameters, initial_store. simpl. lia.
Defined.

End MandatoryParametersClaims.

(* ================================================================== *)
(** * Strings and the regular expression *)
(* ================================================================== *)

Section Strings.

Local Notation "a +++ b" := (String.append a b)
  (at level 60, right associativity).

Lemma prefix_of_spec (p s : string) :
  prefix_of p s = true <-> exists post, s = p +++ post.
Proof.
  revert s. induction p as [|a p IH]; intros s; simpl.
  - split; eauto.
  - destruct s as [|b s].
    + split; [discriminate | intros [post H]; discriminate].
    + rewrite andb_true_iff, Ascii.eqb_eq, IH. split.
      * intros [-> [post ->]]. eauto.
      * intros [post H]. inversion H. eauto.
Qed.

(** [str_contains p s] holds exactly when [p] occurs in [s]. *)
Lemma str_contains_spec (p s : string) :
  str_contains p s = true <-> exists pre post, s = pre +++ p +++ post.
Proof.
  induction s as [|c s IH]; simpl.
  - rewrite orb_false_r, prefix_of_spec. split.
    + intros [post H]. exists "", post. exact H.
    + intros [[|a pre] [post H]]; simpl in H; [eauto | discriminate].
  - rewrite orb_true_iff, prefix_of_spec, IH. split.
    + intros [[post H]|[pre [post H]]].
      * exists "", post. exact H.
      * exists (String c pre), post. simpl. now rewrite H.
    + intros [[|a pre] [post H]]; simpl in H.
      * left. eauto.
      * right. inversion H. eauto.
Qed.

Lemma str_contains_app (p pre s : string) :
  str_contains p s = true -> str_contains p (pre +++ s) = true.
Proof.
  intros H. induction pre as [|c pre IH]; simpl; auto.
  rewrite IH. apply orb_true_r.
Qed.

Lemma span_ident_spec (s : string) :
  s = fst (Re.span_ident s) +++ snd (Re.span_ident s) /\
  str_contains "}" (fst (Re.span_ident s)) = false /\
  prefix_of "}" (snd (Re.span_ident s)) =
    negb (String.eqb (snd (Re.span_ident s)) "").
Proof.
  induction s as [|c s [IH1 [IH2 IH3]]].
  - cbn. auto.
  - cbn [Re.span_ident]. destruct (Ascii.eqb c "}") eqn:E.
    + apply Ascii.eqb_eq in E. subst. cbn [fst snd]. repeat split.
    + destruct (Re.span_ident s) as [f r]. cbn [fst snd] in *.
      split; [cbn [String.append]; now rewrite <- IH1|].
      split; [|exact IH3].
      cbn [str_contains prefix_of]. rewrite IH2, Ascii.eqb_sym, E.
      reflexivity.
Qed.

(** A match at the first character reads dollar, open brace, the
    identifier, closing brace; the identifier is not empty and has no
    closing brace. *)
Lemma match_here_sound (s f : string) :
  Re.match_here s = Some f ->
  (exists post, s = "${" +++ f +++ "}" +++ post) /\
  f <> "" /\ str_contains "}" f = false.
Proof.
  unfold Re.match_here.
  destruct s as [|c1 [|c2 body]]; try discriminate.
  - destruct (Ascii.ascii_dec c1 "$") as [->|N]; [discriminate|].
    destruct c1 as [[] [] [] [] [] [] [] []]; discriminate.
  - destruct (Ascii.ascii_dec c1 "$") as [->|N1].
    2:{ destruct c1 as [[] [] [] [] [] [] [] []]; try discriminate.
        contradiction. }
    destruct (Ascii.ascii_dec c2 "{") as [->|N2].
    2:{ destruct c2 as [[] [] [] [] [] [] [] []]; try discriminate.
        contradiction. }
    destruct (span_ident_spec body) as [H1 [H2 _]].
    destruct (Re.span_ident body) as [g r]. simpl in *.
    destruct g as [|c g]; [discriminate|].
    destruct r as [|c3 r]; [discriminate|].
    destruct (Ascii.ascii_dec c3 "}") as [->|N3].
    2:{ destruct c3 as [[] [] [] [] [] [] [] []]; try discriminate.
        contradiction. }
    intros [= <-]. repeat split; auto; [|discriminate].
    exists r. simpl. now rewrite H1.
Qed.

Lemma span_ident_app (f post : string) :
  str_contains "}" f = false ->
  Re.span_ident (f +++ String "}" post) = (f, String "}" post).
Proof.
  induction f as [|c f IH]; intros H.
  - reflexivity.
  - cbn [str_contains prefix_of] in H.
    apply orb_false_iff in H as [Hc Hf]. rewrite andb_true_r in Hc.
    cbn [String.append Re.span_ident].
    rewrite Ascii.eqb_sym, Hc, (IH Hf). reflexivity.
Qed.

Lemma match_here_complete (f post : string) :
  f <> "" -> str_contains "}" f = false ->
  Re.match_here ("${" +++ f +++ "}" +++ post) = Some f.
Proof.
  intros Hne Hfree. simpl. rewrite span_ident_app by auto.
  destruct f; [contradiction | reflexivity].
Qed.

(** [search] finds a match exactly when some position matches, and the
    match it reports is the leftmost one: no suffix that begins before it
    matches. *)
Lemma search_Some (s f : string) :
  Re.search s = Some f <->
  exists pre rest,
    s = pre +++ rest /\ Re.match_here rest = Some f /\
    forall p1 p2, pre = p1 +++ p2 -> p2 <> "" ->
                  Re.match_here (p2 +++ rest) = None.
Proof.
  induction s as [|c s IH].
  - simpl. split; [discriminate|].
    intros [pre [rest [H [Hm _]]]].
    destruct pre; [|discriminate]. simpl in H. subst. discriminate.
  - change (Re.search (String c s)) with
      (match Re.match_here (String c s) with
       | Some g => Some g
       | None => Re.search s
       end).
    destruct (Re.match_here (String c s)) as [g|] eqn:E.
    + split.
      * intros [= ->]. exists "", (String c s). repeat split; auto.
        intros p1 p2 H Hne. destruct p1; destruct p2; simpl in H;
          try discriminate. contradiction.
      * intros [pre [rest [H [Hm Hleft]]]]. destruct pre as [|a pre].
        -- simpl in H. subst. congruence.
        -- specialize (Hleft "" (String a pre) eq_refl).
           rewrite <- H in Hleft. rewrite Hleft in E; [discriminate|].
           discriminate.
    + rewrite IH. split.
      * intros [pre [rest [H [Hm Hleft]]]].
        exists (String c pre), rest. simpl. rewrite H. repeat split; auto.
        intros [|a p1] p2 Hp Hne; simpl in Hp.
        -- subst p2. simpl. now rewrite <- H.
        -- inversion Hp; subst. now apply (Hleft p1 p2).
      * intros [pre [rest [H [Hm Hleft]]]]. destruct pre as [|a pre].
        -- simpl in H. subst. congruence.
        -- simpl in H. inversion H; subst. exists pre, rest.
           repeat split; auto. intros p1 p2 Hp Hne.
           apply (Hleft (String a p1) p2); auto. simpl. now rewrite Hp.
Qed.

Lemma search_sound (s f : string) :
  Re.search s = Some f ->
  (exists pre post, s = pre +++ "${" +++ f +++ "}" +++ post) /\
  f <> "" /\ str_contains "}" f = false.
Proof.
  intros H. apply search_Some in H as [pre [rest [-> [Hm _]]]].
  apply match_here_sound in Hm as [[post ->] [Hne Hfree]].
  repeat split; eauto.
Qed.

Lemma search_complete (pre f post : string) :
  f <> "" -> str_contains "}" f = false ->
  exists g, Re.search (pre +++ "${" +++ f +++ "}" +++ post) = Some g.
Proof.
  intros Hne Hfree. induction pre as [|c pre [g IH]].
  - exists f. simpl String.append.
    change (Re.search ?s) with
      (match Re.match_here s with
       | Some g => Some g
       | None => match s with
                 | EmptyString => None
                 | String _ s' => Re.search s'
                 end
       end).
    pose proof (match_here_complete f post Hne Hfree) as Hm.
    simpl String.append in Hm. now rewrite Hm.
  - simpl String.append.
    change (Re.search (String c ?s)) with
      (match Re.match_here (String c s) with
       | Some g => Some g
       | None => Re.search s
       end).
    destruct (Re.match_here _); eauto.
Qed.

(** A text without dollar-open-brace has no match. *)
Lemma search_needs_opening (s : string) :
  str_contains "${" s = false -> Re.search s = None.
Proof.
  intros H. destruct (Re.search s) as [f|] eqn:E; auto.
  apply search_sound in E as [[pre [post ->]] _].
  rewrite str_contains_app in H; [discriminate|].
  apply str_contains_spec. exists "", (f +++ "}" +++ post). reflexivity.
Qed.

(** [re.search] reports the first of the references that a scan of the
    whole string collects. *)
Lemma search_first_ref (s : string) :
  Re.search s = hd_error (extract_interpolation_refs s).
Proof.
  unfold extract_interpolation_refs.
  induction s as [|c s IH]; auto.
  change (Re.search (String c s)) with
    (match Re.match_here (String c s) with
     | Some g => Some g
     | None => Re.search s
     end).
  change (refs_from 0 (String c s)) with
    (match Re.match_here (String c s) with
     | Some f => f :: refs_from (String.length f + 2) s
     | None => refs_from 0 s
     end).
  destruct (Re.match_here (String c s)); auto.
Qed.

(** Every reference that the scan of the whole string collects is the
    identifier of a match at some position. *)
Lemma refs_from_In (skip : nat) (s f : string) :
  In f (refs_from skip s) ->
  exists pre rest, s = pre +++ rest /\ Re.match_here rest = Some f.
Proof.
  revert skip. induction s as [|c s IH]; intros skip H; [contradiction|].
  destruct skip as [|n].
  - change (refs_from 0 (String c s)) with
      (match Re.match_here (String c s) with
       | Some g => g :: refs_from (String.length g + 2) s
       | None => refs_from 0 s
       end) in H.
    destruct (Re.match_here (String c s)) as [g|] eqn:E.
    + destruct H as [<-|H].
      * exists "", (String c s). auto.
      * destruct (IH _ H) as [pre [rest [-> Hm]]].
        exists (String c pre), rest. auto.
    + destruct (IH _ H) as [pre [rest [-> Hm]]].
      exists (String c pre), rest. auto.
  - change (refs_from (S n) (String c s)) with (refs_from n s) in H.
    destruct (IH _ H) as [pre [rest [-> Hm]]].
    exists (String c pre), rest. auto.
Qed.

End Strings.

Section Scanning.

Import LambdaLogGroupRule.

(** What the scan appends for a log group named by the interpolation [s]. *)
Lemma scan_log_group_interpolation (s : string) :
  scan_log_group (Examples.log_group s) =
  Ok (match Re.search s with Some func => [func] | None => [] end).
Proof.
  unfold scan_log_group, Examples.log_group, Examples.resource. simpl.
  destruct (Re.search s); reflexivity.
Qed.

(** C4 -- Interpolation scanning, as the log-group rule does it with
    [re.search].  A string without dollar-open-brace gives no reference; the
    string "${unterminated" gives none; a reference that is extracted is never
    empty, and the string "${}" gives none.  The same holds for what the scan
    of a log group named by such a string appends to the known names, and for
    the sequence of all the references of a string. *)
Theorem interpolation_scanning :
  (forall s, str_contains "${" s = false -> Re.search s = None) /\
  Re.search "${unterminated" = None /\
  (forall s func, Re.search s = Some func ->
     func <> "" /\ str_contains "}" func = false) /\
  Re.search "${}" = None /\
  (forall s, str_contains "${" s = false ->
     scan_log_group (Examples.log_group s) = Ok []) /\
  scan_log_group (Examples.log_group "${unterminated") = Ok [] /\
  scan_log_group (Examples.log_group "${}") = Ok [] /\
  (forall s known, scan_log_group (Examples.log_group s) = Ok known ->
     ~ In "" known) /\
  (forall s, str_contains "${" s = false ->
     extract_interpolation_refs s = []) /\
  extract_interpolation_refs "${unterminated" = [] /\
  extract_interpolation_refs "${}" = [] /\
  (forall s, ~ In "" (extract_interpolation_refs s)).
Proof.
  split; [exact search_needs_opening|].
  split; [reflexivity|].
  split; [intros s func H; now apply search_sound in H|].
  split; [reflexivity|].
  split.
  { intros s H. rewrite scan_log_group_interpolation.
    now rewrite search_needs_opening. }
  split; [reflexivity|]. split; [reflexivity|].
  split.
  { intros s known. rewrite scan_log_group_interpolation.
    destruct (Re.search s) as [func|] eqn:E; intros [= <-]; simpl; [|tauto].
    apply search_sound in E as [_ [Hne _]]. intuition congruence. }
  split.
  { intros s H. apply search_needs_opening in H.
    rewrite search_first_ref in H.
    destruct (extract_interpolation_refs s); [reflexivity | discriminate]. }
  split; [reflexivity|]. split; [reflexivity|].
  intros s H. apply refs_from_In in H as [pre [rest [_ Hm]]].
  apply match_here_sound in Hm as [_ [Hne _]]. congruence.
Qed.

End Scanning.

Section ActionContainment.

Import IAMPutEventsConditions.

Local Notation "a +++ b" := (String.append a b)
  (at level 60, right associativity).




End ActionContainment.

(* ================================================================== *)
(** * E9005: the Insights layer *)
(* ================================================================== *)

Section InsightsLayer.

Import LambdaInsightsLayer.

Lemma layer_check_path (kv : string * value) (m : RuleMatch) :
  In m (appended check kv) -> path m = ["Resources"; fst kv].
Proof.
  unfold appended, check. destruct kv as [key resource].
  destruct (layers_of resource) as [layers|]; simpl; [|contradiction].
  destruct (py_contains _layer_pattern layers) as [[|]|]; simpl;
    try contradiction.
  intros [<-|[]]. reflexivity.
Qed.

(** Claim C9 as it is worded does not hold for every template: the function
    A below has no Layers key, and the rule raises on the Layers of B, so no
    match is reported for A. *)
Lemma insights_layer_raises_beside_absent_layers :
  match_ MoreExamples.absent_and_conditional_layers = Raise TypeError /\
  layers_of (Examples.function []) = Ok (VList []) /\
  check ("A", Examples.function []) = Ok [layer_match "A"] /\
  violations_for "A"
    (appended match_ MoreExamples.absent_and_conditional_layers) = 0%nat.
Proof. repeat split. Qed.

(** C9, amended -- Insights-layer rule (E9005).  A function resource that
    has no Properties key, or whose Properties object has no Layers key, has
    the empty list as its layers; its check reports it, and whenever the rule
    returns, it returns exactly one match for that function. *)
Theorem insights_layer_absent_layers
    (cfn : Template) (key : string) (d : dict) :
  dict_wf (Resources cfn) ->
  In (key, VDict d) (get_resources cfn ["AWS::Lambda::Function"]) ->
  (dict_get "Properties" d = None \/
   exists props, dict_get "Properties" d = Some (VDict props) /\
                 dict_get "Layers" props = None) ->
  layers_of (VDict d) = Ok (VList []) /\
  check (key, VDict d) = Ok [layer_match key] /\
  forall ms, match_ cfn = Ok ms -> violations_for key ms = 1%nat.
Proof.
  intros Hwf Hin Habs.
  assert (Hl : layers_of (VDict d) = Ok (VList [])).
  { unfold layers_of. cbn [py_get bind].
    destruct Habs as [->|[props [-> Hp]]]; cbn [py_get bind dict_get].
    - reflexivity.
    - now rewrite Hp. }
  assert (Hc : check (key, VDict d) = Ok [layer_match key]).
  { unfold check. rewrite Hl. reflexivity. }
  repeat split; auto.
  intros ms Hms. unfold match_ in Hms.
  apply for_each_Ok in Hms as [-> _].
  rewrite (violations_for_keyed (appended check) _ key (VDict d)).
  - unfold appended. now rewrite Hc.
  - now apply get_resources_wf.
  - exact Hin.
  - intros kv m _. apply layer_check_path.
Qed.

Lemma insights_layer_witness :
  violations_for "Fn"
    (appended LambdaInsightsLayer.match_ Examples.bare_everything) = 1%nat.
Proof.
  assert (Hwf : dict_wf (Resources Examples.bare_everything)).
  { apply nodup_keys_NoDup. reflexivity. }
  refine (proj2 (proj2 (insights_layer_absent_layers
            Examples.bare_everything "Fn"
            [("Type", VStr "AWS::Lambda::Function")] Hwf _ _)) _ _).
  - simpl. now left.
  - now left.
  - reflexivity.
Defined.

End InsightsLayer.

(* ================================================================== *)
(** * E9006: the Insights managed policy *)
(* ================================================================== *)

Section InsightsPermission.

Import LambdaInsightsPermission.



Lemma check_absent (roles : dict) (f : string) :
  dict_get (role_name f) roles = None -> check roles f = Raise KeyError.
Proof. unfold check. cbn [py_getitem bind]. now intros ->. Qed.



Lemma permission_check_path (roles : dict) (f : string) (m : RuleMatch) :
  In m (appended (check roles) f) -> path m = ["Resources"; f].
Proof.
  unfold appended, check. cbn [py_getitem bind].
  destruct (dict_get (role_name f) roles) as [role|]; [|contradiction].
  cbn [bind]. destruct (managed_policy_arns role) as [arns|];
    [|contradiction]. cbn [bind].
  destruct (py_contains (VStr _policy_arn) arns) as [[|]|]; simpl;
    try contradiction.
  intros [<-|[]]. reflexivity.
Qed.






End InsightsPermission.

(* ================================================================== *)
(** * E9007: the source condition on events:PutEvents *)
(* ================================================================== *)

Section PutEvents.

Import IAMPutEventsConditions.

(** The statement test spelled out: the action is contained and the value
    under Condition, StringEquals, events:source is missing or falsy. *)
Lemma statement_unrestricted_true (statement : value) :
  statement_unrestricted statement = Ok true <->
  exists action source,
    py_get statement "Action" (VDict []) = Ok action /\
    py_contains (VStr "events:PutEvents") action = Ok true /\
    source_condition statement = Ok source /\
    py_truthy source = false.
Proof.
  unfold statement_unrestricted. split.
  - intros H. apply bind_Ok in H as [action [Ha H]].
    apply bind_Ok in H as [[|] [Hc H]]; [|discriminate].
    apply bind_Ok in H as [source [Hs H]].
    exists action, source. split; [|split; [|split]]; auto.
    injection H as Ht. now apply negb_true_iff in Ht.
  - intros [action [source [-> [Hc [Hs Ht]]]]]. cbn [bind].
    rewrite Hc. cbn [bind]. rewrite Hs. cbn [bind]. now rewrite Ht.
Qed.

(** [_match_policy] stops at the first statement that passes; when it
    returns, it says whether some statement passes. *)
Lemma first_unrestricted_spec (statements : list value) (b : bool) :
  first_unrestricted statements = Ok b ->
  (b = true <->
   exists statement, In statement statements /\
                     statement_unrestricted statement = Ok true).
Proof.
  induction statements as [|s rest IH]; simpl; intros H.
  - inversion H. split; [discriminate | intros [? [[] _]]].
  - apply bind_Ok in H as [hit [Hs H]]. destruct hit.
    + inversion H. split; auto. intros _. exists s. auto.
    + rewrite (IH H). split.
      * intros [s' [Hin Hs']]. exists s'. auto.
      * intros [s' [[<-|Hin] Hs']]; [congruence|]. eauto.
Qed.

Lemma match_policy_spec (policy : value) (b : bool) :
  _match_policy policy = Ok b ->
  exists statements,
    statements_of policy = Ok statements /\
    (b = true <->
     exists statement, In statement statements /\
                       statement_unrestricted statement = Ok true).
Proof.
  unfold _match_policy. intros H. apply bind_Ok in H as [statements [Hs H]].
  exists statements. split; auto. now apply first_unrestricted_spec.
Qed.

(** The loop over the policies looks at every policy; when it returns, [found]
    says whether some policy matched. *)
Lemma any_policy_spec (policies : list value) (found b : bool) :
  any_policy found policies = Ok b ->
  (forall policy, In policy policies -> exists hit, _match_policy policy = Ok hit) /\
  (b = true <->
   found = true \/
   exists policy, In policy policies /\ _match_policy policy = Ok true).
Proof.
  revert found. induction policies as [|p rest IH]; simpl; intros found H.
  - inversion H. split; [contradiction|]. split; auto.
    intros [E|[? [[] _]]]; auto.
  - apply bind_Ok in H as [hit [Hp H]].
    destruct (IH _ H) as [Hall Hiff]. split.
    + intros policy [<-|Hin]; eauto.
    + rewrite Hiff. split.
      * intros [E|[policy [Hin Hm]]].
        -- destruct hit; [right; exists p; auto | auto].
        -- right. exists policy. auto.
      * intros [E|[policy [[<-|Hin] Hm]]].
        -- left. subst. now destruct hit.
        -- left. rewrite Hm in Hp. inversion Hp. reflexivity.
        -- right. eauto.
Qed.

(** One role: when its check returns, it reports the role at most once,
    and it reports it exactly when a statement of one of its policies
    passes the test. *)
Lemma check_role_spec (role_name : string) (role : value) (out : list RuleMatch) :
  check (role_name, role) = Ok out ->
  exists policies,
    policies_of role = Ok policies /\
    (out = [] \/ out = [put_events_match role_name]) /\
    (out = [put_events_match role_name] <->
     exists policy statements statement,
       In policy policies /\ statements_of policy = Ok statements /\
       In statement statements /\
       statement_unrestricted statement = Ok true).
Proof.
  unfold check. intros H. apply bind_Ok in H as [policies [Hp H]].
  apply bind_Ok in H as [found [Hf H]].
  destruct (any_policy_spec _ _ _ Hf) as [Hall Hiff].
  exists policies. split; auto.
  assert (Hex : found = true <->
            exists policy statements statement,
              In policy policies /\ statements_of policy = Ok statements /\
              In statement statements /\
              statement_unrestricted statement = Ok true).
  { rewrite Hiff. split.
    - intros [E|[policy [Hin Hm]]]; [discriminate|].
      destruct (match_policy_spec _ _ Hm) as [statements [Hs [Ht _]]].
      destruct (Ht eq_refl) as [statement [Hin' Hst]].
      exists policy, statements, statement. auto.
    - intros [policy [statements [statement [Hin [Hs [Hin' Hst]]]]]].
      right. exists policy. split; auto.
      destruct (Hall policy Hin) as [hit Hm].
      destruct (match_policy_spec _ _ Hm) as [statements' [Hs' [_ Ht]]].
      rewrite Hs in Hs'. inversion Hs'; subst. rewrite Hm. f_equal.
      apply Ht. eauto. }
  destruct found; inversion H; subst.
  - split; [now right|]. split; auto. intros _. now apply Hex.
  - split; [now left|]. split; [discriminate|].
    intros Hx. apply Hex in Hx. discriminate.
Qed.

Lemma put_events_check_path (kv : string * value) (m : RuleMatch) :
  In m (appended check kv) -> path m = ["Resources"; fst kv].
Proof.
  unfold appended. destruct kv as [role_name role].
  destruct (check (role_name, role)) as [out|] eqn:E; [|contradiction].
  destruct (check_role_spec _ _ _ E) as [_ [_ [[->| ->] _]]].
  - contradiction.
  - intros [<-|[]]. reflexivity.
Qed.

(** The test of the rule and the reading of the document agree on every
    statement on which the test returns. *)
Lemma statement_unrestricted_qualifies (statement : value) (b : bool) :
  statement_unrestricted statement = Ok b -> statement_qualifies statement = b.
Proof.
  unfold statement_unrestricted, source_condition, statement_qualifies,
    source_restriction, names_put_events.
  destruct statement as [| | | | |d]; try discriminate. cbn [py_get bind].
  destruct (dict_get "Action" d) as [[| | |a|l|ad]|];
    cbn [py_contains bind]; try discriminate;
    try (intros [= <-]; reflexivity);
    match goal with
    | |- context [if ?c then _ else _] =>
        destruct c; cbn [andb]; try (intros [= <-]; reflexivity)
    end;
    (destruct (dict_get "Condition" d) as [[| | | | |condition]|];
     cbn [py_get bind dict_get py_truthy negb]; try discriminate;
     try (intros [= <-]; reflexivity);
     destruct (dict_get "StringEquals" condition) as [[| | | | |se]|];
     cbn [py_get bind dict_get py_truthy negb]; try discriminate;
     try (intros [= <-]; reflexivity);
     destruct (dict_get "events:source" se);
     cbn [py_truthy negb]; intros [= <-]; reflexivity).
Qed.

Lemma first_unrestricted_qualifies (statements : list value) (b : bool) :
  first_unrestricted statements = Ok b ->
  (b = true <->
   exists statement,
     In statement statements /\ statement_qualifies statement = true).
Proof.
  revert b. induction statements as [|s rest IH]; simpl; intros b H.
  - injection H as <-. split; [discriminate | intros [? [[] _]]].
  - apply bind_Ok in H as [hit [Hs H]].
    apply statement_unrestricted_qualifies in Hs. destruct hit.
    + injection H as <-. split; auto. intros _. exists s. auto.
    + rewrite (IH _ H). split.
      * intros [s' [Hin Hq]]. exists s'. auto.
      * intros [s' [[<-|Hin] Hq]]; [congruence | eauto].
Qed.

Lemma match_policy_qualifies (policy : value) (b : bool) :
  _match_policy policy = Ok b ->
  (b = true <->
   exists statement,
     In statement (policy_statements policy) /\
     statement_qualifies statement = true).
Proof.
  unfold _match_policy. intros H.
  apply bind_Ok in H as [statements [Hs H]].
  rewrite (first_unrestricted_qualifies _ _ H).
  enough (Himp : forall statement,
             statement_qualifies statement = true ->
             (In statement statements <->
              In statement (policy_statements policy))).
  { split; intros [st [Hin Hq]]; exists st; split; auto;
      now apply (Himp st Hq). }
  intros statement Hq. unfold statements_of in Hs.
  unfold policy_statements.
  destruct policy as [| | | | |d]; try discriminate. cbn [py_get bind] in Hs.
  destruct (dict_get "PolicyDocument" d) as [[| | | | |document]|];
    try discriminate; cbn [py_get bind dict_get py_iter] in Hs.
  - destruct (dict_get "Statement" document) as [[| | |s|l|sd]|];
      try discriminate; cbn [py_iter] in Hs; injection Hs as <-;
      try tauto.
    + split; [|contradiction]. intros Hin. exfalso.
      clear H. induction s as [|c s IHs]; [contradiction|].
      destruct Hin as [<-|Hin]; [discriminate | auto].
    + split; [|contradiction]. intros Hin. exfalso.
      apply in_map_iff in Hin as [k [<- _]]. discriminate.
  - injection Hs as <-. tauto.
Qed.

Lemma any_policy_qualifies (policies : list value) (found b : bool) :
  any_policy found policies = Ok b ->
  (b = true <->
   found = true \/
   exists policy statement,
     In policy policies /\ In statement (policy_statements policy) /\
     statement_qualifies statement = true).
Proof.
  revert found. induction policies as [|p rest IH]; simpl; intros found H.
  - injection H as <-. split; auto. intros [E|[? [? [[] _]]]]; auto.
  - apply bind_Ok in H as [hit [Hp H]].
    pose proof (match_policy_qualifies _ _ Hp) as Hq.
    rewrite (IH _ H). split.
    + intros [E|[policy [st [Hin Hst]]]].
      * destruct hit; [|auto]. right.
        destruct (proj1 Hq eq_refl) as [st [Hin Hst]].
        exists p, st. auto.
      * right. exists policy, st. tauto.
    + intros [E|[policy [st [[<-|Hin] [Hin' Hst]]]]].
      * left. subst. now destruct hit.
      * left. assert (hit = true) by (apply Hq; eauto). now subst.
      * right. exists policy, st. auto.
Qed.

(** The policies the loop visits are the inline policies of the role, or
    items on which [_match_policy] raises. *)
Lemma policies_of_inline (role : value) (policies : list value) (policy : value) :
  policies_of role = Ok policies ->
  policy_statements policy <> [] ->
  (In policy policies <-> In policy (inline_policies role)).
Proof.
  unfold policies_of, inline_policies. intros H Hne.
  destruct role as [| | | | |d]; try discriminate. cbn [py_get bind] in H.
  destruct (dict_get "Properties" d) as [[| | | | |props]|];
    try discriminate; cbn [py_get bind dict_get py_iter] in H.
  - destruct (dict_get "Policies" props) as [[| | |s|l|pd]|];
      try discriminate; cbn [py_iter] in H; injection H as <-; try tauto.
    + split; [|contradiction]. intros Hin. exfalso. apply Hne.
      clear Hne. induction s as [|c s IHs]; [contradiction|].
      destruct Hin as [<-|Hin]; [reflexivity | auto].
    + split; [|contradiction]. intros Hin. exfalso. apply Hne.
      apply in_map_iff in Hin as [k [<- _]]. reflexivity.
  - injection H as <-. tauto.
Qed.

Lemma check_role_qualifies (role_name : string) (role : value)
    (out : list RuleMatch) :
  check (role_name, role) = Ok out ->
  (out = [] \/ out = [put_events_match role_name]) /\
  (out = [put_events_match role_name] <->
   exists policy statement,
     In policy (inline_policies role) /\
     In statement (policy_statements policy) /\
     statement_qualifies statement = true).
Proof.
  unfold check. intros H. apply bind_Ok in H as [policies [Hp H]].
  apply bind_Ok in H as [found [Hf H]].
  pose proof (any_policy_qualifies _ _ _ Hf) as Hiff.
  assert (Hex : found = true <->
            exists policy statement,
              In policy (inline_policies role) /\
              In statement (policy_statements policy) /\
              statement_qualifies statement = true).
  { rewrite Hiff. split.
    - intros [E|[policy [st [Hin [Hin' Hq]]]]]; [discriminate|].
      exists policy, st. repeat split; auto.
      apply (policies_of_inline role policies policy Hp); auto.
      intros E. rewrite E in Hin'. contradiction.
    - intros [policy [st [Hin [Hin' Hq]]]]. right.
      exists policy, st. repeat split; auto.
      apply (policies_of_inline role policies policy Hp); auto.
      intros E. rewrite E in Hin'. contradiction. }
  destruct found; injection H as <-.
  - split; [now right|]. split; auto. intros _. now apply Hex.
  - split; [now left|]. split; [discriminate|].
    intros Hx. apply Hex in Hx. discriminate.
Qed.

(** Claim C6 as it is worded does not hold for every template: the role
    Open below has a statement with the action and no condition, and the rule
    raises on the Policies of the other role, so no match is reported for
    Open. *)
Lemma put_events_raises_beside_open_role :
  match_ MoreExamples.conditional_policies = Raise AttributeError /\
  inline_policies
    (Examples.role
       [("Policies",
         VList [Examples.inline_policy [Examples.put_events_statement []]])]) =
    [Examples.inline_policy [Examples.put_events_statement []]] /\
  policy_statements
    (Examples.inline_policy [Examples.put_events_statement []]) =
    [Examples.put_events_statement []] /\
  statement_qualifies (Examples.put_events_statement []) = true /\
  violations_for "Open" (appended match_ MoreExamples.conditional_policies) =
    0%nat.
Proof. repeat split. Qed.

(** C6, amended -- IAM PutEvents rule (E9007).  Whenever the rule returns,
    every IAM role has at most one match, even when several statements
    qualify; and it has that match if and only if some statement of some
    inline policy of the role (the list under Properties, Policies; the list
    under PolicyDocument, Statement) has the action "events:PutEvents" in its
    Action and has no value, or an empty one, under Condition, StringEquals,
    events:source. *)
Theorem put_events_role_flagged_once
    (cfn : Template) (ms : list RuleMatch) (role_name : string) (role : value) :
  dict_wf (Resources cfn) ->
  match_ cfn = Ok ms ->
  In (role_name, role) (get_resources cfn ["AWS::IAM::Role"]) ->
  (violations_for role_name ms <= 1)%nat /\
  (violations_for role_name ms = 1%nat <->
   exists policy statement,
     In policy (inline_policies role) /\
     In statement (policy_statements policy) /\
     statement_qualifies statement = true).
Proof.
  intros Hwf Hms Hin. unfold match_ in Hms.
  apply for_each_Ok in Hms as [-> Hall].
  rewrite (violations_for_keyed (appended check) _ role_name role);
    [| now apply get_resources_wf | exact Hin
     | intros kv m _; apply put_events_check_path].
  specialize (Hall _ Hin).
  destruct (check_role_qualifies _ _ _ Hall) as [Hshape Hiff].
  split.
  - destruct Hshape as [-> | ->]; simpl; lia.
  - rewrite <- Hiff.
    destruct Hshape as [-> | ->]; simpl; split; auto; discriminate.
Qed.

Lemma put_events_witness :
  violations_for "Open"
    (appended IAMPutEventsConditions.match_ Examples.put_events_roles) = 1%nat /\
  violations_for "Closed"
    (appended IAMPutEventsConditions.match_ Examples.put_events_roles) = 0%nat.
Proof.
  assert (Hwf : dict_wf (Resources Examples.put_events_roles)).
  { apply nodup_keys_NoDup. reflexivity. }
  split.
  - refine (proj2 (proj2 (put_events_role_flagged_once
              Examples.put_events_roles _ "Open" _ Hwf eq_refl _)) _).
    + simpl. left. reflexivity.
    + exists (Examples.inline_policy
                [Examples.put_events_statement [];
                 Examples.put_events_statement []]),
             (Examples.put_events_statement []).
      repeat split; simpl; auto.
  - destruct (put_events_role_flagged_once Examples.put_events_roles _
                "Closed"
                (Examples.role
                   [("Policies",
                     VList [Examples.inline_policy
                              [Examples.put_events_statement
                                 Examples.source_condition]])])
                Hwf eq_refl) as [Hle Hiff].
    + simpl. right. left. reflexivity.
    + reflexivity.
Defined.

End PutEvents.

(* ================================================================== *)
(** * E9002: the log group of a function *)
(* ================================================================== *)

Section LogGroup.

Import LambdaLogGroupRule.

(** When the scan of a log group returns, it has appended the reference that
    [re.search] finds in the interpolation string of its name, and nothing
    for a log group that is not named by an interpolation. *)
Lemma scan_log_group_spec (resource : value) (known : list string) :
  scan_log_group resource = Ok known ->
  known =
  match interpolation_string resource with
  | Some s => match Re.search s with Some func => [func] | None => [] end
  | None => []
  end.
Proof.
  unfold scan_log_group, interpolation_string.
  destruct resource as [| | | | |d]; try discriminate. cbn [py_get bind].
  destruct (dict_get "Properties" d) as [[| | |s|l|props]|];
    cbn [py_contains bind]; try discriminate.
  - destruct (str_contains "LogGroupName" s); cbn [negb];
      [discriminate | now intros [= <-]].
  - destruct (existsb (py_eq (VStr "LogGroupName")) l); cbn [negb];
      [discriminate | now intros [= <-]].
  - unfold dict_mem.
    destruct (dict_get "LogGroupName" props) as [name|] eqn:En;
      cbn [negb]; [|now intros [= <-]].
    cbn [py_get bind]. rewrite En.
    destruct name as [| | | | |n]; cbn [isinstance_dict negb];
      try (now intros [= <-]).
    cbn [py_contains bind]. unfold dict_mem.
    destruct (dict_get "Fn::Sub" n) as [sub|] eqn:Es;
      cbn [negb]; [|now intros [= <-]].
    cbn [py_getitem bind]. rewrite Es. cbn [bind].
    destruct sub; cbn [Re.re_search bind]; try discriminate.
    destruct (Re.search s); now intros [= <-].
Qed.

Lemma known_spec (log_groups : list value) (known : list string) :
  for_each scan_log_group log_groups = Ok known ->
  forall func,
    In func known <->
    exists resource s,
      In resource log_groups /\ interpolation_string resource = Some s /\
      Re.search s = Some func.
Proof.
  intros H func. apply for_each_Ok in H as [-> Hall].
  rewrite in_flat_map. split.
  - intros [resource [Hin Hf]]. specialize (Hall _ Hin).
    apply scan_log_group_spec in Hall. rewrite Hall in Hf.
    destruct (interpolation_string resource) as [s|] eqn:Es;
      [|contradiction].
    destruct (Re.search s) as [g|] eqn:Eg; [|contradiction].
    destruct Hf as [<-|[]]. exists resource, s. auto.
  - intros [resource [s [Hin [Hs Hf]]]]. exists resource. split; auto.
    specialize (Hall _ Hin). apply scan_log_group_spec in Hall.
    rewrite Hall, Hs, Hf. now left.
Qed.

(** Claim C1 as it is worded does not hold: the log group of Foo below is
    named with two embedded references, so it is not among the log groups
    with exactly one, and Foo is not in the covered set of the wording; yet
    the rule reports nothing for Foo (it is not reported once). *)
Lemma log_group_two_references_covered :
  extract_interpolation_refs "/aws/lambda/${Foo}-${AWS::Region}" =
    ["Foo"; "AWS::Region"] /\
  covered_by_spec Examples.foo_two_refs = [] /\
  dict_keys (get_resources Examples.foo_two_refs ["AWS::Lambda::Function"]) =
    ["Foo"] /\
  match_ Examples.foo_two_refs = Ok [] /\
  violations_for "Foo" (appended match_ Examples.foo_two_refs) = 0%nat.
Proof. repeat split. Qed.

(** C1, amended -- Log-group rule (E9002).  Whenever the rule returns, the
    known names are the leftmost embedded reference (the first of the
    references a scan of the string collects) of every log group whose
    LogGroupName is an interpolation with at least one embedded reference;
    every function whose logical name is not among them has exactly one
    match, a function whose name is among them has none, and no match is
    reported for anything else.  A function Foo with a log group named
    "/aws/lambda/${Foo}" has no match and a function Bar without matching log
    group has exactly one. *)
Theorem log_group_rule_first_reference (cfn : Template) (ms : list RuleMatch) :
  dict_wf (Resources cfn) ->
  match_ cfn = Ok ms ->
  let functions := dict_keys (get_resources cfn ["AWS::Lambda::Function"]) in
  let log_groups := dict_values (get_resources cfn ["AWS::Logs::LogGroup"]) in
  (exists known,
     for_each scan_log_group log_groups = Ok known /\
     (forall func,
        In func known <->
        exists resource s,
          In resource log_groups /\
          interpolation_string resource = Some s /\
          Re.search s = Some func /\
          hd_error (extract_interpolation_refs s) = Some func) /\
     (forall f, In f functions ->
        violations_for f ms = if mem_string f known then 0%nat else 1%nat) /\
     (forall m, In m ms ->
        exists f, In f functions /\ ~ In f known /\ m = log_group_match f)) /\
  match_ Examples.foo_bar = Ok [log_group_match "Bar"].
Proof.
  intros Hwf Hms functions log_groups. split; [|reflexivity].
  unfold match_ in Hms. fold functions in Hms. fold log_groups in Hms.
  apply bind_Ok in Hms as [known [Hk Hms]]. inversion Hms as [Hms'].
  clear Hms. exists known. split; auto. split; [|split].
  - intros func. rewrite (known_spec _ _ Hk func). split.
    + intros [resource [s [H1 [H2 H3]]]]. exists resource, s.
      repeat split; auto. now rewrite <- search_first_ref.
    + intros [resource [s [H1 [H2 [H3 _]]]]]. eauto.
  - intros f Hin. rewrite violations_for_keys; auto.
    + unfold check_function. destruct (mem_string f known); reflexivity.
    + apply (get_resources_wf cfn ["AWS::Lambda::Function"] Hwf).
    + intros k m _. unfold check_function.
      destruct (mem_string k known); simpl; [contradiction|].
      intros [<-|[]]. reflexivity.
  - intros m Hm. apply in_flat_map in Hm as [f [Hin Hm]].
    unfold check_function in Hm.
    destruct (mem_string f known) eqn:E; simpl in Hm; [contradiction|].
    destruct Hm as [<-|[]]. exists f. repeat split; auto.
    now apply mem_string_not_In.
Qed.

Lemma log_group_rule_witness :
  violations_for "Bar" (appended match_ Examples.foo_bar) = 1%nat.
Proof.
  assert (Hwf : dict_wf (Resources Examples.foo_bar)).
  { apply nodup_keys_NoDup. reflexivity. }
  destruct (log_group_rule_first_reference Examples.foo_bar _ Hwf eq_refl)
    as [[known [Hk [_ [Hcount _]]]] _].
  injection Hk as <-. apply (Hcount "Bar"). simpl. tauto.
Defined.

End LogGroup.

(* ================================================================== *)
(** * E9004: the event invoke config *)
(* ================================================================== *)

Section InvokeConfig.

Import LambdaRuleInvokeConfig.

Variable function_names : dict.
Variable covered : list value.

Lemma check_target_out (key : string) (target : value) (out : list RuleMatch) :
  check_target function_names covered key target = Ok out ->
  out = if is_Ok_true (target_unconfigured function_names covered target)
        then [invoke_config_match key] else [].
Proof.
  unfold check_target. intros H. apply bind_Ok in H as [flagged [Hf H]].
  rewrite Hf. destruct flagged; now inversion H.
Qed.

(** The matches of one events rule: one for each of its targets that the
    test reports, all at the rule. *)
Lemma check_targets_out (key : string) (targets : list value)
    (out : list RuleMatch) :
  for_each (check_target function_names covered key) targets = Ok out ->
  out = map (fun _ => invoke_config_match key)
            (unconfigured_targets function_names covered targets).
Proof.
  revert out. induction targets as [|t targets IH]; simpl; intros out H.
  - now inversion H.
  - apply bind_Ok in H as [ys [Hy H]].
    apply bind_Ok in H as [rest [Hrest H]]. inversion H; subst.
    apply check_target_out in Hy. rewrite (IH _ Hrest), Hy.
    unfold unconfigured_targets. simpl.
    destruct (is_Ok_true _); reflexivity.
Qed.

Lemma check_rule_out (key : string) (resource : value) (out : list RuleMatch) :
  check_rule function_names covered (key, resource) = Ok out ->
  exists targets,
    targets_of resource = Ok targets /\
    out = map (fun _ => invoke_config_match key)
              (unconfigured_targets function_names covered targets).
Proof.
  unfold check_rule. intros H. apply bind_Ok in H as [targets [Ht H]].
  exists targets. split; auto. now apply check_targets_out.
Qed.

Lemma check_rule_path (kv : string * value) (m : RuleMatch) :
  In m (appended (check_rule function_names covered) kv) ->
  path m = ["Resources"; fst kv].
Proof.
  unfold appended. destruct kv as [key resource].
  destruct (check_rule function_names covered (key, resource)) as [out|] eqn:E;
    [|contradiction].
  apply check_rule_out in E as [targets [_ ->]].
  rewrite in_map_iff. intros [t [<- _]]. reflexivity.
Qed.

(** The target test spelled out: the Arn of the target is an attribute
    reference whose first element is the name of a declared function, and
    no EventInvokeConfig with a failure destination refers to that name. *)
Lemma target_unconfigured_true (target : value) :
  target_unconfigured function_names covered target = Ok true <->
  exists d arn getatt f,
    target = VDict d /\
    dict_get "Arn" d = Some (VDict arn) /\
    dict_get "Fn::GetAtt" arn = Some getatt /\
    py_getitem0 getatt = Ok (VStr f) /\
    dict_mem f function_names = true /\
    ~ In (VStr f) covered.
Proof.
  unfold target_unconfigured, getatt_head. split.
  - destruct target as [| | | | |d]; try discriminate. cbn [py_get bind py_getitem].
    destruct (dict_get "Arn" d) as [[| | | | |arn]|] eqn:Ea;
      cbn [py_get bind py_getitem dict_get is_None]; try discriminate.
    destruct (dict_get "Fn::GetAtt" arn) as [getatt|] eqn:Eg;
      cbn [bind is_None]; [|discriminate].
    destruct (is_None getatt) eqn:En; [discriminate|].
    destruct (py_getitem0 getatt) as [head|] eqn:Eh; cbn [bind];
      [|discriminate].
    unfold keys_contains.
    destruct head as [| | |f| |]; cbn [py_contains bind negb];
      try discriminate.
    destruct (dict_mem f function_names) eqn:Em; cbn [negb]; [|discriminate].
    destruct (existsb (py_eq (VStr f)) covered) eqn:Hc; cbn [negb];
      [discriminate|]. intros _.
    exists d, arn, getatt, f. repeat split; auto.
    intros Hin. apply existsb_py_eq_VStr in Hin. congruence.
  - intros [d [arn [getatt [f [-> [Ea [Eg [Eh [Em Hc]]]]]]]]].
    cbn [py_get bind py_getitem]. rewrite Ea. cbn [py_get bind py_getitem].
    rewrite Eg. cbn [bind].
    assert (En : is_None getatt = false)
      by (destruct getatt; auto; discriminate).
    rewrite En, Eh. cbn [bind]. unfold keys_contains. cbn [py_contains bind].
    rewrite Em. cbn [negb]. f_equal. apply negb_true_iff.
    destruct (existsb (py_eq (VStr f)) covered) eqn:E; auto.
    apply existsb_py_eq_VStr in E. contradiction.
Qed.

End InvokeConfig.

Section InvokeConfigClaims.

Import LambdaRuleInvokeConfig.

(** When the scan of an EventInvokeConfig returns, it has appended the
    function the resource refers to, if it has a failure destination. *)
Lemma scan_invoke_config_spec (resource : value) (out : list value) :
  scan_invoke_config resource = Ok out ->
  out = match configured_function resource with
        | Some v => [v]
        | None => []
        end.
Proof.
  unfold scan_invoke_config, on_failure, configured_function.
  destruct resource as [| | | | |d]; try discriminate.
  cbn [py_get bind py_getitem].
  destruct (dict_get "Properties" d) as [[| | | | |props]|];
    cbn [py_get bind py_getitem dict_get is_None]; try discriminate;
    [|now intros [= <-]].
  destruct (dict_get "DestinationConfig" props) as [[| | | | |dest]|];
    cbn [py_get bind py_getitem dict_get is_None]; try discriminate;
    [|now intros [= <-]].
  destruct (dict_get "OnFailure" dest) as [destination|];
    cbn [is_None]; [|now intros [= <-]].
  destruct (is_None destination); [now intros [= <-]|].
  destruct (dict_get "FunctionName" props) as [[| | | | |function_name]|];
    cbn [py_getitem bind]; try discriminate.
  destruct (dict_get "Ref" function_name); cbn [bind]; [|discriminate].
  now intros [= <-].
Qed.

Lemma covered_spec (invoke_configs : list value) (covered : list value) :
  for_each scan_invoke_config invoke_configs = Ok covered ->
  forall v,
    In v covered <->
    exists resource,
      In resource invoke_configs /\ configured_function resource = Some v.
Proof.
  intros H v. apply for_each_Ok in H as [-> Hall].
  rewrite in_flat_map. split.
  - intros [resource [Hin Hv]]. exists resource. split; auto.
    specialize (Hall _ Hin). apply scan_invoke_config_spec in Hall.
    rewrite Hall in Hv.
    destruct (configured_function resource); [|contradiction].
    destruct Hv as [<-|[]]. reflexivity.
  - intros [resource [Hin Hv]]. exists resource. split; auto.
    specialize (Hall _ Hin). apply scan_invoke_config_spec in Hall.
    rewrite Hall, Hv. now left.
Qed.




End InvokeConfigClaims.

(* ================================================================== *)
(** * Absent Properties *)
(* ================================================================== *)

Section AbsentProperties.

Lemma dict_get_app_new (k : string) (v : value) (d : dict) :
  dict_get k d = None -> dict_get k (d ++ [(k, v)]) = Some v.
Proof.
  induction d as [|[k' v'] d IH]; simpl.
  - now rewrite String.eqb_refl.
  - destruct (String.eqb k k'); [discriminate | exact IH].
Qed.

Lemma dict_get_app_other (k k' : string) (v : value) (d : dict) :
  k <> k' -> dict_get k (d ++ [(k', v)]) = dict_get k d.
Proof.
  intros Hne. induction d as [|[k2 v2] d IH]; simpl.
  - apply String.eqb_neq in Hne. now rewrite Hne.
  - destruct (String.eqb k k2); auto.
Qed.

(** Reading Properties with the empty default does not tell a resource
    without Properties from the same resource with an empty one. *)
Lemma py_get_properties_fill (v : value) :
  py_get (with_empty_properties v) "Properties" (VDict []) =
  py_get v "Properties" (VDict []).
Proof.
  destruct v as [| | | | |d]; auto. unfold with_empty_properties, dict_mem.
  destruct (dict_get "Properties" d) eqn:E; auto.
  cbn [py_get]. now rewrite E, dict_get_app_new.
Qed.

Lemma type_tag_fill (v : value) :
  type_tag (with_empty_properties v) = type_tag v.
Proof.
  destruct v as [| | | | |d]; auto. unfold with_empty_properties.
  destruct (dict_mem "Properties" d); auto.
  unfold type_tag. now rewrite dict_get_app_other by discriminate.
Qed.

Lemma get_resources_fill (cfn : Template) (types : list string) :
  get_resources (fill_properties cfn) types =
  map fill_entry (get_resources cfn types).
Proof.
  unfold get_resources, fill_properties. cbn [Resources].
  induction (Resources cfn) as [|kv l IH]; simpl; auto.
  assert (E : has_type types (fill_entry kv) = has_type types kv).
  { unfold has_type, fill_entry. cbn [snd]. now rewrite type_tag_fill. }
  rewrite E. destruct (has_type types kv); simpl; now rewrite IH.
Qed.

Lemma dict_get_fill (k : string) (d : dict) :
  dict_get k (map fill_entry d) =
  option_map with_empty_properties (dict_get k d).
Proof.
  induction d as [|[k' v'] d IH]; simpl; auto.
  destruct (String.eqb k k'); auto.
Qed.

Lemma dict_keys_fill (d : dict) : dict_keys (map fill_entry d) = dict_keys d.
Proof. unfold dict_keys. rewrite map_map. reflexivity. Qed.

Lemma dict_values_fill (d : dict) :
  dict_values (map fill_entry d) = map with_empty_properties (dict_values d).
Proof. unfold dict_values. now rewrite !map_map. Qed.

Lemma dict_mem_fill (k : string) (d : dict) :
  dict_mem k (map fill_entry d) = dict_mem k d.
Proof.
  unfold dict_mem. rewrite dict_get_fill. now destruct (dict_get k d).
Qed.

Lemma on_failure_fill (v : value) :
  on_failure (with_empty_properties v) = on_failure v.
Proof. unfold on_failure. now rewrite py_get_properties_fill. Qed.

Lemma esm_check_fill (kv : string * value) :
  LambdaESMDestinationConfig.check (fill_entry kv) =
  LambdaESMDestinationConfig.check kv.
Proof.
  destruct kv as [key v]. unfold LambdaESMDestinationConfig.check, fill_entry.
  cbn [fst snd]. now rewrite on_failure_fill.
Qed.

Lemma layer_check_fill (kv : string * value) :
  LambdaInsightsLayer.check (fill_entry kv) = LambdaInsightsLayer.check kv.
Proof.
  destruct kv as [key v].
  unfold LambdaInsightsLayer.check, LambdaInsightsLayer.layers_of, fill_entry.
  cbn [fst snd]. now rewrite py_get_properties_fill.
Qed.

Lemma put_events_check_fill (kv : string * value) :
  IAMPutEventsConditions.check (fill_entry kv) =
  IAMPutEventsConditions.check kv.
Proof.
  destruct kv as [key v].
  unfold IAMPutEventsConditions.check, IAMPutEventsConditions.policies_of,
    fill_entry.
  cbn [fst snd]. now rewrite py_get_properties_fill.
Qed.

Lemma permission_check_fill (roles : dict) (f : string) :
  LambdaInsightsPermission.check (map fill_entry roles) f =
  LambdaInsightsPermission.check roles f.
Proof.
  unfold LambdaInsightsPermission.check,
    LambdaInsightsPermission.managed_policy_arns.
  cbn [py_getitem]. rewrite dict_get_fill.
  destruct (dict_get (LambdaInsightsPermission.role_name f) roles) as [role|];
    cbn [option_map bind]; auto.
  now rewrite py_get_properties_fill.
Qed.

(** An EventInvokeConfig without Properties has no failure destination, so
    its FunctionName is never read. *)
Lemma scan_invoke_config_fill (v : value) :
  LambdaRuleInvokeConfig.scan_invoke_config (with_empty_properties v) =
  LambdaRuleInvokeConfig.scan_invoke_config v.
Proof.
  unfold LambdaRuleInvokeConfig.scan_invoke_config.
  rewrite on_failure_fill.
  destruct v as [| | | | |d]; auto. unfold with_empty_properties.
  destruct (dict_mem "Properties" d) eqn:E; auto.
  unfold dict_mem in E. unfold on_failure. cbn [py_get bind].
  destruct (dict_get "Properties" d); [discriminate|]. reflexivity.
Qed.

Lemma check_rule_fill (function_names : dict) (covered : list value)
    (kv : string * value) :
  LambdaRuleInvokeConfig.check_rule (map fill_entry function_names) covered
    (fill_entry kv) =
  LambdaRuleInvokeConfig.check_rule function_names covered kv.
Proof.
  destruct kv as [key v].
  unfold LambdaRuleInvokeConfig.check_rule, LambdaRuleInvokeConfig.targets_of,
    fill_entry.
  cbn [fst snd]. rewrite py_get_properties_fill.
  destruct (py_get v "Properties" (VDict [])) as [props|]; auto. cbn [bind].
  destruct (py_get props "Targets" (VList [])) as [targets|]; auto.
  cbn [bind]. destruct (py_iter targets) as [ts|]; auto. cbn [bind].
  apply for_each_ext. intros target _.
  unfold LambdaRuleInvokeConfig.check_target,
    LambdaRuleInvokeConfig.target_unconfigured, keys_contains.
  destruct (py_get target "Arn" (VDict [])) as [arn|]; auto. cbn [bind].
  destruct (py_get arn "Fn::GetAtt" VNone) as [getatt|]; auto. cbn [bind].
  destruct (is_None getatt); auto.
  destruct (LambdaRuleInvokeConfig.getatt_head target) as [head|]; auto.
  cbn [bind]. destruct head; cbn [py_contains]; auto.
  now rewrite dict_mem_fill.
Qed.

(** The outcome of each check on a resource that has no Properties key. *)
Lemma bare_resource_checks (key : string) (d : dict)
    (function_names : dict) (covered : list value) :
  dict_get "Properties" d = None ->
  LambdaESMDestinationConfig.check (key, VDict d) = Ok [destination_match key] /\
  LambdaRuleInvokeConfig.scan_invoke_config (VDict d) = Ok [] /\
  LambdaRuleInvokeConfig.check_rule function_names covered (key, VDict d) = Ok [] /\
  LambdaInsightsLayer.check (key, VDict d) = Ok [layer_match key] /\
  LambdaInsightsPermission.managed_policy_arns (VDict d) = Ok (VList []) /\
  IAMPutEventsConditions.check (key, VDict d) = Ok [].
Proof.
  intros H.
  unfold LambdaESMDestinationConfig.check,
    LambdaRuleInvokeConfig.scan_invoke_config, on_failure,
    LambdaRuleInvokeConfig.check_rule, LambdaRuleInvokeConfig.targets_of,
    LambdaInsightsLayer.check, LambdaInsightsLayer.layers_of,
    LambdaInsightsPermission.managed_policy_arns,
    IAMPutEventsConditions.check, IAMPutEventsConditions.policies_of.
  cbn [py_get bind]. rewrite H. repeat split.
Qed.

(** A value of another type than the rule expects is not treated as empty:
    a string DestinationConfig makes E9003 raise, a null Layers makes E9005
    raise.  And E9001 and E9002 read Properties without a default, so they
    raise on a function or a log group that has a Type and no Properties
    key. *)
Lemma shape_mismatch_raises :
  LambdaESMDestinationConfig.match_ Examples.string_destination =
    Raise AttributeError /\
  LambdaInsightsLayer.match_ Examples.null_layers = Raise TypeError /\
  Python39Rule.match_ Examples.bare_function = Raise AttributeError /\
  LambdaLogGroupRule.match_ Examples.bare_log_group = Raise TypeError.
Proof. repeat split. Qed.

(** X18 -- Absent Properties in E9003 to E9007.  The rules E9003, E9004,
    E9005, E9006 and E9007 read Properties with an empty default: on every
    template each of them gives the same outcome as on the template in which
    every resource without a Properties key has an empty Properties object;
    and on every resource without a Properties key their checks return: E9003
    and E9005 report the resource, E9007 does not, E9004 finds no target and
    no configured function, E9006 finds no managed policy. *)
Theorem absent_properties_as_empty (cfn : Template) :
  LambdaESMDestinationConfig.match_ (fill_properties cfn) =
    LambdaESMDestinationConfig.match_ cfn /\
  LambdaRuleInvokeConfig.match_ (fill_properties cfn) =
    LambdaRuleInvokeConfig.match_ cfn /\
  LambdaInsightsLayer.match_ (fill_properties cfn) =
    LambdaInsightsLayer.match_ cfn /\
  LambdaInsightsPermission.match_ (fill_properties cfn) =
    LambdaInsightsPermission.match_ cfn /\
  IAMPutEventsConditions.match_ (fill_properties cfn) =
    IAMPutEventsConditions.match_ cfn /\
  (forall key d function_names covered,
     dict_get "Properties" d = None ->
     LambdaESMDestinationConfig.check (key, VDict d) =
       Ok [destination_match key] /\
     LambdaRuleInvokeConfig.scan_invoke_config (VDict d) = Ok [] /\
     LambdaRuleInvokeConfig.check_rule function_names covered (key, VDict d) =
       Ok [] /\
     LambdaInsightsLayer.check (key, VDict d) = Ok [layer_match key] /\
     LambdaInsightsPermission.managed_policy_arns (VDict d) = Ok (VList []) /\
     IAMPutEventsConditions.check (key, VDict d) = Ok []).
Proof.
  split; [|split; [|split; [|split; [|split]]]].
  - unfold LambdaESMDestinationConfig.match_.
    rewrite get_resources_fill, for_each_map.
    apply for_each_ext. intros kv _. apply esm_check_fill.
  - unfold LambdaRuleInvokeConfig.match_.
    rewrite !get_resources_fill, dict_values_fill, for_each_map.
    rewrite (for_each_ext _ LambdaRuleInvokeConfig.scan_invoke_config)
      by (intros v _; apply scan_invoke_config_fill).
    destruct (for_each LambdaRuleInvokeConfig.scan_invoke_config _)
      as [covered|]; auto.
    cbn [bind]. rewrite for_each_map.
    apply for_each_ext. intros kv _. apply check_rule_fill.
  - unfold LambdaInsightsLayer.match_.
    rewrite get_resources_fill, for_each_map.
    apply for_each_ext. intros kv _. apply layer_check_fill.
  - unfold LambdaInsightsPermission.match_.
    rewrite !get_resources_fill, dict_keys_fill.
    apply for_each_ext. intros f _. apply permission_check_fill.
  - unfold IAMPutEventsConditions.match_.
    rewrite get_resources_fill, for_each_map.
    apply for_each_ext. intros kv _. apply put_events_check_fill.
  - intros key d function_names covered H.
    now apply bare_resource_checks.
Qed.

End AbsentProperties.

(* ================================================================== *)
(** * The rules return on templates of the expected shape *)
(* ================================================================== *)

Section Returns.

Lemma forallb_values (shaped : value -> bool) (d : dict) k v :
  forallb shaped (dict_values d) = true -> In (k, v) d -> shaped v = true.
Proof.
  unfold dict_values. rewrite forallb_forall. intros H Hin. apply H.
  change v with (snd (k, v)). now apply in_map.
Qed.

Lemma py_get_properties_of (resource : value) (props : dict) :
  properties_of resource = Some props ->
  py_get resource "Properties" (VDict []) = Ok (VDict props).
Proof.
  unfold properties_of. destruct resource as [| | | | |d]; try discriminate.
  cbn [py_get].
  destruct (dict_get "Properties" d) as [[| | | | |p]|]; try discriminate;
    now intros [= <-].
Qed.

(** E9005 *)
Lemma insights_layer_returns (cfn : Template) :
  forallb layers_shaped
    (dict_values (get_resources cfn ["AWS::Lambda::Function"])) = true ->
  exists ms, LambdaInsightsLayer.match_ cfn = Ok ms.
Proof.
  intros H. unfold LambdaInsightsLayer.match_.
  rewrite for_each_total; [eauto|]. intros [key resource] Hin.
  pose proof (forallb_values _ _ _ _ H Hin) as Hs.
  unfold layers_shaped in Hs.
  destruct (properties_of resource) as [props|] eqn:Ep; [|discriminate].
  unfold LambdaInsightsLayer.check, LambdaInsightsLayer.layers_of.
  rewrite (py_get_properties_of _ _ Ep). cbn [bind py_get].
  destruct (dict_get "Layers" props) as [[| | | |l|]|]; try discriminate;
    cbn [py_contains bind];
    match goal with |- context [negb ?b] => destruct (negb b) end; eauto.
Qed.

(** E9002 *)
Lemma log_group_rule_returns (cfn : Template) :
  forallb log_group_shaped
    (dict_values (get_resources cfn ["AWS::Logs::LogGroup"])) = true ->
  exists ms, LambdaLogGroupRule.match_ cfn = Ok ms.
Proof.
  intros H. unfold LambdaLogGroupRule.match_.
  rewrite (for_each_total LambdaLogGroupRule.scan_log_group).
  - cbn [bind]. eauto.
  - intros resource Hin. rewrite forallb_forall in H. specialize (H _ Hin).
    unfold log_group_shaped in H. unfold LambdaLogGroupRule.scan_log_group.
    destruct resource as [| | | | |d]; try discriminate. cbn [py_get bind].
    destruct (dict_get "Properties" d) as [[| | | | |props]|];
      try discriminate.
    cbn [py_contains bind]. unfold dict_mem.
    destruct (dict_get "LogGroupName" props) as [name|] eqn:En;
      cbn [negb]; eauto.
    cbn [py_get bind]. rewrite En.
    destruct name as [| | | | |n]; cbn [isinstance_dict negb]; eauto.
    cbn [py_contains bind]. unfold dict_mem.
    destruct (dict_get "Fn::Sub" n) as [sub|] eqn:Es; cbn [negb]; eauto.
    cbn [py_getitem bind]. rewrite Es. cbn [bind].
    destruct sub; try discriminate. cbn [Re.re_search bind].
    destruct (Re.search s); eauto.
Qed.

(** E9007 *)
Lemma statement_unrestricted_returns (statement : value) :
  statement_shaped statement = true ->
  exists b, IAMPutEventsConditions.statement_unrestricted statement = Ok b.
Proof.
  unfold statement_shaped. destruct statement as [| | | | |d]; try discriminate.
  intros H. apply andb_true_iff in H as [Ha Hc].
  unfold IAMPutEventsConditions.statement_unrestricted,
    IAMPutEventsConditions.source_condition.
  cbn [py_get bind].
  assert (Hs : exists source,
            (string_equals <-
               py_get (match dict_get "Condition" d with
                       | Some x => x
                       | None => VDict []
                       end) "StringEquals" (VDict []) ;;
             py_get string_equals "events:source" VNone) = Ok source).
  { destruct (dict_get "Condition" d) as [[| | | | |condition]|];
      try discriminate; cbn [py_get bind dict_get]; eauto.
    destruct (dict_get "StringEquals" condition) as [[| | | | |se]|];
      try discriminate; cbn [py_get bind dict_get]; eauto. }
  destruct Hs as [source Hs].
  destruct (dict_get "Action" d) as [[| | |a|l|a]|]; try discriminate;
    cbn [py_contains bind];
    match goal with
    | |- context [if ?b then _ else _] => destruct b
    end; try rewrite Hs; cbn [bind]; eauto.
Qed.

Lemma first_unrestricted_returns (statements : list value) :
  forallb statement_shaped statements = true ->
  exists b, IAMPutEventsConditions.first_unrestricted statements = Ok b.
Proof.
  induction statements as [|s rest IH]; simpl; intros H; eauto.
  apply andb_true_iff in H as [Hs Hrest].
  destruct (statement_unrestricted_returns s Hs) as [[|] ->]; cbn [bind];
    eauto.
Qed.

Lemma match_policy_returns (policy : value) :
  policy_shaped policy = true ->
  exists b, IAMPutEventsConditions._match_policy policy = Ok b.
Proof.
  unfold policy_shaped. destruct policy as [| | | | |d]; try discriminate.
  unfold IAMPutEventsConditions._match_policy,
    IAMPutEventsConditions.statements_of.
  cbn [py_get bind].
  destruct (dict_get "PolicyDocument" d) as [[| | | | |document]|];
    try discriminate; cbn [py_get bind dict_get py_iter]; eauto.
  - destruct (dict_get "Statement" document) as [[| | | |statements|]|];
      try discriminate; cbn [py_iter bind]; eauto.
    + apply first_unrestricted_returns.
    + intros _. simpl. eauto.
  - intros _. simpl. eauto.
Qed.

Lemma any_policy_returns (policies : list value) (found : bool) :
  forallb policy_shaped policies = true ->
  exists b, IAMPutEventsConditions.any_policy found policies = Ok b.
Proof.
  revert found. induction policies as [|p rest IH]; simpl; intros found H; eauto.
  apply andb_true_iff in H as [Hp Hrest].
  destruct (match_policy_returns p Hp) as [hit ->]. cbn [bind]. auto.
Qed.

Lemma put_events_rule_returns (cfn : Template) :
  forallb policies_shaped
    (dict_values (get_resources cfn ["AWS::IAM::Role"])) = true ->
  exists ms, IAMPutEventsConditions.match_ cfn = Ok ms.
Proof.
  intros H. unfold IAMPutEventsConditions.match_.
  rewrite for_each_total; [eauto|]. intros [key role] Hin.
  pose proof (forallb_values _ _ _ _ H Hin) as Hs.
  unfold policies_shaped in Hs.
  destruct (properties_of role) as [props|] eqn:Ep; [|discriminate].
  unfold IAMPutEventsConditions.check, IAMPutEventsConditions.policies_of.
  rewrite (py_get_properties_of _ _ Ep). cbn [bind py_get].
  assert (Hany : forall policies, forallb policy_shaped policies = true ->
            exists out,
              (found <- IAMPutEventsConditions.any_policy false policies ;;
               (if (found : bool)
                then Ok [put_events_match key] else Ok [])) = Ok out).
  { intros policies Hp.
    destruct (any_policy_returns policies false Hp) as [[|] ->];
      cbn [bind]; eauto. }
  destruct (dict_get "Policies" props) as [[| | | |policies|]|];
    try discriminate; cbn [py_iter bind].
  - now apply Hany.
  - now apply (Hany []).
Qed.

(** E9004 *)
Lemma scan_invoke_config_returns (resource : value) :
  invoke_config_shaped resource = true ->
  exists out, LambdaRuleInvokeConfig.scan_invoke_config resource = Ok out.
Proof.
  unfold invoke_config_shaped, properties_of,
    LambdaRuleInvokeConfig.scan_invoke_config, on_failure, dict_mem.
  destruct resource as [| | | | |d]; try discriminate.
  cbn [py_get bind py_getitem].
  destruct (dict_get "Properties" d) as [[| | | | |props]|];
    try discriminate; cbn [py_get bind py_getitem dict_get is_None]; eauto.
  destruct (dict_get "DestinationConfig" props) as [[| | | | |dest]|];
    try discriminate; cbn [py_get bind py_getitem dict_get is_None]; eauto.
  destruct (dict_get "OnFailure" dest) as [destination|];
    cbn [is_None]; eauto.
  destruct destination; cbn [is_None]; eauto;
    (destruct (dict_get "FunctionName" props) as [[| | | | |fn]|];
     try discriminate; cbn [py_getitem bind];
     destruct (dict_get "Ref" fn); try discriminate; cbn [bind]; eauto).
Qed.

Lemma check_target_returns (function_names : dict) (covered : list value)
    (key : string) (target : value) :
  target_shaped target = true ->
  exists out,
    LambdaRuleInvokeConfig.check_target function_names covered key target =
    Ok out.
Proof.
  unfold target_shaped, LambdaRuleInvokeConfig.check_target,
    LambdaRuleInvokeConfig.target_unconfigured,
    LambdaRuleInvokeConfig.getatt_head, keys_contains.
  destruct target as [| | | | |d]; try discriminate.
  cbn [py_get bind py_getitem].
  destruct (dict_get "Arn" d) as [[| | | | |arn]|]; try discriminate;
    cbn [py_get bind py_getitem dict_get is_None]; eauto.
  destruct (dict_get "Fn::GetAtt" arn) as [[| | |s|l|]|]; try discriminate;
    cbn [bind is_None]; eauto.
  - destruct s as [|c s]; try discriminate.
    cbn [py_getitem0 bind py_contains]. intros _.
    destruct (dict_mem _ function_names); cbn [negb bind]; eauto.
    destruct (negb _); eauto.
  - destruct l as [|[| | |f| |] l]; try discriminate.
    cbn [py_getitem0 bind py_contains]. intros _.
    destruct (dict_mem f function_names); cbn [negb bind]; eauto.
    destruct (negb _); eauto.
Qed.

Lemma invoke_config_rule_returns (cfn : Template) :
  forallb invoke_config_shaped
    (dict_values (get_resources cfn ["AWS::Lambda::EventInvokeConfig"])) = true ->
  forallb events_rule_shaped
    (dict_values (get_resources cfn ["AWS::Events::Rule"])) = true ->
  exists ms, LambdaRuleInvokeConfig.match_ cfn = Ok ms.
Proof.
  intros Hc Hr. unfold LambdaRuleInvokeConfig.match_.
  rewrite (for_each_total LambdaRuleInvokeConfig.scan_invoke_config).
  2:{ intros resource Hin. apply scan_invoke_config_returns.
      rewrite forallb_forall in Hc. auto. }
  cbn [bind]. rewrite for_each_total; [eauto|]. intros [key resource] Hin.
  pose proof (forallb_values _ _ _ _ Hr Hin) as Hs.
  unfold events_rule_shaped in Hs.
  destruct (properties_of resource) as [props|] eqn:Ep; [|discriminate].
  unfold LambdaRuleInvokeConfig.check_rule, LambdaRuleInvokeConfig.targets_of.
  rewrite (py_get_properties_of _ _ Ep). cbn [bind py_get].
  destruct (dict_get "Targets" props) as [[| | | |targets|]|];
    try discriminate; cbn [py_iter bind].
  - rewrite for_each_total; [eauto|]. intros target Ht.
    apply check_target_returns. rewrite forallb_forall in Hs. auto.
  - simpl. eauto.
Qed.

End Returns.

(* ================================================================== *)
(** * Further properties: E9001 and E9003 *)
(* ================================================================== *)

Section RuntimeRule.

Import Python39Rule.

Lemma py_eq_VStr_r (v : value) (s : string) :
  py_eq v (VStr s) = true <-> v = VStr s.
Proof.
  destruct v; simpl; try (split; [discriminate | congruence]).
  rewrite String.eqb_eq. split; congruence.
Qed.

(** A loop over the entries of a dict appends, entry by entry, what the
    body says. *)
Lemma flat_map_select {A B} (keep : A -> bool) (out : A -> B)
    (body : A -> list B) (l : list A) :
  (forall x, In x l -> body x = if keep x then [out x] else []) ->
  flat_map body l = map out (filter keep l).
Proof.
  induction l as [|x l IH]; simpl; intros H; auto.
  rewrite (H x) by now left. rewrite IH by (intros; apply H; now right).
  destruct (keep x); reflexivity.
Qed.

(** The check of a function returns exactly when the function has a
    Properties object, and then reports every runtime but the pinned one. *)
Lemma runtime_check_spec (key : string) (resource : value) :
  match resource with
  | VDict d =>
      match dict_get "Properties" d with
      | Some (VDict props) =>
          check (key, resource) =
          Ok (if py_eq (runtime_of props) (VStr _runtime) then []
              else [runtime_match key (runtime_of props)])
      | _ => check (key, resource) = Raise AttributeError
      end
  | _ => check (key, resource) = Raise AttributeError
  end.
Proof.
  unfold check, runtime_of. destruct resource as [| | | | |d]; try reflexivity.
  cbn [py_get bind].
  destruct (dict_get "Properties" d) as [[| | | | |props]|]; try reflexivity.
  cbn [py_get bind].
  destruct (py_eq _ (VStr _runtime)); reflexivity.
Qed.

Lemma runtime_check_path (kv : string * value) (m : RuleMatch) :
  In m (appended check kv) -> path m = ["Resources"; fst kv].
Proof.
  unfold appended. destruct kv as [key resource].
  pose proof (runtime_check_spec key resource) as H.
  destruct resource as [| | | | |d]; try (rewrite H; contradiction).
  destruct (dict_get "Properties" d) as [[| | | | |props]|];
    try (rewrite H; contradiction).
  rewrite H. destruct (py_eq _ _); simpl; [contradiction|].
  intros [<-|[]]. reflexivity.
Qed.

(** X1 -- Runtime rule (E9001).  Whenever the rule returns, every function
    has a Properties object; a function whose Runtime is the string
    "python3.9" has no match, and a function with any other Runtime value, or
    with no Runtime key (read as None), has exactly one match, which cites
    the value found and the pinned runtime. *)
Theorem python39_rule_reports_other_runtimes
    (cfn : Template) (ms : list RuleMatch) (key : string) (resource : value) :
  dict_wf (Resources cfn) ->
  match_ cfn = Ok ms ->
  In (key, resource) (get_resources cfn ["AWS::Lambda::Function"]) ->
  exists d props,
    resource = VDict d /\
    dict_get "Properties" d = Some (VDict props) /\
    (runtime_of props = VStr "python3.9" -> violations_for key ms = 0%nat) /\
    (runtime_of props <> VStr "python3.9" ->
     violations_for key ms = 1%nat /\
     In (runtime_match key (runtime_of props)) ms).
Proof.
  intros Hwf Hms Hin. unfold match_ in Hms.
  apply for_each_Ok in Hms as [-> Hall].
  pose proof (Hall _ Hin) as Hk.
  pose proof (runtime_check_spec key resource) as Hspec.
  destruct resource as [| | | | |d]; try congruence.
  destruct (dict_get "Properties" d) as [[| | | | |props]|] eqn:Ep;
    try congruence.
  exists d, props. repeat split; auto.
  - intros Hr.
    rewrite (violations_for_keyed (appended check) _ key (VDict d));
      [| now apply get_resources_wf | exact Hin
       | intros kv m _; apply runtime_check_path].
    unfold appended. rewrite Hspec, Hr. reflexivity.
  - rewrite (violations_for_keyed (appended check) _ key (VDict d));
      [| now apply get_resources_wf | exact Hin
       | intros kv m _; apply runtime_check_path].
    unfold appended. rewrite Hspec.
    destruct (py_eq (runtime_of props) (VStr _runtime)) eqn:E; auto.
    apply py_eq_VStr_r in E. contradiction.
  - apply in_flat_map. exists (key, VDict d). split; auto.
    unfold appended. rewrite Hspec.
    destruct (py_eq (runtime_of props) (VStr _runtime)) eqn:E.
    + apply py_eq_VStr_r in E. contradiction.
    + now left.
Qed.

Lemma python39_rule_witness :
  exists d props,
    Examples.function [("Runtime", VStr "python3.8")] = VDict d /\
    dict_get "Properties" d = Some (VDict props) /\
    (runtime_of props = VStr "python3.9" ->
     violations_for "Old" (appended match_ MoreExamples.runtimes) = 0%nat) /\
    (runtime_of props <> VStr "python3.9" ->
     violations_for "Old" (appended match_ MoreExamples.runtimes) = 1%nat /\
     In (runtime_match "Old" (runtime_of props))
        (appended match_ MoreExamples.runtimes)).
Proof.
  refine (python39_rule_reports_other_runtimes MoreExamples.runtimes
            _ "Old" _ _ _ _).
  - apply nodup_keys_NoDup. reflexivity.
  - reflexivity.
  - simpl. tauto.
Defined.

(** X2 -- Runtime rule (E9001), errors.  The rule returns exactly when every
    function resource has a Properties key with an object under it; when it
    does not return, the error is AttributeError. *)
Theorem python39_rule_returns_iff (cfn : Template) :
  ((exists ms, match_ cfn = Ok ms) <->
   forallb has_properties_object
     (dict_values (get_resources cfn ["AWS::Lambda::Function"])) = true) /\
  (forall e, match_ cfn = Raise e -> e = AttributeError).
Proof.
  unfold match_. split; [split|].
  - intros [ms Hms]. apply for_each_Ok in Hms as [_ Hall].
    apply forallb_forall. intros resource Hin.
    apply in_map_iff in Hin as [[key r] [E Hin]]. simpl in E. subst r.
    specialize (Hall _ Hin).
    pose proof (runtime_check_spec key resource) as Hspec.
    unfold has_properties_object.
    destruct resource as [| | | | |d]; try congruence.
    destruct (dict_get "Properties" d) as [[| | | | |props]|]; congruence.
  - intros H. rewrite for_each_total; [eauto|].
    intros [key resource] Hin.
    pose proof (forallb_values _ _ _ _ H Hin) as Hs.
    pose proof (runtime_check_spec key resource) as Hspec.
    unfold has_properties_object in Hs.
    destruct resource as [| | | | |d]; try discriminate.
    destruct (dict_get "Properties" d) as [[| | | | |props]|];
      try discriminate.
    eauto.
  - intros e He. apply for_each_Raise in He as [[key resource] [_ Hc]].
    pose proof (runtime_check_spec key resource) as Hspec.
    destruct resource as [| | | | |d]; try congruence.
    destruct (dict_get "Properties" d) as [[| | | | |props]|]; congruence.
Qed.

End RuntimeRule.

Section DestinationRule.

Import LambdaESMDestinationConfig.

Lemma on_failure_spec (resource : value) :
  destination_config_shaped resource = true ->
  exists dest,
    on_failure resource = Ok dest /\
    is_None dest = negb (has_failure_destination resource).
Proof.
  unfold destination_config_shaped, properties_of, on_failure,
    has_failure_destination.
  destruct resource as [| | | | |d]; try discriminate. cbn [py_get bind].
  destruct (dict_get "Properties" d) as [[| | | | |props]|];
    try discriminate; cbn [py_get bind dict_get].
  - destruct (dict_get "DestinationConfig" props) as [[| | | | |dest]|];
      try discriminate; cbn [py_get bind dict_get]; intros _.
    + destruct (dict_get "OnFailure" dest) as [destination|].
      * exists destination. split; auto. now rewrite negb_involutive.
      * exists VNone. auto.
    + exists VNone. auto.
  - intros _. exists VNone. auto.
Qed.

Lemma on_failure_raises (resource : value) :
  destination_config_shaped resource = false ->
  on_failure resource = Raise AttributeError.
Proof.
  unfold destination_config_shaped, properties_of, on_failure.
  destruct resource as [| | | | |d]; try reflexivity. cbn [py_get bind].
  destruct (dict_get "Properties" d) as [[| | | | |props]|];
    try reflexivity; cbn [py_get bind dict_get]; try discriminate.
  destruct (dict_get "DestinationConfig" props) as [[| | | | |dest]|];
    try reflexivity; discriminate.
Qed.

Lemma esm_check_spec (key : string) (resource : value) :
  check (key, resource) =
  if destination_config_shaped resource
  then Ok (if negb (has_failure_destination resource)
           then [destination_match key] else [])
  else Raise AttributeError.
Proof.
  unfold check. destruct (destination_config_shaped resource) eqn:E.
  - destruct (on_failure_spec resource E) as [dest [-> Hn]]. cbn [bind].
    rewrite Hn. destruct (negb _); reflexivity.
  - now rewrite on_failure_raises.
Qed.

(** X3 -- Event-source-mapping rule (E9003).  Whenever the rule returns, its
    matches are exactly the event source mappings without a failure
    destination (no value other than None under Properties,
    DestinationConfig, OnFailure), one match each, in document order. *)
Theorem esm_rule_reports_missing_destinations
    (cfn : Template) (ms : list RuleMatch) :
  match_ cfn = Ok ms ->
  ms = map destination_match
         (dict_keys
            (filter (fun kv => negb (has_failure_destination (snd kv)))
                    (get_resources cfn ["AWS::Lambda::EventSourceMapping"]))).
Proof.
  unfold match_, dict_keys. intros Hms.
  apply for_each_Ok in Hms as [-> Hall]. rewrite map_map.
  apply (flat_map_select
           (fun kv => negb (has_failure_destination (snd kv)))
           (fun kv => destination_match (fst kv))).
  intros [key resource] Hin. specialize (Hall _ Hin).
  unfold appended. rewrite esm_check_spec in *. cbn [fst snd].
  destruct (destination_config_shaped resource); [|discriminate].
  destruct (negb _); reflexivity.
Qed.

Lemma esm_rule_witness :
  [destination_match "Stream"; destination_match "Bare"] =
  map destination_match
    (dict_keys
       (filter (fun kv => negb (has_failure_destination (snd kv)))
          (get_resources MoreExamples.mappings
             ["AWS::Lambda::EventSourceMapping"]))).
Proof.
  exact (esm_rule_reports_missing_destinations MoreExamples.mappings
           [destination_match "Stream"; destination_match "Bare"] eq_refl).
Defined.

(** X4 -- Event-source-mapping rule (E9003), errors.  The rule returns
    exactly when, in every event source mapping, Properties is absent or an
    object and DestinationConfig is absent or an object; when it does not
    return, the error is AttributeError. *)
Theorem esm_rule_returns_iff (cfn : Template) :
  ((exists ms, match_ cfn = Ok ms) <->
   forallb destination_config_shaped
     (dict_values (get_resources cfn ["AWS::Lambda::EventSourceMapping"])) =
   true) /\
  (forall e, match_ cfn = Raise e -> e = AttributeError).
Proof.
  unfold match_. split; [split|].
  - intros [ms Hms]. apply for_each_Ok in Hms as [_ Hall].
    apply forallb_forall. intros resource Hin.
    apply in_map_iff in Hin as [[key r] [E Hin]]. simpl in E. subst r.
    specialize (Hall _ Hin). rewrite esm_check_spec in Hall.
    destruct (destination_config_shaped resource); [auto | discriminate].
  - intros H. rewrite for_each_total; [eauto|].
    intros [key resource] Hin. rewrite esm_check_spec.
    rewrite (forallb_values _ _ _ _ H Hin). eauto.
  - intros e He. apply for_each_Raise in He as [[key resource] [_ Hc]].
    rewrite esm_check_spec in Hc.
    destruct (destination_config_shaped resource); congruence.
Qed.

End DestinationRule.

(* ================================================================== *)
(** * Further properties: E9005 and E9002 *)
(* ================================================================== *)

Section LayerRule.

Import LambdaInsightsLayer.

(** A value equals the layer pattern exactly when it is the object with the
    one key Fn::Sub and the pattern's string under it. *)
Lemma py_eq_layer_pattern (v : value) :
  py_eq _layer_pattern v = true <-> v = _layer_pattern.
Proof.
  unfold _layer_pattern. split.
  - destruct v as [| | | | |d]; try discriminate.
    destruct d as [|[k x] [|kv d]]; try discriminate.
    cbn [py_eq List.length Nat.eqb andb dict_get].
    destruct (String.eqb "Fn::Sub" k) eqn:Ek; [|discriminate].
    apply String.eqb_eq in Ek. subst k. rewrite andb_true_r.
    intros H. apply py_eq_VStr in H. now subst.
  - intros ->. reflexivity.
Qed.

Lemma layer_pattern_in (l : list value) :
  existsb (py_eq _layer_pattern) l = true <-> In _layer_pattern l.
Proof.
  rewrite existsb_exists. split.
  - intros [v [Hin E]]. apply py_eq_layer_pattern in E. now subst.
  - intros H. exists _layer_pattern. split; [exact H|].
    now apply py_eq_layer_pattern.
Qed.

(** X5 -- Insights-layer rule (E9005), exact match.  Whenever the rule
    returns, a function whose Layers list has an element that is exactly the
    layer pattern (the object with the single key Fn::Sub and the pattern's
    string) has no match, and a function whose Layers list has no such
    element has exactly one: another version of the layer, or the same ARN
    written as a plain string, does not count. *)
Theorem insights_layer_exact_match
    (cfn : Template) (ms : list RuleMatch) (key : string)
    (d props : dict) (l : list value) :
  dict_wf (Resources cfn) ->
  match_ cfn = Ok ms ->
  In (key, VDict d) (get_resources cfn ["AWS::Lambda::Function"]) ->
  dict_get "Properties" d = Some (VDict props) ->
  dict_get "Layers" props = Some (VList l) ->
  (In _layer_pattern l -> violations_for key ms = 0%nat) /\
  (~ In _layer_pattern l -> violations_for key ms = 1%nat).
Proof.
  intros Hwf Hms Hin Hp Hl. unfold match_ in Hms.
  apply for_each_Ok in Hms as [-> _].
  rewrite (violations_for_keyed (appended check) _ key (VDict d));
    [| now apply get_resources_wf | exact Hin
     | intros kv m _; apply layer_check_path].
  unfold appended, check, layers_of. cbn [py_get bind].
  rewrite Hp. cbn [py_get bind]. rewrite Hl. cbn [py_contains bind].
  split; intros H.
  - apply layer_pattern_in in H. now rewrite H.
  - destruct (existsb (py_eq _layer_pattern) l) eqn:E; auto.
    apply layer_pattern_in in E. contradiction.
Qed.

Lemma insights_layer_exact_witness :
  violations_for "Version" (appended match_ MoreExamples.layers) = 1%nat.
Proof.
  assert (Hwf : dict_wf (Resources MoreExamples.layers)).
  { apply nodup_keys_NoDup. reflexivity. }
  assert (Hin : In ("Version",
                    Examples.function
                      [("Layers",
                        VList [VDict [("Fn::Sub",
                          VStr "arn:aws:lambda:${AWS::Region}:580247275435:layer:LambdaInsightsExtension:14")]])])
                   (get_resources MoreExamples.layers ["AWS::Lambda::Function"])).
  { simpl. tauto. }
  apply (proj2 (insights_layer_exact_match MoreExamples.layers _ "Version"
                  _ _ _ Hwf eq_refl Hin eq_refl eq_refl)).
  simpl. intros [H|[]]. discriminate.
Defined.

(** X6 -- Insights-layer rule (E9005), errors.  When the Layers of some
    function is there and is not a list (an object such as a condition
    function, a string, a number, null), the check of that function raises
    TypeError and the rule does not return. *)
Theorem insights_layer_raises_on_non_list
    (cfn : Template) (key : string) (d props : dict) (layers : value) :
  In (key, VDict d) (get_resources cfn ["AWS::Lambda::Function"]) ->
  dict_get "Properties" d = Some (VDict props) ->
  dict_get "Layers" props = Some layers ->
  (forall l, layers <> VList l) ->
  check (key, VDict d) = Raise TypeError /\
  exists e, match_ cfn = Raise e.
Proof.
  intros Hin Hp Hl Hnl.
  assert (Hc : check (key, VDict d) = Raise TypeError).
  { unfold check, layers_of. cbn [py_get bind]. rewrite Hp.
    cbn [py_get bind]. rewrite Hl. cbn [bind].
    destruct layers as [| | | |l|]; try reflexivity.
    exfalso. now apply (Hnl l). }
  split; auto.
  apply (for_each_raises check _ (key, VDict d) TypeError Hin Hc).
Qed.

Lemma insights_layer_raises_witness :
  exists e, match_ MoreExamples.conditional_layers = Raise e.
Proof.
  refine (proj2 (insights_layer_raises_on_non_list
                   MoreExamples.conditional_layers "Fn"
                   [("Type", VStr "AWS::Lambda::Function");
                    ("Properties",
                     VDict [("Layers", MoreExamples.condition_layers)])]
                   [("Layers", MoreExamples.condition_layers)]
                   MoreExamples.condition_layers _ eq_refl eq_refl _)).
  - simpl. left. reflexivity.
  - intros l. discriminate.
Defined.

End LayerRule.

Section LogGroupMore.

Import LambdaLogGroupRule.

Local Notation "a +++ b" := (String.append a b)
  (at level 60, right associativity).

Lemma match_here_other (c : ascii) (s : string) :
  c <> "$"%char -> Re.match_here (String c s) = None.
Proof.
  intros Hne. destruct s as [|c2 s];
    destruct c as [[] [] [] [] [] [] [] []]; try reflexivity;
    contradiction.
Qed.

(** A prefix without a dollar sign does not change what is found. *)
Lemma search_skip_prefix (pre s : string) :
  str_contains "$" pre = false -> Re.search (pre +++ s) = Re.search s.
Proof.
  induction pre as [|c pre IH]; intros H; auto.
  cbn [str_contains prefix_of] in H.
  apply orb_false_iff in H as [Hc Hpre]. rewrite andb_true_r in Hc.
  cbn [String.append].
  change (Re.search (String c (pre +++ s))) with
    (match Re.match_here (String c (pre +++ s)) with
     | Some g => Some g
     | None => Re.search (pre +++ s)
     end).
  rewrite match_here_other.
  - now apply IH.
  - intros ->. discriminate.
Qed.

Lemma search_here (s f : string) :
  Re.match_here s = Some f -> Re.search s = Some f.
Proof.
  intros H. destruct s as [|c s]; [discriminate|].
  change (Re.search (String c s)) with
    (match Re.match_here (String c s) with
     | Some g => Some g
     | None => Re.search s
     end).
  now rewrite H.
Qed.

(** Whenever the rule returns, the count for a function says whether its
    name is among the known names. *)
Lemma log_group_counts (cfn : Template) (ms : list RuleMatch) :
  dict_wf (Resources cfn) ->
  match_ cfn = Ok ms ->
  exists known,
    for_each scan_log_group
      (dict_values (get_resources cfn ["AWS::Logs::LogGroup"])) = Ok known /\
    forall f, In f (dict_keys (get_resources cfn ["AWS::Lambda::Function"])) ->
      violations_for f ms = if mem_string f known then 0%nat else 1%nat.
Proof.
  intros Hwf Hms. unfold match_ in Hms.
  apply bind_Ok in Hms as [known [Hk Hms]]. injection Hms as <-.
  exists known. split; auto. intros f Hin.
  rewrite violations_for_keys; auto.
  - unfold check_function. destruct (mem_string f known); reflexivity.
  - apply (get_resources_wf cfn ["AWS::Lambda::Function"] Hwf).
  - intros k m _. unfold check_function.
    destruct (mem_string k known); simpl; [contradiction|].
    intros [<-|[]]. reflexivity.
Qed.

(** X7 -- Log-group rule (E9002), naming convention.  Whenever the rule
    returns, a function has no match if some log group is named by an
    interpolation in which the function's name is the first placeholder and
    no dollar sign precedes it -- such as "/aws/lambda/${Name}" for a function
    Name; the name must not be empty or contain a closing brace. *)
Theorem log_group_convention_covers
    (cfn : Template) (ms : list RuleMatch) (f key : string)
    (resource : value) (pre post : string) :
  dict_wf (Resources cfn) ->
  match_ cfn = Ok ms ->
  In f (dict_keys (get_resources cfn ["AWS::Lambda::Function"])) ->
  In (key, resource) (get_resources cfn ["AWS::Logs::LogGroup"]) ->
  interpolation_string resource = Some (pre +++ "${" +++ f +++ "}" +++ post) ->
  str_contains "$" pre = false ->
  f <> "" ->
  str_contains "}" f = false ->
  violations_for f ms = 0%nat.
Proof.
  intros Hwf Hms Hf Hlg Hs Hpre Hne Hfree.
  destruct (log_group_counts cfn ms Hwf Hms) as [known [Hk Hcount]].
  rewrite (Hcount f Hf).
  assert (Hin : In f known).
  { apply (known_spec _ _ Hk). exists resource, (pre +++ "${" +++ f +++ "}" +++ post).
    repeat split; auto.
    - change resource with (snd (key, resource)). now apply in_map.
    - rewrite search_skip_prefix by auto. apply search_here.
      now apply match_here_complete. }
  apply mem_string_In in Hin. now rewrite Hin.
Qed.

Lemma log_group_convention_witness :
  violations_for "Foo" (appended match_ Examples.foo_bar) = 0%nat.
Proof.
  refine (log_group_convention_covers Examples.foo_bar _ "Foo" "FooLogGroup"
            (Examples.log_group "/aws/lambda/${Foo}") "/aws/lambda/" ""
            _ eq_refl _ _ eq_refl eq_refl _ eq_refl).
  - apply nodup_keys_NoDup. reflexivity.
  - simpl. tauto.
  - simpl. tauto.
  - discriminate.
Defined.

(** X8 -- Log-group rule (E9002), errors.  The scan of a log group raises
    TypeError when the log group has no Properties key, and when its
    LogGroupName is an object whose Fn::Sub is not a string (the form of
    Fn::Sub with a list of the string and its variables); the rule then does
    not return. *)
Theorem log_group_rule_raises
    (cfn : Template) (key : string) (d : dict) :
  In (key, VDict d) (get_resources cfn ["AWS::Logs::LogGroup"]) ->
  (dict_get "Properties" d = None \/
   exists props name sub,
     dict_get "Properties" d = Some (VDict props) /\
     dict_get "LogGroupName" props = Some (VDict name) /\
     dict_get "Fn::Sub" name = Some sub /\
     forall s, sub <> VStr s) ->
  scan_log_group (VDict d) = Raise TypeError /\
  exists e, match_ cfn = Raise e.
Proof.
  intros Hin Hshape.
  assert (Hs : scan_log_group (VDict d) = Raise TypeError).
  { unfold scan_log_group. cbn [py_get bind].
    destruct Hshape as [->|[props [name [sub [-> [Hn [Hsub Hns]]]]]]].
    - reflexivity.
    - cbn [py_contains py_get bind]. unfold dict_mem. rewrite Hn.
      cbn [negb isinstance_dict py_contains py_getitem bind].
      unfold dict_mem. rewrite Hsub. cbn [negb bind].
      destruct sub; try reflexivity. exfalso. now apply (Hns s). }
  split; auto. unfold match_.
  destruct (for_each_raises scan_log_group
              (dict_values (get_resources cfn ["AWS::Logs::LogGroup"]))
              (VDict d) TypeError) as [e He]; auto.
  - change (VDict d) with (snd (key, VDict d)). now apply in_map.
  - exists e. now rewrite He.
Qed.

Lemma log_group_rule_raises_witness :
  exists e, match_ MoreExamples.sub_with_variables = Raise e.
Proof.
  refine (proj2 (log_group_rule_raises MoreExamples.sub_with_variables
                   "FnLogs"
                   [("Type", VStr "AWS::Logs::LogGroup");
                    ("Properties",
                     VDict [("LogGroupName",
                             VDict [("Fn::Sub", MoreExamples.sub_variables)])])]
                   _ _)).
  - simpl. left. reflexivity.
  - right.
    exists [("LogGroupName", VDict [("Fn::Sub", MoreExamples.sub_variables)])],
           [("Fn::Sub", MoreExamples.sub_variables)],
           MoreExamples.sub_variables.
    repeat split. intros s. discriminate.
Defined.

End LogGroupMore.

(* ================================================================== *)
(** * Further properties: E9004 and E9007 *)
(* ================================================================== *)

Section InvokeConfigMore.

Import LambdaRuleInvokeConfig.

(** When the first phase returns, the rule is the loop over the events
    rules. *)
Lemma match_raises_in_rules (cfn : Template) (kv : string * value) :
  In kv (get_resources cfn ["AWS::Events::Rule"]) ->
  (forall covered, exists e,
     check_rule (get_resources cfn ["AWS::Lambda::Function"]) covered kv =
     Raise e) ->
  exists e, match_ cfn = Raise e.
Proof.
  intros Hin Hraise. unfold match_.
  destruct (for_each scan_invoke_config _) as [covered|e]; cbn [bind]; eauto.
  destruct (Hraise covered) as [e He].
  apply (for_each_raises _ _ kv e Hin He).
Qed.

(** X9 -- Event-invoke-config rule (E9004), errors of the first phase.  For
    an EventInvokeConfig with a failure destination, the rule reads
    Properties, FunctionName, Ref: a missing FunctionName raises KeyError, a
    FunctionName that is not an object (a plain function name) raises
    TypeError, an object without the key Ref (an attribute reference) raises
    KeyError; in each of these cases the rule does not return. *)
Theorem invoke_config_function_name_errors
    (cfn : Template) (key : string) (d props dest : dict)
    (destination : value) :
  In (key, VDict d) (get_resources cfn ["AWS::Lambda::EventInvokeConfig"]) ->
  dict_get "Properties" d = Some (VDict props) ->
  dict_get "DestinationConfig" props = Some (VDict dest) ->
  dict_get "OnFailure" dest = Some destination ->
  is_None destination = false ->
  (dict_get "FunctionName" props = None ->
   scan_invoke_config (VDict d) = Raise KeyError) /\
  (forall v, dict_get "FunctionName" props = Some v ->
     (forall function_name, v <> VDict function_name) ->
     scan_invoke_config (VDict d) = Raise TypeError) /\
  (forall function_name,
     dict_get "FunctionName" props = Some (VDict function_name) ->
     dict_get "Ref" function_name = None ->
     scan_invoke_config (VDict d) = Raise KeyError) /\
  (configured_function (VDict d) = None -> exists e, match_ cfn = Raise e).
Proof.
  intros Hin Hp Hd Ho Hn.
  assert (Hscan : scan_invoke_config (VDict d) =
                  (function_name <- py_getitem (VDict props) "FunctionName" ;;
                   ref <- py_getitem function_name "Ref" ;; Ok [ref])).
  { unfold scan_invoke_config, on_failure. cbn [py_get bind py_getitem].
    rewrite Hp. cbn [py_get bind]. rewrite Hd. cbn [py_get bind].
    rewrite Ho, Hn. reflexivity. }
  rewrite Hscan. cbn [py_getitem bind].
  split; [|split; [|split]].
  - intros ->. reflexivity.
  - intros v -> Hv. cbn [bind].
    destruct v; try reflexivity. exfalso. now apply (Hv d0).
  - intros fn -> Hr. cbn [bind py_getitem]. now rewrite Hr.
  - intros Hc. unfold match_.
    assert (Hr : exists e, scan_invoke_config (VDict d) = Raise e).
    { rewrite Hscan. cbn [py_getitem bind].
      unfold configured_function in Hc. rewrite Hp, Hd, Ho, Hn in Hc.
      destruct (dict_get "FunctionName" props) as [[| | | | |fn]|];
        cbn [bind py_getitem]; eauto.
      rewrite Hc. cbn [bind]. eauto. }
    destruct Hr as [e He].
    destruct (for_each_raises scan_invoke_config
                (dict_values
                   (get_resources cfn ["AWS::Lambda::EventInvokeConfig"]))
                (VDict d) e) as [e' He']; auto.
    + change (VDict d) with (snd (key, VDict d)). now apply in_map.
    + exists e'. now rewrite He'.
Qed.

Lemma invoke_config_function_name_witness :
  scan_invoke_config
    (MoreExamples.invoke_config_named (VStr "my-function")) = Raise TypeError.
Proof.
  refine (proj1 (proj2 (invoke_config_function_name_errors
            MoreExamples.config_by_name "FnConfig"
            [("Type", VStr "AWS::Lambda::EventInvokeConfig");
             ("Properties",
              VDict [("FunctionName", VStr "my-function");
                     ("DestinationConfig",
                      VDict [("OnFailure",
                              VDict [("Destination", VStr "arn:aws:sqs:dlq")])])])]
            _ _ _ _ eq_refl eq_refl eq_refl eq_refl))
            (VStr "my-function") eq_refl _).
  - simpl. left. reflexivity.
  - intros fn. discriminate.
Defined.

(** X10 -- Event-invoke-config rule (E9004), literal ARN.  A target of an
    events rule whose Arn is a string (a literal ARN, not a function call
    object) makes the target test raise AttributeError, and the rule does
    not return. *)
Theorem events_rule_literal_arn_raises
    (cfn : Template) (key : string) (d props t : dict)
    (targets : list value) (arn : string) :
  In (key, VDict d) (get_resources cfn ["AWS::Events::Rule"]) ->
  dict_get "Properties" d = Some (VDict props) ->
  dict_get "Targets" props = Some (VList targets) ->
  In (VDict t) targets ->
  dict_get "Arn" t = Some (VStr arn) ->
  (forall function_names covered,
     target_unconfigured function_names covered (VDict t) =
     Raise AttributeError) /\
  exists e, match_ cfn = Raise e.
Proof.
  intros Hin Hp Ht Htin Ha.
  assert (Htarget : forall function_names covered,
            target_unconfigured function_names covered (VDict t) =
            Raise AttributeError).
  { intros fn covered. unfold target_unconfigured. cbn [py_get bind].
    rewrite Ha. reflexivity. }
  split; auto.
  apply (match_raises_in_rules cfn (key, VDict d) Hin).
  intros covered. unfold check_rule, targets_of. cbn [py_get bind].
  rewrite Hp. cbn [py_get bind]. rewrite Ht. cbn [py_iter bind].
  apply (for_each_raises _ _ (VDict t) AttributeError Htin).
  unfold check_target. now rewrite Htarget.
Qed.

Lemma events_rule_literal_arn_witness :
  exists e, match_ MoreExamples.literal_arn = Raise e.
Proof.
  refine (proj2 (events_rule_literal_arn_raises MoreExamples.literal_arn
            "Rule"
            [("Type", VStr "AWS::Events::Rule");
             ("Properties",
              VDict [("Targets",
                      VList [Examples.getatt_target "Fn";
                             MoreExamples.literal_arn_target])])]
            [("Targets",
              VList [Examples.getatt_target "Fn";
                     MoreExamples.literal_arn_target])]
            [("Id", VStr "queue"); ("Arn", VStr "arn:aws:sqs:eu-west-1:1:queue")]
            [Examples.getatt_target "Fn"; MoreExamples.literal_arn_target]
            "arn:aws:sqs:eu-west-1:1:queue" _ eq_refl eq_refl _ eq_refl)).
  - simpl. left. reflexivity.
  - simpl. right. left. reflexivity.
Defined.

(** X11 -- Event-invoke-config rule (E9004), configured functions.
    Whenever the rule returns, an events rule has no match if every declared
    function that one of its targets names by an attribute reference is the
    function some EventInvokeConfig with a failure destination refers to. *)
Theorem invoke_config_covered_rule_clean
    (cfn : Template) (ms : list RuleMatch) (key : string) (resource : value)
    (targets : list value) :
  dict_wf (Resources cfn) ->
  match_ cfn = Ok ms ->
  In (key, resource) (get_resources cfn ["AWS::Events::Rule"]) ->
  targets_of resource = Ok targets ->
  (forall d arn getatt f,
     In (VDict d) targets ->
     dict_get "Arn" d = Some (VDict arn) ->
     dict_get "Fn::GetAtt" arn = Some getatt ->
     py_getitem0 getatt = Ok (VStr f) ->
     dict_mem f (get_resources cfn ["AWS::Lambda::Function"]) = true ->
     exists config,
       In config
          (dict_values
             (get_resources cfn ["AWS::Lambda::EventInvokeConfig"])) /\
       configured_function config = Some (VStr f)) ->
  violations_for key ms = 0%nat.
Proof.
  intros Hwf Hms Hin Ht Hcov. unfold match_ in Hms.
  apply bind_Ok in Hms as [covered [Hc Hms]].
  apply for_each_Ok in Hms as [-> Hall]. specialize (Hall _ Hin).
  destruct (check_rule_out _ _ _ _ _ Hall) as [targets' [Ht' Hout]].
  rewrite Ht in Ht'. injection Ht' as <-.
  rewrite (violations_for_keyed _ _ key resource);
    [| now apply get_resources_wf | exact Hin
     | intros kv m _; apply check_rule_path].
  rewrite Hout, length_map. unfold unconfigured_targets.
  destruct (filter _ targets) as [|target rest] eqn:Ef; [reflexivity|].
  exfalso.
  assert (Hf : In target (filter
             (fun t => is_Ok_true
                (target_unconfigured
                   (get_resources cfn ["AWS::Lambda::Function"]) covered t))
             targets)) by (rewrite Ef; now left).
  apply filter_In in Hf as [Hint Htrue].
  assert (Hu : target_unconfigured
                 (get_resources cfn ["AWS::Lambda::Function"]) covered target =
               Ok true).
  { destruct (target_unconfigured _ _ target) as [[|]|]; auto; discriminate. }
  apply target_unconfigured_true in Hu
    as [d [arn [getatt [f [-> [H2 [H3 [H4 [H5 H6]]]]]]]]].
  destruct (Hcov d arn getatt f Hint H2 H3 H4 H5) as [config [Hcin Hcf]].
  apply H6. apply (covered_spec _ _ Hc). eauto.
Qed.

Lemma invoke_config_covered_witness :
  violations_for "RuleG" (appended match_ Examples.rules_and_configs) = 0%nat.
Proof.
  refine (invoke_config_covered_rule_clean Examples.rules_and_configs _
            "RuleG" (Examples.events_rule [Examples.getatt_target "Gn"])
            [Examples.getatt_target "Gn"] _ eq_refl _ eq_refl _).
  - apply nodup_keys_NoDup. reflexivity.
  - simpl. tauto.
  - intros d arn getatt f [Hd|[]] Ha Hg Hh _.
    injection Hd as <-. simpl in Ha. injection Ha as <-.
    simpl in Hg. injection Hg as <-. simpl in Hh. injection Hh as <-.
    exists (Examples.invoke_config "Gn"). split; [|reflexivity].
    simpl. left. reflexivity.
Defined.

End InvokeConfigMore.

Section PutEventsMore.

Import IAMPutEventsConditions.

Lemma first_unrestricted_stops (pre post : list value) (s : value) :
  (forall x, In x pre -> statement_unrestricted x = Ok false) ->
  statement_unrestricted s = Ok true ->
  first_unrestricted (pre ++ s :: post) = Ok true.
Proof.
  induction pre as [|x pre IH]; simpl; intros Hpre Hs.
  - now rewrite Hs.
  - rewrite (Hpre x) by now left. cbn [bind]. apply IH; auto.
Qed.

Lemma any_policy_raises (policies : list value) (found : bool)
    (p : value) (e : exn) :
  In p policies -> _match_policy p = Raise e ->
  exists e', any_policy found policies = Raise e'.
Proof.
  revert found. induction policies as [|q rest IH]; simpl; intros found Hin Hp;
    [contradiction|].
  destruct (_match_policy q) as [hit|e'] eqn:Eq; cbn [bind]; eauto.
  destruct Hin as [->|Hin]; [congruence|]. now apply IH.
Qed.

(** X12 -- IAM PutEvents rule (E9007), order of evaluation.  Within a
    policy the scan stops at the first statement that qualifies, so a policy
    matches whatever follows that statement, also something that is no
    statement at all; across the policies of a role there is no such stop:
    a policy on which [_match_policy] raises makes the check of the role
    raise even when another policy of the role has matched. *)
Theorem put_events_order_of_evaluation
    (key : string) (role policy : value) (policies pre post : list value)
    (s : value) :
  policies_of role = Ok policies ->
  In policy policies ->
  statements_of policy = Ok (pre ++ s :: post) ->
  (forall x, In x pre -> statement_unrestricted x = Ok false) ->
  statement_unrestricted s = Ok true ->
  _match_policy policy = Ok true /\
  ((forall p, In p policies -> exists hit, _match_policy p = Ok hit) ->
   check (key, role) = Ok [put_events_match key]) /\
  ((exists p e, In p policies /\ _match_policy p = Raise e) ->
   exists e, check (key, role) = Raise e).
Proof.
  intros Hp Hin Hs Hpre Hq.
  assert (Hm : _match_policy policy = Ok true).
  { unfold _match_policy. rewrite Hs. cbn [bind].
    now apply first_unrestricted_stops. }
  split; auto. unfold check. rewrite Hp. cbn [bind]. split.
  - intros Hall.
    assert (Hany : forall l found,
              (forall p, In p l -> exists hit, _match_policy p = Ok hit) ->
              any_policy found l =
              Ok (found || existsb (fun p => is_Ok_true (_match_policy p)) l)).
    { induction l as [|q l IH]; simpl; intros found Hl.
      - now rewrite orb_false_r.
      - destruct (Hl q (or_introl eq_refl)) as [hit Hq'].
        rewrite Hq'. cbn [bind]. rewrite IH by (intros; apply Hl; now right).
        f_equal. destruct hit, found; simpl; auto. }
    rewrite (Hany policies false Hall). cbn [bind orb].
    assert (He : existsb (fun p => is_Ok_true (_match_policy p)) policies = true).
    { apply existsb_exists. exists policy. split; auto. now rewrite Hm. }
    now rewrite He.
  - intros [p [e [Hpin He]]].
    destruct (any_policy_raises policies false p e Hpin He) as [e' ->].
    cbn [bind]. eauto.
Qed.

Lemma put_events_order_witness :
  _match_policy MoreExamples.statement_then_text = Ok true /\
  exists e, IAMPutEventsConditions.match_ MoreExamples.policy_then_text = Raise e.
Proof.
  split.
  - refine (proj1 (put_events_order_of_evaluation "Role"
              (Examples.role
                 [("Policies", VList [MoreExamples.statement_then_text])])
              MoreExamples.statement_then_text
              [MoreExamples.statement_then_text]
              [] [VStr "not a statement"] (Examples.put_events_statement [])
              eq_refl _ eq_refl _ eq_refl)).
    + now left.
    + intros x [].
  - destruct (proj2 (proj2 (put_events_order_of_evaluation "Role"
              (Examples.role
                 [("Policies",
                   VList [Examples.inline_policy [Examples.put_events_statement []];
                          VStr "not a policy"])])
              (Examples.inline_policy [Examples.put_events_statement []])
              [Examples.inline_policy [Examples.put_events_statement []];
               VStr "not a policy"]
              [] [] (Examples.put_events_statement [])
              eq_refl (or_introl eq_refl) eq_refl
              (fun x (H : In x []) => match H with end) eq_refl)))
      as [e He].
    + exists (VStr "not a policy"), AttributeError. split; [|reflexivity].
      simpl. tauto.
    + exists e. rewrite <- He. reflexivity.
Defined.

End PutEventsMore.

(* ================================================================== *)
(** * Further properties: all rules *)
(* ================================================================== *)

Section Locations.

Lemma for_each_located {A} (body : A -> result (list RuleMatch))
    (name : A -> string) (l : list A) (ms : list RuleMatch) (m : RuleMatch) :
  for_each body l = Ok ms ->
  (forall x m', In m' (appended body x) -> path m' = ["Resources"; name x]) ->
  In m ms ->
  exists x, In x l /\ path m = ["Resources"; name x].
Proof.
  intros Hms Hpath Hin. apply for_each_Ok in Hms as [-> _].
  apply in_flat_map in Hin as [x [Hx Hm]]. exists x. split; auto.
Qed.

Lemma get_resources_located (cfn : Template) (type key : string) (m : RuleMatch) :
  In key (dict_keys (get_resources cfn [type])) ->
  path m = ["Resources"; key] ->
  located_at cfn type m.
Proof.
  intros Hin Hp. apply In_keys_value in Hin as [resource Hin].
  apply get_resources_In in Hin as [Hin Ht].
  exists key, resource. repeat split; auto.
  unfold has_type in Ht. cbn [snd] in Ht.
  destruct (type_tag resource) as [t|]; [|discriminate].
  cbn [mem_string] in Ht. rewrite orb_false_r in Ht.
  apply String.eqb_eq in Ht. now subst.
Qed.

Lemma entry_key_in (d : dict) (kv : string * value) :
  In kv d -> In (fst kv) (dict_keys d).
Proof. intros H. now apply in_map. Qed.

Lemma esm_check_path (kv : string * value) (m : RuleMatch) :
  In m (appended LambdaESMDestinationConfig.check kv) ->
  path m = ["Resources"; fst kv].
Proof.
  unfold appended. destruct kv as [key resource]. rewrite esm_check_spec.
  destruct (destination_config_shaped resource); [|contradiction].
  destruct (negb _); simpl; [|contradiction].
  intros [<-|[]]. reflexivity.
Qed.

(** X13 -- Locations.  Every match that a rule returns points at a resource
    that exists in the template and has the type the rule inspects: a Lambda
    function for E9001, E9002, E9005 and E9006, an event source mapping for
    E9003, an events rule for E9004, an IAM role for E9007. *)
Theorem matches_point_at_resources
    (cfn : Template) (ms : list RuleMatch) (m : RuleMatch) :
  In m ms ->
  (Python39Rule.match_ cfn = Ok ms ->
   located_at cfn "AWS::Lambda::Function" m) /\
  (LambdaLogGroupRule.match_ cfn = Ok ms ->
   located_at cfn "AWS::Lambda::Function" m) /\
  (LambdaESMDestinationConfig.match_ cfn = Ok ms ->
   located_at cfn "AWS::Lambda::EventSourceMapping" m) /\
  (LambdaRuleInvokeConfig.match_ cfn = Ok ms ->
   located_at cfn "AWS::Events::Rule" m) /\
  (LambdaInsightsLayer.match_ cfn = Ok ms ->
   located_at cfn "AWS::Lambda::Function" m) /\
  (LambdaInsightsPermission.match_ cfn = Ok ms ->
   located_at cfn "AWS::Lambda::Function" m) /\
  (IAMPutEventsConditions.match_ cfn = Ok ms ->
   located_at cfn "AWS::IAM::Role" m).
Proof.
  intros Hin.
  assert (Hentries : forall type (body : string * value -> result (list RuleMatch)),
            (forall kv m', In m' (appended body kv) ->
                           path m' = ["Resources"; fst kv]) ->
            for_each body (get_resources cfn [type]) = Ok ms ->
            located_at cfn type m).
  { intros type body Hpath Hms.
    destruct (for_each_located body fst _ ms m Hms Hpath Hin) as [kv [Hkv Hp]].
    apply (get_resources_located cfn type (fst kv)); auto.
    now apply entry_key_in. }
  split; [|split; [|split; [|split; [|split; [|split]]]]].
  - apply Hentries. apply runtime_check_path.
  - unfold LambdaLogGroupRule.match_. intros Hms.
    apply bind_Ok in Hms as [known [_ Hms]]. injection Hms as <-.
    apply in_flat_map in Hin as [f [Hf Hm]].
    apply (get_resources_located cfn _ f); auto.
    unfold LambdaLogGroupRule.check_function in Hm.
    destruct (mem_string f known); simpl in Hm; [contradiction|].
    destruct Hm as [<-|[]]. reflexivity.
  - apply Hentries. apply esm_check_path.
  - unfold LambdaRuleInvokeConfig.match_. intros Hms.
    apply bind_Ok in Hms as [covered [_ Hms]].
    apply (Hentries _ _ (check_rule_path _ covered) Hms).
  - apply Hentries. apply layer_check_path.
  - unfold LambdaInsightsPermission.match_. intros Hms.
    destruct (for_each_located _ (fun f => f) _ ms m Hms
                (permission_check_path _) Hin) as [f [Hf Hp]].
    now apply (get_resources_located cfn _ f).
  - apply Hentries. apply put_events_check_path.
Qed.

Lemma matches_point_at_resources_witness :
  located_at Examples.foo_bar "AWS::Lambda::Function" (log_group_match "Bar").
Proof.
  refine (proj1 (proj2 (matches_point_at_resources Examples.foo_bar
                          [log_group_match "Bar"] (log_group_match "Bar") _))
            eq_refl).
  now left.
Defined.

End Locations.

Section DocumentOrder.

Lemma filter_Permutation {A} (f : A -> bool) (l l' : list A) :
  Permutation l l' -> Permutation (filter f l) (filter f l').
Proof.
  induction 1 as [|x l l' _ IH|x y l|l l' l'' _ IH1 _ IH2]; simpl.
  - constructor.
  - destruct (f x); auto.
  - destruct (f x), (f y); auto. constructor.
  - now transitivity (filter f l').
Qed.

Lemma for_each_Permutation {A B} (body : A -> result (list B))
    (l l' : list A) (ys : list B) :
  Permutation l l' ->
  for_each body l = Ok ys ->
  exists ys', for_each body l' = Ok ys' /\ Permutation ys ys'.
Proof.
  intros Hperm Hys. apply for_each_Ok in Hys as [-> Hall].
  exists (flat_map (appended body) l'). split.
  - apply for_each_total. intros x Hx. eexists. apply Hall.
    apply Permutation_sym in Hperm. now apply (Permutation_in x Hperm).
  - now apply Permutation_flat_map.
Qed.

(** X14 -- Document order.  For the rules that inspect each resource on its
    own (E9001, E9003, E9005, E9007), reordering the resources of the
    template does not change whether the rule returns, and the matches it
    returns are the same up to their order. *)
Theorem per_resource_rules_order_independent
    (cfn cfn' : Template) (ms : list RuleMatch) :
  Permutation (Resources cfn) (Resources cfn') ->
  (Python39Rule.match_ cfn = Ok ms ->
   exists ms', Python39Rule.match_ cfn' = Ok ms' /\ Permutation ms ms') /\
  (LambdaESMDestinationConfig.match_ cfn = Ok ms ->
   exists ms', LambdaESMDestinationConfig.match_ cfn' = Ok ms' /\
               Permutation ms ms') /\
  (LambdaInsightsLayer.match_ cfn = Ok ms ->
   exists ms', LambdaInsightsLayer.match_ cfn' = Ok ms' /\
               Permutation ms ms') /\
  (IAMPutEventsConditions.match_ cfn = Ok ms ->
   exists ms', IAMPutEventsConditions.match_ cfn' = Ok ms' /\
               Permutation ms ms').
Proof.
  intros Hperm.
  assert (Hres : forall types,
            Permutation (get_resources cfn types) (get_resources cfn' types)).
  { intros types. now apply filter_Permutation. }
  repeat split; intros Hms;
    eapply for_each_Permutation; try exact Hms; apply Hres.
Qed.

Lemma per_resource_rules_order_witness :
  exists ms',
    LambdaESMDestinationConfig.match_
      (mkTemplate [] (rev (Resources MoreExamples.mappings))) = Ok ms' /\
    Permutation [destination_match "Stream"; destination_match "Bare"] ms'.
Proof.
  refine (proj1 (proj2 (per_resource_rules_order_independent
            MoreExamples.mappings
            (mkTemplate [] (rev (Resources MoreExamples.mappings)))
            [destination_match "Stream"; destination_match "Bare"] _))
            eq_refl).
  apply Permutation_rev.
Defined.

End DocumentOrder.

Section RepeatedNames.

Import Store MandatoryParametersRule.

Lemma list_remove_absent (x : string) (l : list string) :
  mem_string x l = false -> list_remove x l = l.
Proof.
  induction l as [|y l IH]; simpl; auto.
  destruct (String.eqb x y); simpl; [discriminate|].
  intros H. now rewrite IH.
Qed.

Lemma count_occ_list_remove (x name : string) (l : list string) :
  count_occ string_dec (list_remove x l) name =
  (count_occ string_dec l name - if String.eqb name x then 1 else 0)%nat.
Proof.
  induction l as [|y l IH]; simpl; auto.
  destruct (String.eqb x y) eqn:Exy.
  - apply String.eqb_eq in Exy. subst y.
    destruct (string_dec x name) as [->|Hne].
    + rewrite String.eqb_refl. simpl. lia.
    + rewrite (proj2 (String.eqb_neq name x)) by congruence. simpl. lia.
  - simpl. destruct (string_dec y name) as [->|Hne].
    + rewrite IH, String.eqb_sym, Exy. simpl. lia.
    + exact IH.
Qed.

(** Every parameter name takes one occurrence of itself out of the list. *)
Lemma surviving_count (keys current : list string) (name : string) :
  NoDup keys ->
  count_occ string_dec (surviving keys current) name =
  (count_occ string_dec current name -
   if mem_string name keys then 1 else 0)%nat.
Proof.
  unfold surviving. revert current.
  induction keys as [|key keys IH]; simpl; intros current Hnd; [lia|].
  inversion Hnd as [|? ? Hnotin Hnd']; subst.
  assert (Hstep : (if mem_string key current
                   then list_remove key current else current) =
                  list_remove key current).
  { destruct (mem_string key current) eqn:E; auto.
    now rewrite list_remove_absent. }
  rewrite Hstep, (IH _ Hnd'), count_occ_list_remove.
  destruct (String.eqb name key) eqn:E; simpl.
  - apply String.eqb_eq in E. subst.
    apply mem_string_not_In in Hnotin. rewrite Hnotin. lia.
  - destruct (mem_string name keys); lia.
Qed.

Lemma count_missing_parameter (name : string) (l : list string) :
  List.length (filter (names_parameter name) (map missing_parameter l)) =
  count_occ string_dec l name.
Proof.
  induction l as [|y l IH]; simpl; auto.
  unfold names_parameter at 1. simpl.
  destruct (string_dec y name) as [->|Hne].
  - rewrite String.eqb_refl. simpl. now rewrite IH.
  - rewrite (proj2 (String.eqb_neq y name)) by auto. exact IH.
Qed.

(** X15 -- Mandatory-parameters rule (E9000), repeated names.  [remove]
    takes out one occurrence only and the loop meets every parameter name
    once, so the number of matches that name a parameter is the number of
    times the name occurs in the required list, less one if the template has
    the parameter: a name required twice is still reported once for a
    template that has it. *)
Theorem mandatory_parameters_repeated_name
    (cfn : Template) (h : store) (name : string) :
  dict_wf (get_parameters cfn) ->
  List.length
    (filter (names_parameter name)
            (fst (match_ _mandatory_parameters cfn h))) =
  (count_occ string_dec (read h _mandatory_parameters) name -
   if dict_mem name (get_parameters cfn) then 1 else 0)%nat.
Proof.
  intros Hwf. rewrite match_matches, count_missing_parameter.
  rewrite surviving_count by exact Hwf. now rewrite mem_string_keys.
Qed.

Lemma mandatory_parameters_repeated_witness :
  List.length
    (filter (names_parameter "Environment")
            (fst (match_ _mandatory_parameters Examples.with_environment
                    MoreExamples.repeated_store))) = 1%nat.
Proof.
  refine (mandatory_parameters_repeated_name Examples.with_environment
            MoreExamples.repeated_store "Environment" _).
  apply nodup_keys_NoDup. reflexivity.
Defined.

End RepeatedNames.

Section RegexMore.

Local Notation "a +++ b" := (String.append a b)
  (at level 60, right associativity).

(** X16 -- The pattern of the log-group rule.  [re.search] with the rule's
    pattern finds nothing exactly when the string has no well-formed
    placeholder (dollar, open brace, a non-empty run without closing brace,
    closing brace); when it finds one, it is the leftmost: the string reads
    a prefix, the placeholder, a rest, and no proper suffix that begins
    inside the prefix begins with a placeholder. *)
Theorem search_finds_leftmost_placeholder (s : string) :
  (Re.search s = None <->
   forall pre f post,
     s = pre +++ "${" +++ f +++ "}" +++ post ->
     f = "" \/ str_contains "}" f = true) /\
  (forall f,
     Re.search s = Some f ->
     exists pre post,
       s = pre +++ "${" +++ f +++ "}" +++ post /\
       f <> "" /\ str_contains "}" f = false /\
       forall p1 p2, pre = p1 +++ p2 -> p2 <> "" ->
         Re.match_here (p2 +++ "${" +++ f +++ "}" +++ post) = None).
Proof.
  split; [split|].
  - intros Hnone pre f post ->.
    destruct f as [|c f]; [now left | right].
    destruct (str_contains "}" (String c f)) eqn:E; auto.
    destruct (search_complete pre (String c f) post) as [g Hg];
      [discriminate | exact E | congruence].
  - intros H. destruct (Re.search s) as [f|] eqn:E; auto.
    apply search_sound in E as [[pre [post ->]] [Hne Hfree]].
    destruct (H pre f post eq_refl) as [->|Hc]; congruence.
  - intros f Hf. apply search_Some in Hf as [pre [rest [-> [Hm Hleft]]]].
    destruct (match_here_sound _ _ Hm) as [[post ->] [Hne Hfree]].
    exists pre, post. repeat split; auto.
Qed.

End RegexMore.

Section PermissionMore.

Import LambdaInsightsPermission.

(** X17 -- Insights-permission rule (E9006), type of the companion.  The
    role of a function is looked up among the resources of type
    AWS::IAM::Role only: when the resource that carries the conventional
    name has another type, the check of the function raises KeyError and the
    rule does not return. *)
Theorem insights_permission_role_of_other_type
    (cfn : Template) (f : string) (r : value) :
  dict_wf (Resources cfn) ->
  In f (dict_keys (get_resources cfn ["AWS::Lambda::Function"])) ->
  In (role_name f, r) (Resources cfn) ->
  type_tag r <> Some "AWS::IAM::Role" ->
  check (get_resources cfn ["AWS::IAM::Role"]) f = Raise KeyError /\
  exists e, match_ cfn = Raise e.
Proof.
  intros Hwf Hf Hin Htype.
  assert (Hnone : dict_get (role_name f)
                    (get_resources cfn ["AWS::IAM::Role"]) = None).
  { destruct (dict_get (role_name f) (get_resources cfn ["AWS::IAM::Role"]))
      as [r'|] eqn:E; auto.
    exfalso. apply dict_get_In, get_resources_In in E as [Hin' Ht].
    pose proof (In_dict_get _ _ _ Hwf Hin) as H1.
    pose proof (In_dict_get _ _ _ Hwf Hin') as H2.
    rewrite H1 in H2. injection H2 as <-.
    apply Htype. unfold has_type in Ht. cbn [snd] in Ht.
    destruct (type_tag r) as [t|]; [|discriminate].
    cbn [mem_string] in Ht. rewrite orb_false_r in Ht.
    apply String.eqb_eq in Ht. now subst. }
  split; [now apply check_absent|].
  unfold match_.
  apply (for_each_raises _ _ f KeyError Hf). now apply check_absent.
Qed.

Lemma insights_permission_other_type_witness :
  exists e, match_ MoreExamples.role_of_other_type = Raise e.
Proof.
  refine (proj2 (insights_permission_role_of_other_type
                   MoreExamples.role_of_other_type "Fn"
                   (Examples.resource "AWS::IAM::ManagedPolicy" []) _ _ _ _)).
  - apply nodup_keys_NoDup. reflexivity.
  - simpl. tauto.
  - simpl. tauto.
  - discriminate.
Defined.

End PermissionMore.

(* ================================================================== *)
(** * E9001 and E9002 on a resource without Properties *)
(* ================================================================== *)

Section MissingProperties.

(** C3 -- Shape-mismatch tolerance.  The claim asks that the runtime rule
    (E9001) and the log-group rule (E9002) return normally on a function or
    a log group that has a Type and no Properties key.  They do not: both
    read Properties without a default, so the check of such a function raises
    AttributeError and the scan of such a log group raises TypeError, E9001
    raises AttributeError on every template with such a function and E9002
    does not return on any template with such a log group -- while the checks
    of E9003, E9005 and E9007, which read Properties with the empty default,
    return on the same resource. *)
Theorem runtime_and_log_group_rules_need_properties
    (cfn : Template) (key : string) (d : dict) :
  dict_get "Properties" d = None ->
  Python39Rule.check (key, VDict d) = Raise AttributeError /\
  LambdaLogGroupRule.scan_log_group (VDict d) = Raise TypeError /\
  (In (key, VDict d) (get_resources cfn ["AWS::Lambda::Function"]) ->
   Python39Rule.match_ cfn = Raise AttributeError) /\
  (In (key, VDict d) (get_resources cfn ["AWS::Logs::LogGroup"]) ->
   exists e, LambdaLogGroupRule.match_ cfn = Raise e) /\
  LambdaESMDestinationConfig.check (key, VDict d) =
    Ok [destination_match key] /\
  LambdaInsightsLayer.check (key, VDict d) = Ok [layer_match key] /\
  IAMPutEventsConditions.check (key, VDict d) = Ok [].
Proof.
  intros Hp.
  assert (Hc : Python39Rule.check (key, VDict d) = Raise AttributeError).
  { unfold Python39Rule.check. cbn [py_get bind]. now rewrite Hp. }
  assert (Hs : LambdaLogGroupRule.scan_log_group (VDict d) = Raise TypeError).
  { unfold LambdaLogGroupRule.scan_log_group. cbn [py_get bind].
    now rewrite Hp. }
  destruct (bare_resource_checks key d [] [] Hp)
    as [H3 [_ [_ [H5 [_ H7]]]]].
  repeat split; auto.
  - intros Hin. unfold Python39Rule.match_.
    destruct (for_each_raises Python39Rule.check _ _ _ Hin Hc) as [e He].
    rewrite He. f_equal.
    apply for_each_Raise in He as [[k r] [_ Hr]].
    pose proof (runtime_check_spec k r) as Hspec.
    destruct r as [| | | | |d']; try congruence.
    destruct (dict_get "Properties" d') as [[| | | | |props]|]; congruence.
  - intros Hin. unfold LambdaLogGroupRule.match_.
    destruct (for_each_raises LambdaLogGroupRule.scan_log_group
                (dict_values (get_resources cfn ["AWS::Logs::LogGroup"]))
                (VDict d) TypeError) as [e He]; auto.
    + change (VDict d) with (snd (key, VDict d)). now apply in_map.
    + exists e. now rewrite He.
Qed.

Lemma runtime_and_log_group_rules_witness :
  Python39Rule.match_ Examples.bare_function = Raise AttributeError /\
  exists e, LambdaLogGroupRule.match_ Examples.bare_log_group = Raise e.
Proof.
  split.
  - refine (proj1 (proj2 (proj2 (runtime_and_log_group_rules_need_properties
              Examples.bare_function "Fn"
              [("Type", VStr "AWS::Lambda::Function")] eq_refl))) _).
    simpl. left. reflexivity.
  - refine (proj1 (proj2 (proj2 (proj2
              (runtime_and_log_group_rules_need_properties
                 Examples.bare_log_group "Logs"
                 [("Type", VStr "AWS::Logs::LogGroup")] eq_refl)))) _).
    simpl. left. reflexivity.
Defined.

End MissingProperties.
